(** * Order lifecycle tracker and parameter validation

    A shallow embedding of [src/exchange/orders.py] and
    [src/utils/validation.py] together with the fragment of the Python
    runtime these two modules rely on: [str] values, [decimal.Decimal]
    (construction from a string, [str()], ordering, truthiness), the two
    regular expressions handed to [re.match], dynamically typed values
    stored in [dict]s, exceptions, and the object heap on which [Order]
    objects and [dict]s live.

    Conventions.
    - The runtime is CPython 3.11 on a 64-bit platform with its default
      settings: [decimal] is the C implementation ([_decimal], on
      libmpdec) under its default context (the [InvalidOperation] signal is
      trapped, so it raises), and conversions between [int] and [str] are
      limited to [sys.get_int_max_str_digits()] = 4300 digits.
    - A Python [str] is a [string]; its characters are the code points
      below 256.
    - Memory is not bounded: a string or an [int] can be as long as it
      takes.  The limits of libmpdec on the exponent of a number are
      modelled; its limit on the number of digits (10^18 - 1) is modelled
      for the values, not for the count of fraction digits of an input
      string, which only a string of more than 10^18 characters reaches.
    - [float] values are not part of the value universe. *)

From Stdlib Require Import ZArith NArith Ascii String List Bool Lia.
From Stdlib Require Import DecimalString DecimalN DecimalZ DecimalPos.
From stdpp Require Import gmap strings list fin_maps.

Local Open Scope Z_scope.

(** ** Python strings *)

Module Str.

Definition is_digit (c : ascii) : bool :=
  match c with
  | "0" | "1" | "2" | "3" | "4" | "5" | "6" | "7" | "8" | "9" => true
  | _ => false
  end%char.

Definition is_upper (c : ascii) : bool :=
  let n := nat_of_ascii c in (Nat.leb 65 n && Nat.leb n 90)%bool.

Definition is_lower (c : ascii) : bool :=
  let n := nat_of_ascii c in (Nat.leb 97 n && Nat.leb n 122)%bool.

(** [str.isspace] on the code points below 256. *)
Definition is_space (c : ascii) : bool :=
  match c with
  | "009" | "010" | "011" | "012" | "013"
  | "028" | "029" | "030" | "031" | " " | "133" | "160" => true
  | _ => false
  end%char.

(** ASCII lower-casing, as used by a case-insensitive match against an
    ASCII pattern. *)
Definition lower (c : ascii) : ascii :=
  if is_upper c then ascii_of_nat (nat_of_ascii c + 32) else c.

Fixpoint lower_str (s : string) : string :=
  match s with
  | EmptyString => EmptyString
  | String c r => String (lower c) (lower_str r)
  end.

Fixpoint all (p : ascii -> bool) (s : string) : bool :=
  match s with
  | EmptyString => true
  | String c r => (p c && all p r)%bool
  end.

(** [c * n] *)
Fixpoint repeat (c : ascii) (n : nat) : string :=
  match n with
  | O => EmptyString
  | S k => String c (repeat c k)
  end.

(** [s[:n]] and [s[n:]] for [n >= 0] *)
Fixpoint take (n : nat) (s : string) : string :=
  match n, s with
  | S k, String c r => String c (take k r)
  | _, _ => EmptyString
  end.

Fixpoint drop (n : nat) (s : string) : string :=
  match n, s with
  | S k, String _ r => drop k r
  | _, _ => s
  end.

(** Longest prefix whose characters satisfy [p], and the rest. *)
Fixpoint span (p : ascii -> bool) (s : string) : string * string :=
  match s with
  | String c r =>
      if p c then let '(a, b) := span p r in (String c a, b)
      else (EmptyString, s)
  | EmptyString => (EmptyString, EmptyString)
  end.

(** [t] does not start with a character satisfying [p]. *)
Definition stops (p : ascii -> bool) (t : string) : Prop :=
  match t with String c _ => p c = false | EmptyString => True end.

Fixpoint lstrip (s : string) : string :=
  match s with
  | String c r => if is_space c then lstrip r else s
  | EmptyString => EmptyString
  end.

(** [rstrip] returns [""] for an all-blank string, and otherwise keeps
    everything up to the last non-blank character. *)
Fixpoint rstrip (s : string) : string :=
  match s with
  | EmptyString => EmptyString
  | String c r =>
      match rstrip r with
      | EmptyString => if is_space c then EmptyString else String c EmptyString
      | r' => String c r'
      end
  end.

(** [s.strip()] *)
Definition strip (s : string) : string := rstrip (lstrip s).

(** [s.replace(c, "")] for a one-character [c] *)
Fixpoint remove (c : ascii) (s : string) : string :=
  match s with
  | EmptyString => EmptyString
  | String a r => if Ascii.eqb a c then remove c r else String a (remove c r)
  end.

(** ["\n"] *)
Definition newline : string := String "010" "".

(** [str(n)] for an integer [n >= 0] *)
Definition of_N (n : N) : string := NilEmpty.string_of_uint (N.to_uint n).

(** [int(s)] for a string [s] of decimal digits (leading zeros allowed);
    the callers only pass such strings. *)
Definition to_N (s : string) : N :=
  match NilEmpty.uint_of_string s with
  | Some d => N.of_uint d
  | None => 0%N
  end.

(** [str(z)] for an integer *)
Definition of_Z (z : Z) : string :=
  if z <? 0 then String "-" (of_N (Z.abs_N z)) else of_N (Z.abs_N z).

(** ["%+d" % z] *)
Definition of_Z_plus (z : Z) : string :=
  String (if z <? 0 then "-"%char else "+"%char) (of_N (Z.abs_N z)).

End Str.

(** ** decimal.Decimal *)

(** A [Decimal] is a finite number [(-1)^sign * coeff * 10^exp], an infinity,
    or a quiet or signaling NaN with a diagnostic payload ([0] stands for the
    empty payload). *)
Inductive Decimal : Type :=
| Finite (sign : bool) (coeff : N) (exp : Z)
| Infinity (sign : bool)
| NaN (sign : bool) (signaling : bool) (diag : N).

Module Dec.

Definition zero : Decimal := Finite false 0 0.

Definition sign_str (sign : bool) : string := if sign then "-" else "".

(** [Decimal.__str__]: the to-scientific-string conversion. *)
Definition to_str (d : Decimal) : string :=
  match d with
  | Infinity s => sign_str s +:+ "Infinity"
  | NaN s sig diag =>
      sign_str s +:+ (if sig then "sNaN" else "NaN")
                 +:+ (if (diag =? 0)%N then "" else Str.of_N diag)
  | Finite s coeff exp =>
      let _int := Str.of_N coeff in
      let len := Z.of_nat (String.length _int) in
      let leftdigits := exp + len in
      let dotplace :=
        if (exp <=? 0) && (-6 <? leftdigits) then leftdigits else 1 in
      let '(intpart, fracpart) :=
        if dotplace <=? 0 then
          ("0", "." +:+ Str.repeat "0" (Z.to_nat (- dotplace)) +:+ _int)
        else if len <=? dotplace then
          (_int +:+ Str.repeat "0" (Z.to_nat (dotplace - len)), "")
        else
          (Str.take (Z.to_nat dotplace) _int,
           "." +:+ Str.drop (Z.to_nat dotplace) _int) in
      let exp_str :=
        if leftdigits =? dotplace then ""
        else "E" +:+ Str.of_Z_plus (leftdigits - dotplace) in
      sign_str s +:+ intpart +:+ fracpart +:+ exp_str
  end.

(** The limits of the implementation: [decimal.MAX_PREC],
    [decimal.MAX_EMAX] and [decimal.MIN_ETINY]. *)
Definition MAX_PREC : Z := 999999999999999999.
Definition MAX_EMAX : Z := 999999999999999999.
Definition MIN_ETINY : Z := -1999999999999999997.

(** The number of digits of a coefficient or payload ([0] has one). *)
Definition digits (c : N) : Z := Z.of_nat (String.length (Str.of_N c)).

(** The values that a [Decimal] object can have: the exponent of a finite
    number is at least [MIN_ETINY], its adjusted exponent
    [exp + digits - 1] at most [MAX_EMAX], and no coefficient or payload
    has more than [MAX_PREC] digits. *)
Definition representable (d : Decimal) : bool :=
  match d with
  | Finite _ coeff exp =>
      (MIN_ETINY <=? exp) && (exp + digits coeff - 1 <=? MAX_EMAX)
      && (digits coeff <=? MAX_PREC)
  | Infinity _ => true
  | NaN _ _ diag => digits diag <=? MAX_PREC
  end.

(** The grammar of numeric strings, after the sign:
    [(?=\d|\.\d)(\d* )(\.(\d* ))?(E([-+]?\d+))?\Z], case-insensitive.
    Returns the groups [int], [frac] and [exp]. *)
Definition parse_exp (s : string) : option (option Z * string) :=
  match s with
  | String c r =>
      if Ascii.eqb (Str.lower c) "e" then
        let '(neg, r1) :=
          match r with
          | String "-" r' => (true, r')
          | String "+" r' => (false, r')
          | _ => (false, r)
          end in
        let '(digits, r2) := Str.span Str.is_digit r1 in
        match digits with
        | EmptyString => None
        | _ => let n := Z.of_N (Str.to_N digits) in
               Some (Some (if neg then - n else n), r2)
        end
      else Some (None, s)
  | EmptyString => Some (None, s)
  end.

Definition parse_number (s : string) : option (string * option string * option Z) :=
  let '(intpart, r1) := Str.span Str.is_digit s in
  let '(fracpart, r2) :=
    match r1 with
    | String "." r => let '(f, r') := Str.span Str.is_digit r in (Some f, r')
    | _ => (None, r1)
    end in
  let lookahead :=
    match intpart, fracpart with
    | String _ _, _ => true
    | EmptyString, Some (String _ _) => true
    | _, _ => false
    end in
  if lookahead then
    match parse_exp r2 with
    | Some (e, EmptyString) => Some (intpart, fracpart, e)
    | _ => None
    end
  else None.

(** [(s)?NaN(\d* )\Z], case-insensitive: the groups [signal] and [diag]. *)
Definition parse_nan (s : string) : option (bool * string) :=
  let '(sig, r) :=
    match s with
    | String c r' => if Ascii.eqb (Str.lower c) "s" then (true, r') else (false, s)
    | EmptyString => (false, s)
    end in
  if String.eqb (Str.lower_str (Str.take 3 r)) "nan"
     && Str.all Str.is_digit (Str.drop 3 r)
  then Some (sig, Str.drop 3 r) else None.

(** The number that a string denotes, if it is a numeric string: blanks
    around it are stripped, underscores are dropped wherever they are. *)
Definition parse (value : string) : option Decimal :=
  let s := Str.remove "_" (Str.strip value) in
  let '(sign, body) :=
    match s with
    | String "-" r => (true, r)
    | String "+" r => (false, r)
    | _ => (false, s)
    end in
  match parse_number body with
  | Some (intpart, fracpart, e) =>
      let frac := default "" fracpart in
      Some (Finite sign (Str.to_N (intpart +:+ frac))
              (default 0 e - Z.of_nat (String.length frac)))
  | None =>
      let low := Str.lower_str body in
      if String.eqb low "inf" || String.eqb low "infinity" then
        Some (Infinity sign)
      else
        match parse_nan body with
        | Some (sig, diag) => Some (NaN sign sig (Str.to_N diag))
        | None => None
        end
  end.

(** [Decimal(value)] for a [str] argument: the conversion is exact, so the
    number that the string denotes has to be within the limits.  [None]
    stands for the [InvalidOperation] raised on a syntax error and on a
    number beyond the limits. *)
Definition of_str (value : string) : option Decimal :=
  match parse value with
  | Some d => if representable d then Some d else None
  | None => None
  end.

(** The shape of a finite numeric string: integer digits, an optional
    fraction and an optional exponent. *)
Definition numeric (i : string) (fo : option string) (eo : option Z) : string :=
  i +:+ match fo with Some f => "." +:+ f | None => "" end
    +:+ match eo with Some z => "E" +:+ Str.of_Z_plus z | None => "" end.

(** Characters that [strip] and [replace("_", "")] leave in place. *)
Definition plain (c : ascii) : bool :=
  negb (Str.is_space c) && negb (Ascii.eqb c "_").

End Dec.

Module DecOps.

(** [Decimal.__bool__]: special values and non-zero numbers are true. *)
Definition truthy (d : Decimal) : bool :=
  match d with
  | Finite _ c _ => negb (c =? 0)%N
  | _ => true
  end.

Definition is_nan (d : Decimal) : bool :=
  match d with NaN _ _ _ => true | _ => false end.

(** [Decimal(z)] for an [int] *)
Definition of_Z (z : Z) : Decimal := Finite (z <? 0) (Z.abs_N z) 0.

Definition signed (sign : bool) (c : N) : Z :=
  if sign then - Z.of_N c else Z.of_N c.

(** The three-way comparison of two numbers by value: finite numbers are
    brought to the smaller exponent, an infinity lies beyond every finite
    number.  [None] when an operand is a NaN. *)
Definition cmp (a b : Decimal) : option comparison :=
  match a, b with
  | NaN _ _ _, _ | _, NaN _ _ _ => None
  | Infinity sa, Infinity sb => Some (Z.compare (signed sa 1) (signed sb 1))
  | Infinity sa, Finite _ _ _ => Some (if sa then Lt else Gt)
  | Finite _ _ _, Infinity sb => Some (if sb then Gt else Lt)
  | Finite sa ca ea, Finite sb cb eb =>
      let e := Z.min ea eb in
      Some (Z.compare (signed sa ca * 10 ^ (ea - e))
                      (signed sb cb * 10 ^ (eb - e)))
  end.

Definition lt (a b : Decimal) : Prop := cmp a b = Some Lt.
Definition gt (a b : Decimal) : Prop := cmp a b = Some Gt.
Definition le (a b : Decimal) : Prop := cmp a b = Some Lt \/ cmp a b = Some Eq.

(** Strictly positive numbers (an infinity included). *)
Definition positive (d : Decimal) : Prop := cmp d Dec.zero = Some Gt.

(** [int(d)] for a finite [d]: truncation towards zero. *)
Definition trunc (sign : bool) (c : N) (e : Z) : Z :=
  signed sign (if 0 <=? e then (c * 10 ^ Z.to_N e)%N
               else (c / 10 ^ Z.to_N (- e))%N).

End DecOps.

(** ** Dynamically typed values and exceptions *)

(** The values that flow through parameter maps and exchange payloads. *)
Inductive pyval : Type :=
| VNone
| VBool (b : bool)
| VInt (z : Z)
| VStr (s : string)
| VDec (d : Decimal).

(** The argument of a [ValueError]: a message, the value that an enum
    constructor or [int()] turned down (its [repr] is part of the message),
    or the report that a conversion between [int] and [str] exceeds the
    limit on the number of digits ([int()] reports how many digits the
    string has, [str()] does not). *)
Inductive value_error_arg : Type :=
| Msg (msg : string)
| NotAValidOrderStatus (v : pyval)
| InvalidIntLiteral (s : string)
| ExceedsDigitLimit (digits : option Z).

(** Exceptions by class.  [InvalidOperation] is [decimal.InvalidOperation],
    a subclass of [ArithmeticError]; [ValidationError] derives from
    [Exception] directly. *)
Inductive exn : Type :=
| ValidationError (msg : string)
| ValueError (arg : value_error_arg)
| TypeError
| OverflowError
| InvalidOperation.

Inductive result (A : Type) : Type :=
| Ok (a : A)
| Raise (e : exn).
Arguments Ok {A} a.
Arguments Raise {A} e.

#[global] Instance result_ret : MRet result := fun A a => Ok a.
#[global] Instance result_bind : MBind result := fun A B f r =>
  match r with
  | Ok a => f a
  | Raise e => Raise e
  end.

(** [except (TypeError, ValueError):] *)
Definition is_TypeError_or_ValueError (e : exn) : bool :=
  match e with
  | TypeError | ValueError _ => true
  | _ => false
  end.

(** [try: body  except classes: handler] *)
Definition try_except {A} (body : result A) (classes : exn -> bool)
    (handler : result A) : result A :=
  match body with
  | Ok a => Ok a
  | Raise e => if classes e then handler else Raise e
  end.

Module Py.

(** [sys.get_int_max_str_digits()] *)
Definition int_max_str_digits : Z := 4300.

(** [str(v)], which is also what an f-string makes of [{v}]: an [int] of
    more digits than the limit raises [ValueError]. *)
Definition str (v : pyval) : result string :=
  match v with
  | VNone => Ok "None"
  | VBool b => Ok (if b then "True" else "False")
  | VInt z =>
      if int_max_str_digits <? Dec.digits (Z.abs_N z)
      then Raise (ValueError (ExceedsDigitLimit None))
      else Ok (Str.of_Z z)
  | VStr s => Ok s
  | VDec d => Ok (Dec.to_str d)
  end.

(** [bool(v)] *)
Definition truthy (v : pyval) : bool :=
  match v with
  | VNone => false
  | VBool b => b
  | VInt z => negb (z =? 0)
  | VStr s => negb (String.eqb s "")
  | VDec d => DecOps.truthy d
  end.

(** [Decimal(s)] for a string: a syntax error raises [InvalidOperation]. *)
Definition Decimal_of_str (s : string) : result Decimal :=
  match Dec.of_str s with
  | Some d => Ok d
  | None => Raise InvalidOperation
  end.

(** [Decimal(str(v))] *)
Definition Decimal_of (v : pyval) : result Decimal :=
  s ← str v; Decimal_of_str s.

(** The operand of a comparison with a [Decimal], converted as
    [_convert_for_comparison] does: [int] (and [bool]) become decimals,
    [str] and [None] are not comparable. *)
Definition comparable (v : pyval) : option Decimal :=
  match v with
  | VDec d => Some d
  | VInt z => Some (DecOps.of_Z z)
  | VBool b => Some (DecOps.of_Z (if b then 1 else 0))
  | VStr _ | VNone => None
  end.

(** An ordering comparison of two decimals: a NaN operand signals
    [InvalidOperation]. *)
Definition dec_order (test : comparison -> bool) (a b : Decimal) : result bool :=
  match DecOps.cmp a b with
  | Some c => Ok (test c)
  | None => Raise InvalidOperation
  end.

Definition is_Lt (c : comparison) : bool := match c with Lt => true | _ => false end.
Definition is_Gt (c : comparison) : bool := match c with Gt => true | _ => false end.
Definition is_Le (c : comparison) : bool := negb (is_Gt c).

(** [a <= b], [a < v] and [a > v] for a [Decimal] [a] *)
Definition dec_le (a b : Decimal) : result bool := dec_order is_Le a b.

Definition dec_lt_val (a : Decimal) (v : pyval) : result bool :=
  match comparable v with
  | Some b => dec_order is_Lt a b
  | None => Raise TypeError
  end.

Definition dec_gt_val (a : Decimal) (v : pyval) : result bool :=
  match comparable v with
  | Some b => dec_order is_Gt a b
  | None => Raise TypeError
  end.

(** [z > v] for an [int] [z]: against a [Decimal] the reflected comparison
    of [Decimal] decides. *)
Definition int_gt_val (z : Z) (v : pyval) : result bool :=
  match v with
  | VInt y => Ok (y <? z)
  | VBool b => Ok ((if b then 1 else 0) <? z)
  | VDec d => dec_order is_Lt d (DecOps.of_Z z)
  | VStr _ | VNone => Raise TypeError
  end.

(** The digits of an [int] literal: single underscores may separate
    digits. *)
Fixpoint int_digits (after_digit : bool) (s : string) : bool :=
  match s with
  | EmptyString => after_digit
  | String c r =>
      if Str.is_digit c then int_digits true r
      else if Ascii.eqb c "_" then after_digit && int_digits false r
      else false
  end.

(** The blanks that [int()] skips around a literal: the ASCII white space
    and the blanks beyond ASCII, but not the separators U+001C to U+001F,
    which [str.isspace] and [Decimal()] count as blanks. *)
Definition int_space (c : ascii) : bool :=
  match c with
  | "009" | "010" | "011" | "012" | "013" | " " | "133" | "160" => true
  | _ => false
  end%char.

Definition digit_or_underscore (c : ascii) : bool :=
  Str.is_digit c || Ascii.eqb c "_".

(** [int(s)] for a string, base 10: blanks, a sign, the run of digits and
    underscores, blanks.  The limit on the number of digits (leading zeros
    count, underscores do not) is checked when the run has been scanned,
    before what follows the run is looked at. *)
Definition int_of_str (s : string) : result Z :=
  let t := snd (Str.span int_space s) in
  let '(neg, body) :=
    match t with
    | String "-" r => (true, r)
    | String "+" r => (false, r)
    | _ => (false, t)
    end in
  let '(run, rest) := Str.span digit_or_underscore body in
  if negb (int_digits false run) then Raise (ValueError (InvalidIntLiteral s))
  else
    let literal := Str.remove "_" run in
    let ndigits := Z.of_nat (String.length literal) in
    if int_max_str_digits <? ndigits
    then Raise (ValueError (ExceedsDigitLimit (Some ndigits)))
    else
      match snd (Str.span int_space rest) with
      | EmptyString =>
          let n := Z.of_N (Str.to_N literal) in
          Ok (if neg then - n else n)
      | _ => Raise (ValueError (InvalidIntLiteral s))
      end.

(** [int(v)] *)
Definition int (v : pyval) : result Z :=
  match v with
  | VInt z => Ok z
  | VBool b => Ok (if b then 1 else 0)
  | VStr s => int_of_str s
  | VNone => Raise TypeError
  | VDec (Finite s c e) => Ok (DecOps.trunc s c e)
  | VDec (Infinity _) => Raise OverflowError
  | VDec (NaN _ _ _) => Raise (ValueError (Msg "cannot convert NaN to integer"))
  end.

(** [d.get(k)] and [d.get(k, dflt)] *)
Definition get (d : gmap string pyval) (k : string) : pyval :=
  default VNone (d !! k).

Definition get_default (d : gmap string pyval) (k : string) (dflt : pyval) : pyval :=
  default dflt (d !! k).

End Py.

(** ** Regular expressions, as [re.match] applies them *)

Module Re.

Inductive re : Type :=
| Void
| Eps
| Chr (p : ascii -> bool)
| Cat (r1 r2 : re)
| Alt (r1 r2 : re)
| Star (r : re).

(** [r+] *)
Definition Plus (r : re) : re := Cat r (Star r).

(** [r?] *)
Definition Opt (r : re) : re := Alt Eps r.

(** [r{lo,lo+extra}] *)
Fixpoint Upto (r : re) (extra : nat) : re :=
  match extra with
  | O => Eps
  | S k => Opt (Cat r (Upto r k))
  end.

Fixpoint Rep (r : re) (lo extra : nat) : re :=
  match lo with
  | O => Upto r extra
  | S k => Cat r (Rep r k extra)
  end.

(** [$] without [re.MULTILINE]: the end of the string, or the position just
    before a newline that ends the string. *)
Definition Dollar : re := Opt (Chr (Ascii.eqb "010")).

Fixpoint nullable (r : re) : bool :=
  match r with
  | Void => false
  | Eps => true
  | Chr _ => false
  | Cat r1 r2 => nullable r1 && nullable r2
  | Alt r1 r2 => nullable r1 || nullable r2
  | Star _ => true
  end.

(** The derivative of [r] by the character [c]. *)
Fixpoint deriv (c : ascii) (r : re) : re :=
  match r with
  | Void | Eps => Void
  | Chr p => if p c then Eps else Void
  | Cat r1 r2 =>
      if nullable r1 then Alt (Cat (deriv c r1) r2) (deriv c r2)
      else Cat (deriv c r1) r2
  | Alt r1 r2 => Alt (deriv c r1) (deriv c r2)
  | Star r1 => Cat (deriv c r1) (Star r1)
  end.

(** [re.match(pattern, s) is not None] for a pattern [^r$]: here [r]
    already ends in [Dollar], so the whole of [s] has to be consumed. *)
Fixpoint matches (r : re) (s : string) : bool :=
  match s with
  | EmptyString => nullable r
  | String c t => matches (deriv c r) t
  end.

(** The strings an expression denotes. *)
Inductive lang : re -> string -> Prop :=
| lang_eps : lang Eps ""
| lang_chr p c : p c = true -> lang (Chr p) (String c "")
| lang_cat r1 r2 s1 s2 : lang r1 s1 -> lang r2 s2 -> lang (Cat r1 r2) (s1 +:+ s2)
| lang_alt_l r1 r2 s : lang r1 s -> lang (Alt r1 r2) s
| lang_alt_r r1 r2 s : lang r2 s -> lang (Alt r1 r2) s
| lang_star_nil r : lang (Star r) ""
| lang_star_cons r s1 s2 : lang r s1 -> lang (Star r) s2 -> lang (Star r) (s1 +:+ s2).

End Re.

(** ** src/utils/validation.py *)

(** [[A-Z0-9]] *)
Definition upper_alnum (c : ascii) : bool := Str.is_upper c || Str.is_digit c.

(** [[a-zA-Z0-9_-]] *)
Definition id_char (c : ascii) : bool :=
  Str.is_lower c || Str.is_upper c || Str.is_digit c
  || Ascii.eqb c "_" || Ascii.eqb c "-".

(** [r'^[A-Z0-9]+-[A-Z0-9]+$'] *)
Definition symbol_pattern : Re.re :=
  Re.Cat (Re.Plus (Re.Chr upper_alnum))
    (Re.Cat (Re.Chr (Ascii.eqb "-"))
       (Re.Cat (Re.Plus (Re.Chr upper_alnum)) Re.Dollar)).

(** [r'^[a-zA-Z0-9_-]{1,36}$'] *)
Definition client_order_id_pattern : Re.re :=
  Re.Cat (Re.Rep (Re.Chr id_char) 1 35) Re.Dollar.

(** The symbol format in the words of the specification: two non-empty
    segments of upper-case letters and digits, joined by one hyphen. *)
Definition symbol_format (s : string) : Prop :=
  exists a b,
    s = a +:+ "-" +:+ b
    /\ a <> "" /\ b <> ""
    /\ Str.all upper_alnum a = true /\ Str.all upper_alnum b = true.

Definition validate_symbol (symbol : pyval) : result string :=
  match symbol with
  | VStr s =>
      if negb (Re.matches symbol_pattern s) then
        Raise (ValidationError
                 "Invalid symbol format. Expected format: XXX-XXX (e.g., BTC-USDT)")
      else Ok s
  | _ => Raise (ValidationError "Symbol must be a string")
  end.

Definition validate_quantity (quantity min_quantity max_quantity : pyval)
  : result Decimal :=
  quantity_decimal ←
    try_except (Py.Decimal_of quantity)
      is_TypeError_or_ValueError
      (Raise (ValidationError "Invalid quantity format"));
  nonpositive ← Py.dec_le quantity_decimal Dec.zero;
  if nonpositive : bool then
    Raise (ValidationError "Quantity must be greater than 0")
  else
    below ← (if Py.truthy min_quantity
             then Py.dec_lt_val quantity_decimal min_quantity else Ok false);
    if below : bool then
      shown ← Py.str min_quantity;
      Raise (ValidationError ("Quantity must be at least " +:+ shown))
    else
      above ← (if Py.truthy max_quantity
               then Py.dec_gt_val quantity_decimal max_quantity else Ok false);
      if above : bool then
        shown ← Py.str max_quantity;
        Raise (ValidationError ("Quantity must not exceed " +:+ shown))
      else Ok quantity_decimal.

Definition validate_price (price min_price max_price : pyval) : result Decimal :=
  price_decimal ←
    try_except (Py.Decimal_of price)
      is_TypeError_or_ValueError
      (Raise (ValidationError "Invalid price format"));
  nonpositive ← Py.dec_le price_decimal Dec.zero;
  if nonpositive : bool then
    Raise (ValidationError "Price must be greater than 0")
  else
    below ← (if Py.truthy min_price
             then Py.dec_lt_val price_decimal min_price else Ok false);
    if below : bool then
      shown ← Py.str min_price;
      Raise (ValidationError ("Price must be at least " +:+ shown))
    else
      above ← (if Py.truthy max_price
               then Py.dec_gt_val price_decimal max_price else Ok false);
      if above : bool then
        shown ← Py.str max_price;
        Raise (ValidationError ("Price must not exceed " +:+ shown))
      else Ok price_decimal.

(** A bound of type [Optional[Decimal]] as an argument. *)
Definition bound (b : option Decimal) : pyval :=
  match b with Some d => VDec d | None => VNone end.

(** The bound that is checked: a bound that is given and not zero. *)
Definition effective_bound (b : option Decimal) : option Decimal :=
  match b with
  | Some d => if DecOps.truthy d then Some d else None
  | None => None
  end.

(** A bound that is a number, if given. *)
Definition bound_is_number (b : option Decimal) : Prop :=
  match b with Some d => DecOps.is_nan d = false | None => True end.

(** The three range messages of [validate_quantity] ([what] is
    ["Quantity"]) and [validate_price] ([what] is ["Price"]): the error
    class OutOfRange of the specification. *)
Definition out_of_range_message (what msg : string) : Prop :=
  msg = what +:+ " must be greater than 0"
  \/ (exists b, msg = what +:+ " must be at least " +:+ b)
  \/ (exists b, msg = what +:+ " must not exceed " +:+ b).

Definition OutOfRange (what : string) (r : result Decimal) : Prop :=
  exists msg, r = Raise (ValidationError msg) /\ out_of_range_message what msg.

(** [validate_quantity] and [validate_price] differ in the noun of their
    messages only; this is their common body, with the noun as a parameter
    ([what] is ["Quantity"] or ["Price"], [what_lc] its lower-case form). *)
Definition validate_amount (what what_lc : string)
    (amount min_amount max_amount : pyval) : result Decimal :=
  amount_decimal ←
    try_except (Py.Decimal_of amount)
      is_TypeError_or_ValueError
      (Raise (ValidationError ("Invalid " +:+ what_lc +:+ " format")));
  nonpositive ← Py.dec_le amount_decimal Dec.zero;
  if nonpositive : bool then
    Raise (ValidationError (what +:+ " must be greater than 0"))
  else
    below ← (if Py.truthy min_amount
             then Py.dec_lt_val amount_decimal min_amount else Ok false);
    if below : bool then
      shown ← Py.str min_amount;
      Raise (ValidationError (what +:+ " must be at least " +:+ shown))
    else
      above ← (if Py.truthy max_amount
               then Py.dec_gt_val amount_decimal max_amount else Ok false);
      if above : bool then
        shown ← Py.str max_amount;
        Raise (ValidationError (what +:+ " must not exceed " +:+ shown))
      else Ok amount_decimal.

Definition validate_leverage (leverage max_leverage : pyval) : result Z :=
  leverage_int ←
    try_except (Py.int leverage) is_TypeError_or_ValueError
      (Raise (ValidationError "Invalid leverage format"));
  if leverage_int <? 1 then
    Raise (ValidationError "Leverage must be at least 1")
  else
    above ← Py.int_gt_val leverage_int max_leverage;
    if above : bool then
      shown ← Py.str max_leverage;
      Raise (ValidationError ("Leverage must not exceed " +:+ shown))
    else Ok leverage_int.

(** [for param in required_params: if param not in params: raise ...] *)
Fixpoint check_required (required : list string) (params : gmap string pyval)
  : result unit :=
  match required with
  | [] => Ok tt
  | param :: rest =>
      match params !! param with
      | None => Raise (ValidationError ("Missing required parameter: " +:+ param))
      | Some _ => check_required rest params
      end
  end.

(** [for param in optional_params: if param in params:
       validated[param] = params[param]] *)
Fixpoint copy_optional (optional : list string) (params validated : gmap string pyval)
  : gmap string pyval :=
  match optional with
  | [] => validated
  | param :: rest =>
      match params !! param with
      | Some v => copy_optional rest params (<[param := v]> validated)
      | None => copy_optional rest params validated
      end
  end.

(** [x in ['BUY', 'SELL']] *)
Definition is_side (v : pyval) : bool :=
  match v with
  | VStr s => String.eqb s "BUY" || String.eqb s "SELL"
  | _ => false
  end.

Definition validate_order_params (params : gmap string pyval)
  : result (gmap string pyval) :=
  let validated : gmap string pyval := ∅ in
  check_required ["symbol"; "quantity"; "side"] params;;
  symbol ← validate_symbol (Py.get params "symbol");
  let validated := <["symbol" := VStr symbol]> validated in
  quantity ← validate_quantity (Py.get params "quantity")
                (Py.get params "min_quantity") (Py.get params "max_quantity");
  let validated := <["quantity" := VDec quantity]> validated in
  if negb (is_side (Py.get params "side")) then
    Raise (ValidationError "Invalid side. Must be 'BUY' or 'SELL'")
  else
    let validated := <["side" := Py.get params "side"]> validated in
    validated ←
      match params !! "price" with
      | Some price =>
          p ← validate_price price
                (Py.get params "min_price") (Py.get params "max_price");
          Ok (<["price" := VDec p]> validated)
      | None => Ok validated
      end;
    validated ←
      match params !! "leverage" with
      | Some leverage =>
          l ← validate_leverage leverage
                (Py.get_default params "max_leverage" (VInt 100));
          Ok (<["leverage" := VInt l]> validated)
      | None => Ok validated
      end;
    Ok (copy_optional ["client_order_id"; "time_in_force"; "reduce_only"]
          params validated).

(** The required parameters of a map pass their validation. *)
Definition required_params_valid (params : gmap string pyval) : Prop :=
  (exists s, validate_symbol (Py.get params "symbol") = Ok s)
  /\ (exists q, validate_quantity (Py.get params "quantity")
                  (Py.get params "min_quantity") (Py.get params "max_quantity")
                = Ok q)
  /\ is_side (Py.get params "side") = true.

(** The price and the leverage of a map, when present, pass their
    validation. *)
Definition present_params_valid (params : gmap string pyval) : Prop :=
  (forall price, params !! "price" = Some price ->
     exists p, validate_price price
                 (Py.get params "min_price") (Py.get params "max_price") = Ok p)
  /\ (forall leverage, params !! "leverage" = Some leverage ->
        exists l, validate_leverage leverage
                    (Py.get_default params "max_leverage" (VInt 100)) = Ok l).

(** The pass-through property in the words of the specification: valid
    required parameters are enough for the client order id to arrive in the
    result. *)
Definition client_order_id_always_passed_through : Prop :=
  forall (params : gmap string pyval) (v : pyval),
    params !! "client_order_id" = Some v ->
    required_params_valid params ->
    exists validated,
      validate_order_params params = Ok validated
      /\ validated !! "client_order_id" = Some v.

Definition validate_client_order_id (client_order_id : pyval) : result string :=
  match client_order_id with
  | VStr s =>
      if negb (Re.matches client_order_id_pattern s) then
        Raise (ValidationError
                 ("Invalid client order ID format. Must be 1-36 characters long "
                  +:+ "and contain only letters, numbers, underscore, and hyphen."))
      else Ok s
  | _ => Raise (ValidationError "Client order ID must be a string")
  end.


(** ** src/exchange/orders.py *)

Inductive OrderType : Type := MARKET | LIMIT | STOP_LOSS | TAKE_PROFIT.
Inductive OrderSide : Type := BUY | SELL.
Inductive OrderStatus : Type :=
  PENDING | OPEN | FILLED | CANCELLED | REJECTED | EXPIRED.

Definition OrderType_value (t : OrderType) : string :=
  match t with
  | MARKET => "MARKET"
  | LIMIT => "LIMIT"
  | STOP_LOSS => "STOP_LOSS"
  | TAKE_PROFIT => "TAKE_PROFIT"
  end.

Definition OrderSide_value (s : OrderSide) : string :=
  match s with BUY => "BUY" | SELL => "SELL" end.

Definition OrderStatus_value (s : OrderStatus) : string :=
  match s with
  | PENDING => "PENDING"
  | OPEN => "OPEN"
  | FILLED => "FILLED"
  | CANCELLED => "CANCELLED"
  | REJECTED => "REJECTED"
  | EXPIRED => "EXPIRED"
  end.

Definition all_statuses : list OrderStatus :=
  [PENDING; OPEN; FILLED; CANCELLED; REJECTED; EXPIRED].

(** [OrderStatus(v)]: the member whose value equals [v], or a [ValueError]. *)
Definition OrderStatus_of (v : pyval) : result OrderStatus :=
  match v with
  | VStr s =>
      match List.find (fun st => String.eqb (OrderStatus_value st) s) all_statuses with
      | Some st => Ok st
      | None => Raise (ValueError (NotAValidOrderStatus v))
      end
  | _ => Raise (ValueError (NotAValidOrderStatus v))
  end.

(** [status in [FILLED, CANCELLED, REJECTED, EXPIRED]] *)
Definition is_terminal (s : OrderStatus) : bool :=
  match s with
  | FILLED | CANCELLED | REJECTED | EXPIRED => true
  | PENDING | OPEN => false
  end.

Record OrderParams : Type := {
  symbol : string;
  side : OrderSide;
  order_type : OrderType;
  quantity : Decimal;
  price : option Decimal;
  stop_price : option Decimal;
  take_profit_price : option Decimal;
  leverage : option Z;
  time_in_force : string;
  reduce_only : bool;
  client_order_id : option string
}.

Definition with_client_order_id (id : option string) (p : OrderParams)
  : OrderParams :=
  {| symbol := symbol p; side := side p; order_type := order_type p;
     quantity := quantity p; price := price p; stop_price := stop_price p;
     take_profit_price := take_profit_price p; leverage := leverage p;
     time_in_force := time_in_force p; reduce_only := reduce_only p;
     client_order_id := id |}.

(** The fields that [update_from_exchange] fills from the payload without a
    conversion hold whatever value the payload has. *)
Record Order : Type := {
  params : OrderParams;
  status : OrderStatus;
  exchange_order_id : pyval;
  filled_quantity : Decimal;
  average_fill_price : option Decimal;
  last_update_timestamp : pyval;
  error_message : pyval
}.

(** [Order(params=params)] *)
Definition Order_init (p : OrderParams) : Order :=
  {| params := p; status := PENDING; exchange_order_id := VNone;
     filled_quantity := Finite false 0 0; average_fill_price := None;
     last_update_timestamp := VNone; error_message := VNone |}.

Definition set_status (v : OrderStatus) (o : Order) : Order :=
  {| params := params o; status := v; exchange_order_id := exchange_order_id o;
     filled_quantity := filled_quantity o;
     average_fill_price := average_fill_price o;
     last_update_timestamp := last_update_timestamp o;
     error_message := error_message o |}.

Definition set_exchange_order_id (v : pyval) (o : Order) : Order :=
  {| params := params o; status := status o; exchange_order_id := v;
     filled_quantity := filled_quantity o;
     average_fill_price := average_fill_price o;
     last_update_timestamp := last_update_timestamp o;
     error_message := error_message o |}.

Definition set_filled_quantity (v : Decimal) (o : Order) : Order :=
  {| params := params o; status := status o;
     exchange_order_id := exchange_order_id o; filled_quantity := v;
     average_fill_price := average_fill_price o;
     last_update_timestamp := last_update_timestamp o;
     error_message := error_message o |}.

Definition set_average_fill_price (v : option Decimal) (o : Order) : Order :=
  {| params := params o; status := status o;
     exchange_order_id := exchange_order_id o;
     filled_quantity := filled_quantity o; average_fill_price := v;
     last_update_timestamp := last_update_timestamp o;
     error_message := error_message o |}.

Definition set_last_update_timestamp (v : pyval) (o : Order) : Order :=
  {| params := params o; status := status o;
     exchange_order_id := exchange_order_id o;
     filled_quantity := filled_quantity o;
     average_fill_price := average_fill_price o;
     last_update_timestamp := v; error_message := error_message o |}.

Definition set_error_message (v : pyval) (o : Order) : Order :=
  {| params := params o; status := status o;
     exchange_order_id := exchange_order_id o;
     filled_quantity := filled_quantity o;
     average_fill_price := average_fill_price o;
     last_update_timestamp := last_update_timestamp o; error_message := v |}.

(** [bool(x)] for an [Optional[Decimal]] and an [Optional[str]] field *)
Definition truthy_decimal (x : option Decimal) : bool :=
  match x with Some d => DecOps.truthy d | None => false end.

Definition truthy_str (x : option string) : bool :=
  match x with Some s => negb (String.eqb s "") | None => false end.

(** [if not x: raise ValueError(msg)], then [str(x)], for the price field
    [x] that the order type requires *)
Definition required_price (x : option Decimal) (msg : string) : result string :=
  match x with
  | Some d =>
      if negb (DecOps.truthy d) then Raise (ValueError (Msg msg))
      else Ok (Dec.to_str d)
  | None => Raise (ValueError (Msg msg))
  end.

(** [Order.to_dict]: it reads the order and builds a new [dict]. *)
Definition to_dict (self : Order) : result (gmap string pyval) :=
  let p := params self in
  let base_dict : gmap string pyval :=
    <["reduceOnly" := VBool (reduce_only p)]>
    (<["timeInForce" := VStr (time_in_force p)]>
    (<["leverage" := match leverage p with Some z => VInt z | None => VNone end]>
    (<["quantity" := VStr (Dec.to_str (quantity p))]>
    (<["orderType" := VStr (OrderType_value (order_type p))]>
    (<["side" := VStr (OrderSide_value (side p))]>
    (<["symbol" := VStr (symbol p)]> ∅)))))) in
  let base_dict :=
    match client_order_id p with
    | Some id =>
        if negb (String.eqb id "") then <["clientOrderId" := VStr id]> base_dict
        else base_dict
    | None => base_dict
    end in
  match order_type p with
  | LIMIT =>
      s ← required_price (price p) "Price is required for LIMIT orders";
      Ok (<["price" := VStr s]> base_dict)
  | STOP_LOSS =>
      s ← required_price (stop_price p)
            "Stop price is required for STOP_LOSS orders";
      Ok (<["stopPrice" := VStr s]> base_dict)
  | TAKE_PROFIT =>
      s ← required_price (take_profit_price p)
            "Take profit price is required for TAKE_PROFIT orders";
      Ok (<["takeProfitPrice" := VStr s]> base_dict)
  | MARKET => Ok base_dict
  end.

(** The trigger price that the order type requires is set and not zero. *)
Definition trigger_price_set (p : OrderParams) : Prop :=
  match order_type p with
  | STOP_LOSS => truthy_decimal (stop_price p) = true
  | TAKE_PROFIT => truthy_decimal (take_profit_price p) = true
  | MARKET | LIMIT => True
  end.

(** The body has the exact string of [d] under [key], and the string parses
    back to [d]. *)
Definition exact_entry (body : gmap string pyval) (key : string) (d : Decimal)
  : Prop :=
  body !! key = Some (VStr (Dec.to_str d))
  /\ Dec.of_str (Dec.to_str d) = Some d.

(** A [Decimal] object that is strictly positive. *)
Definition positive_decimal (d : Decimal) : Prop :=
  Dec.representable d = true /\ DecOps.positive d.

(** The round-trip property in the words of the specification: a positive
    quantity (and, for a LIMIT order, a positive price) is enough for the
    body to be produced with exact entries. *)
Definition every_order_round_trips : Prop :=
  forall self : Order,
    let p := params self in
    positive_decimal (quantity p) ->
    (order_type p = LIMIT ->
     exists d, price p = Some d /\ positive_decimal d) ->
    exists body,
      to_dict self = Ok body
      /\ exact_entry body "quantity" (quantity p)
      /\ (order_type p = LIMIT ->
          exists d, price p = Some d /\ exact_entry body "price" d).

(** *** The object heap

    [Order] objects and [dict]s are shared by reference: the heap maps a
    location to the current state of the object that lives there, and a
    [dict] of orders maps its keys to locations. *)
Record Heap : Type := {
  orders : list Order;
  dicts : list (gmap string nat)
}.

(** A computation on the heap.  An exception leaves the heap as it is at the
    point where it is raised.  The outer [option] is [None] only when a
    location that does not exist is read, which no Python program can do. *)
Definition M (A : Type) : Type := Heap -> option (result A * Heap).

#[global] Instance M_ret : MRet M := fun A a h => Some (Ok a, h).
#[global] Instance M_bind : MBind M := fun A B f m h =>
  match m h with
  | Some (Ok a, h') => f a h'
  | Some (Raise e, h') => Some (Raise e, h')
  | None => None
  end.

Definition lift {A} (r : result A) : M A := fun h => Some (r, h).

Definition new_order (o : Order) : M nat := fun h =>
  Some (Ok (length (orders h)), {| orders := orders h ++ [o]; dicts := dicts h |}).

Definition read_order (l : nat) : M Order := fun h =>
  match orders h !! l with
  | Some o => Some (Ok o, h)
  | None => None
  end.

(** An attribute assignment on the order at [l]. *)
Definition modify_order (l : nat) (f : Order -> Order) : M unit := fun h =>
  match orders h !! l with
  | Some o => Some (Ok tt, {| orders := <[l := f o]> (orders h); dicts := dicts h |})
  | None => None
  end.

Definition new_dict (d : gmap string nat) : M nat := fun h =>
  Some (Ok (length (dicts h)), {| orders := orders h; dicts := dicts h ++ [d] |}).

Definition read_dict (l : nat) : M (gmap string nat) := fun h =>
  match dicts h !! l with
  | Some d => Some (Ok d, h)
  | None => None
  end.

(** A mutation of the [dict] at [l]. *)
Definition modify_dict (l : nat) (f : gmap string nat -> gmap string nat)
  : M unit := fun h =>
  match dicts h !! l with
  | Some d => Some (Ok tt, {| orders := orders h; dicts := <[l := f d]> (dicts h) |})
  | None => None
  end.

(** [Order.update_from_exchange] on the order at [self] *)
Definition update_from_exchange (self : nat) (exchange_data : gmap string pyval)
  : M unit :=
  modify_order self (set_exchange_order_id (Py.get exchange_data "orderId"));;
  st ← lift (OrderStatus_of (Py.get_default exchange_data "status" (VStr "PENDING")));
  modify_order self (set_status st);;
  match exchange_data !! "fillQuantity" with
  | Some v =>
      d ← lift (Py.Decimal_of v);
      modify_order self (set_filled_quantity d)
  | None => mret tt
  end;;
  match exchange_data !! "averagePrice" with
  | Some v =>
      d ← lift (Py.Decimal_of v);
      modify_order self (set_average_fill_price (Some d))
  | None => mret tt
  end;;
  modify_order self (set_last_update_timestamp (Py.get exchange_data "timestamp"));;
  modify_order self (set_error_message (Py.get exchange_data "error")).

(** What the presence-guarded conversion [Decimal(str(exchange_data[key]))]
    yields: nothing for an absent key, the decimal, or the exception. *)
Definition payload_decimal (exchange_data : gmap string pyval) (key : string)
  : result (option Decimal) :=
  match exchange_data !! key with
  | Some v =>
      match Py.Decimal_of v with
      | Ok d => Ok (Some d)
      | Raise e => Raise e
      end
  | None => Ok None
  end.

(** An [OrderManager] object: its attribute [active_orders] refers to a
    [dict] from client order ids to [Order] objects. *)
Record OrderManager : Type := { active_orders : nat }.

(** [OrderManager()] *)
Definition OrderManager_init : M OrderManager :=
  d ← new_dict ∅;
  mret {| active_orders := d |}.

Definition create_order (self : OrderManager) (p : OrderParams) : M nat :=
  order ← new_order (Order_init p);
  match client_order_id p with
  | Some id =>
      if negb (String.eqb id "")
      then modify_dict (active_orders self) (insert id order)
      else mret tt
  | None => mret tt
  end;;
  mret order.

Definition get_order (self : OrderManager) (client_order_id : string)
  : M (option nat) :=
  d ← read_dict (active_orders self);
  mret (d !! client_order_id).

Definition update_order (self : OrderManager) (client_order_id : string)
    (exchange_data : gmap string pyval) : M unit :=
  d ← read_dict (active_orders self);
  match d !! client_order_id with
  | Some order =>
      update_from_exchange order exchange_data;;
      o ← read_order order;
      if is_terminal (status o)
      then modify_dict (active_orders self) (delete client_order_id)
      else mret tt
  | None => mret tt
  end.

Definition cancel_order (self : OrderManager) (client_order_id : string) : M unit :=
  d ← read_dict (active_orders self);
  match d !! client_order_id with
  | Some order =>
      modify_order order (set_status CANCELLED);;
      modify_dict (active_orders self) (delete client_order_id)
  | None => mret tt
  end.

Definition get_active_orders (self : OrderManager) : M nat :=
  d ← read_dict (active_orders self);
  new_dict d.

(** *** Tracker states *)

(** The heap after a computation, whatever its outcome. *)
Definition heap_after {A} (m : M A) (h : Heap) : Heap :=
  match m h with
  | Some (_, h') => h'
  | None => h
  end.

Definition empty_heap : Heap := {| orders := []; dicts := [] |}.

(** The manager that [OrderManager()] returns on the empty heap, and the heap
    it leaves. *)
Definition manager0 : OrderManager := {| active_orders := 0 |}.
Definition heap0 : Heap := heap_after OrderManager_init empty_heap.

Inductive call : Type :=
| CreateOrder (p : OrderParams)
| UpdateOrder (client_order_id : string) (exchange_data : gmap string pyval)
| CancelOrder (client_order_id : string).

Definition run_call (self : OrderManager) (c : call) (h : Heap) : Heap :=
  match c with
  | CreateOrder p => heap_after (create_order self p) h
  | UpdateOrder id data => heap_after (update_order self id data) h
  | CancelOrder id => heap_after (cancel_order self id) h
  end.

(** The heaps that a sequence of calls on a new manager leads to; a call
    that raises counts with the heap it leaves behind. *)
Inductive reachable : Heap -> Prop :=
| reachable_init : reachable heap0
| reachable_call h c : reachable h -> reachable (run_call manager0 c h).

(** A manager on a heap: its registry exists, refers to orders on the heap,
    and has no entry under the empty id. *)
Definition tracker_wf (self : OrderManager) (h : Heap) : Prop :=
  exists reg,
    dicts h !! active_orders self = Some reg
    /\ (forall k l, reg !! k = Some l -> (l < length (orders h))%nat)
    /\ reg !! "" = None.

(** A call that returns normally. *)
Definition call_returns (self : OrderManager) (c : call) (h : Heap) : Prop :=
  match c with
  | CreateOrder p => exists l h', create_order self p h = Some (Ok l, h')
  | UpdateOrder id data => exists h', update_order self id data h = Some (Ok tt, h')
  | CancelOrder id => exists h', cancel_order self id h = Some (Ok tt, h')
  end.

(** The heaps reached by calls none of which raises. *)
Inductive reachable_without_exception : Heap -> Prop :=
| rwe_init : reachable_without_exception heap0
| rwe_call h c :
    reachable_without_exception h -> call_returns manager0 c h ->
    reachable_without_exception (run_call manager0 c h).

(** Every registered order is in a non-terminal status, and no order is
    registered under two ids. *)
Definition active_only (self : OrderManager) (h : Heap) : Prop :=
  exists reg,
    dicts h !! active_orders self = Some reg
    /\ (forall k l, reg !! k = Some l ->
          exists o, orders h !! l = Some o /\ is_terminal (status o) = false)
    /\ (forall k1 k2 l, reg !! k1 = Some l -> reg !! k2 = Some l -> k1 = k2).

(** The registry of a manager and the order registered under an id. *)
Definition registry (self : OrderManager) (h : Heap) : gmap string nat :=
  default ∅ (dicts h !! active_orders self).

Definition registered (self : OrderManager) (h : Heap) (id : string)
  : option Order :=
  l ← registry self h !! id; orders h !! l.


(** *** What a caller can do with a snapshot

    The caller of [get_active_orders] holds a reference to the returned
    [dict].  It can change that [dict] (any method that adds, replaces or
    removes entries takes its content [d] to some [f d]), and it can assign
    to the attributes of an [Order] that it finds in it. *)
Inductive snapshot_mutation : Type :=
| MutateMap (f : gmap string nat -> gmap string nat)
| MutateOrder (key : string) (f : Order -> Order).

Definition mutate_snapshot (snapshot : nat) (m : snapshot_mutation) : M unit :=
  match m with
  | MutateMap f => modify_dict snapshot f
  | MutateOrder key f =>
      d ← read_dict snapshot;
      match d !! key with
      | Some order => modify_order order f
      | None => mret tt
      end
  end.

Fixpoint mutate_snapshot_all (snapshot : nat) (ms : list snapshot_mutation)
  : M unit :=
  match ms with
  | [] => mret tt
  | m :: rest => mutate_snapshot snapshot m;; mutate_snapshot_all snapshot rest
  end.

Definition is_map_mutation (m : snapshot_mutation) : Prop :=
  match m with MutateMap _ => True | MutateOrder _ _ => False end.

(** The snapshot property in the words of the specification: whatever the
    caller does to the returned map or to its contents, the tracker shows the
    same orders afterwards. *)
Definition snapshot_is_defensive : Prop :=
  forall (self : OrderManager) (h : Heap) (ms : list snapshot_mutation)
         (snapshot : nat) (h1 h2 : Heap),
    tracker_wf self h ->
    get_active_orders self h = Some (Ok snapshot, h1) ->
    mutate_snapshot_all snapshot ms h1 = Some (Ok tt, h2) ->
    forall id, registered self h2 id = registered self h id.

(** ** Sample data *)

(** A newline-terminated symbol. *)
Definition symbol_with_newline : string := "BTC-USDT" +:+ Str.newline.

(** A market order for 1.5 BTC-USDT, the defaults elsewhere. *)
Definition sample_params (id : option string) : OrderParams :=
  {| symbol := "BTC-USDT"; side := BUY; order_type := MARKET;
     quantity := Finite false 15 (-1); price := None; stop_price := None;
     take_profit_price := None; leverage := Some 1; time_in_force := "GTC";
     reduce_only := false; client_order_id := id |}.

(** Valid required parameters, a client order id with a blank and an
    exclamation mark, and optionally a price. *)
Definition sample_raw_params (price : option pyval) : gmap string pyval :=
  let base : gmap string pyval :=
    <["symbol" := VStr "BTC-USDT"]>
    (<["quantity" := VStr "1.5"]>
    (<["side" := VStr "BUY"]>
    {["client_order_id" := VStr "bad id!"]})) in
  match price with
  | Some v => <["price" := v]> base
  | None => base
  end.

(** A stop-loss order without a stop price, and a limit order for
    0.123456789012 at 49500.000000001. *)
Definition stop_loss_without_stop_price : OrderParams :=
  {| symbol := "BTC-USDT"; side := SELL; order_type := STOP_LOSS;
     quantity := Finite false 15 (-1); price := None; stop_price := None;
     take_profit_price := None; leverage := Some 1; time_in_force := "GTC";
     reduce_only := false; client_order_id := None |}.

Definition limit_params (price : option Decimal) : OrderParams :=
  {| symbol := "BTC-USDT"; side := BUY; order_type := LIMIT;
     quantity := Finite false 123456789012 (-12); price := price;
     stop_price := None; take_profit_price := None; leverage := Some 1;
     time_in_force := "GTC"; reduce_only := false; client_order_id := None |}.

(** The heap after [create_order] with the id ["abc123"] on a new
    manager; the order is at location [0]. *)
Definition heap_abc123 : Heap :=
  run_call manager0 (CreateOrder (sample_params (Some "abc123"))) heap0.

Definition registry_abc123 : gmap string nat := {["abc123" := 0%nat]}.

(** A payload with an order id and a status that no [OrderStatus] has. *)
Definition bogus_status : gmap string pyval :=
  <["orderId" := VStr "X-1"]> {["status" := VStr "BOGUS"]}.

(** A payload that reports a fill but carries a null fill quantity. *)
Definition filled_null_quantity : gmap string pyval :=
  <["status" := VStr "FILLED"]> {["fillQuantity" := VNone]}.

(** ** Further notions for the amounts *)

(** [a >= b] for two numbers *)
Definition dec_ge (a b : Decimal) : Prop :=
  DecOps.cmp a b = Some Gt \/ DecOps.cmp a b = Some Eq.

(** The amount [q] respects a bound given as any value: a false bound is
    not checked, a true one has to be comparable with a decimal. *)
Definition respects_min (q : Decimal) (mn : pyval) : Prop :=
  Py.truthy mn = true -> exists m, Py.comparable mn = Some m /\ dec_ge q m.

Definition respects_max (q : Decimal) (mx : pyval) : Prop :=
  Py.truthy mx = true -> exists m, Py.comparable mx = Some m /\ DecOps.le q m.


(** Raw parameters whose bounds for the quantity are strings, as a JSON
    document would carry them. *)
Definition raw_params_with_string_bound : gmap string pyval :=
  <["min_quantity" := VStr "0.1"]> (sample_raw_params None).


(** The format of a client order id: 1 to 36 letters, digits, underscores
    and hyphens. *)
Definition client_order_id_format (s : string) : Prop :=
  Str.all id_char s = true
  /\ (1 <= String.length s)%nat /\ (String.length s <= 36)%nat.

(** A string of the given format, or one followed by a single newline: what
    a pattern that ends in [$] accepts. *)
Definition up_to_newline (format : string -> Prop) (s : string) : Prop :=
  format s \/ exists t, format t /\ s = t +:+ Str.newline.


(** ** Further notions for [validate_order_params] *)

Definition optional_params : list string :=
  ["client_order_id"; "time_in_force"; "reduce_only"].

(** The keys that a validated map can have. *)
Definition validated_keys : list string :=
  ["symbol"; "quantity"; "side"; "price"; "leverage";
   "client_order_id"; "time_in_force"; "reduce_only"].

(** The map that [validate_order_params] builds from the validated symbol,
    quantity, price and leverage. *)
Definition validated_map (params : gmap string pyval) (sym : string)
    (q : Decimal) (pr : option Decimal) (lv : option Z) : gmap string pyval :=
  let validated : gmap string pyval :=
    <["side" := Py.get params "side"]>
      (<["quantity" := VDec q]> (<["symbol" := VStr sym]> ∅)) in
  let validated :=
    match pr with Some p => <["price" := VDec p]> validated | None => validated end in
  let validated :=
    match lv with Some l => <["leverage" := VInt l]> validated | None => validated end in
  copy_optional optional_params params validated.

(** Raw parameters without one of the required keys, with an invalid symbol,
    and raw parameters that carry bounds and keys that are not parameters. *)
Definition raw_params_without_side : gmap string pyval :=
  <["symbol" := VStr "btc"]> {["quantity" := VStr "abc"]}.

Definition raw_params_with_extras : gmap string pyval :=
  <["leverage" := VStr "20"]>
  (<["max_quantity" := VInt 10]>
  (<["note" := VStr "x"]>
  (<["price" := VStr "49500.10"]> (sample_raw_params None)))).


(** ** Further notions for the tracker *)

(** The order that a payload with the status [st] and the converted fill
    quantity [fq] and average price [ap] (if present) makes of [o]. *)
Definition apply_payload (exchange_data : gmap string pyval) (st : OrderStatus)
    (fq ap : option Decimal) (o : Order) : Order :=
  let o1 := set_exchange_order_id (Py.get exchange_data "orderId") o in
  let o2 := set_status st o1 in
  let o3 := from_option (fun d => set_filled_quantity d o2) o2 fq in
  let o4 := from_option (fun d => set_average_fill_price (Some d) o3) o3 ap in
  set_error_message (Py.get exchange_data "error")
    (set_last_update_timestamp (Py.get exchange_data "timestamp") o4).

(** A payload that the exchange sends for an open order, partly filled. *)
Definition open_payload : gmap string pyval :=
  <["orderId" := VStr "X-1"]>
  (<["status" := VStr "OPEN"]>
  (<["fillQuantity" := VStr "0.5"]>
  {["timestamp" := VInt 1700000000000]})).

(** A payload without an order id that closes the order. *)
Definition filled_payload : gmap string pyval :=
  <["status" := VStr "FILLED"]> {["fillQuantity" := VStr "1.5"]}.

(** The heap after the open payload has been applied to ["abc123"]. *)
Definition heap_open : Heap :=
  run_call manager0 (UpdateOrder "abc123" open_payload) heap_abc123.

(** The keys that every request body has. *)
Definition base_keys : gset string :=
  list_to_set ["symbol"; "side"; "orderType"; "quantity";
               "leverage"; "timeInForce"; "reduceOnly"].

(** The key of the price that an order type requires, and the field that
    holds the price. *)
Definition price_key (t : OrderType) : option string :=
  match t with
  | MARKET => None
  | LIMIT => Some "price"
  | STOP_LOSS => Some "stopPrice"
  | TAKE_PROFIT => Some "takeProfitPrice"
  end.

Definition required_field (p : OrderParams) : option (option Decimal) :=
  match order_type p with
  | MARKET => None
  | LIMIT => Some (price p)
  | STOP_LOSS => Some (stop_price p)
  | TAKE_PROFIT => Some (take_profit_price p)
  end.

(** A take-profit order whose other price fields are set as well. *)
Definition take_profit_params : OrderParams :=
  {| symbol := "ETH-USDT"; side := SELL; order_type := TAKE_PROFIT;
     quantity := Finite false 2 0; price := Some (Finite false 1 0);
     stop_price := Some Dec.zero;
     take_profit_price := Some (Finite false 42005 (-1));
     leverage := None; time_in_force := "IOC"; reduce_only := true;
     client_order_id := Some "tp-1" |}.


(** Every registered order is filed under its own client order id. *)
Definition filed_under_own_id (self : OrderManager) (h : Heap) : Prop :=
  exists reg,
    dicts h !! active_orders self = Some reg
    /\ (forall k l, reg !! k = Some l ->
          exists o, orders h !! l = Some o /\ client_order_id (params o) = Some k).

(** The heap after a sequence of calls. *)
Definition run_calls (self : OrderManager) (cs : list call) (h : Heap) : Heap :=
  foldl (fun h c => run_call self c h) h cs.

(** The calls of a session: two orders, an update that fails half-way, an
    update that fills the first order, a cancellation of an unknown id. *)
Definition sample_session : list call :=
  [CreateOrder (sample_params (Some "abc123"));
   CreateOrder (sample_params (Some "def456"));
   UpdateOrder "def456" filled_null_quantity;
   UpdateOrder "abc123" filled_payload;
   CancelOrder "zzz"].


(** A payload that cancels the order but carries an average price that is
    no number. *)
Definition cancelled_bad_average : gmap string pyval :=
  <["status" := VStr "CANCELLED"]>
  (<["fillQuantity" := VStr "0.25"]>
  {["averagePrice" := VStr "n/a"]}).


(** * Properties *)

(** ** Sample evaluations of the [Decimal] conversions *)

Example to_str_1 : Dec.to_str (Finite false 15 (-1)) = "1.5". Proof. reflexivity. Qed.
Example to_str_2 : Dec.to_str (Finite false 1 (-8)) = "1E-8". Proof. reflexivity. Qed.
Example to_str_3 : Dec.to_str (Finite false 1 (-6)) = "0.000001". Proof. reflexivity. Qed.
Example to_str_4 : Dec.to_str (Finite true 123456789 (-12)) = "-0.000123456789". Proof. reflexivity. Qed.
Example to_str_5 : Dec.to_str (Finite false 49500 0) = "49500". Proof. reflexivity. Qed.
Example to_str_6 : Dec.to_str (Finite false 495 2) = "4.95E+4". Proof. reflexivity. Qed.
Example to_str_7 : Dec.to_str (Finite false 0 (-7)) = "0E-7". Proof. reflexivity. Qed.
Example of_str_1 : Dec.of_str "0.00000001" = Some (Finite false 1 (-8)). Proof. reflexivity. Qed.
Example of_str_2 : Dec.of_str " -1_0.50e+3 " = Some (Finite true 1050 1). Proof. reflexivity. Qed.
Example of_str_3 : Dec.of_str "abc" = None. Proof. reflexivity. Qed.
Example of_str_4 : Dec.of_str "-inf" = Some (Infinity true). Proof. reflexivity. Qed.
Example of_str_5 : Dec.of_str "snan12" = Some (NaN false true 12). Proof. reflexivity. Qed.
Example of_str_6 : Dec.of_str ".5" = Some (Finite false 5 (-1)). Proof. reflexivity. Qed.
Example of_str_7 : Dec.of_str "." = None. Proof. reflexivity. Qed.
Example of_str_8 : Dec.of_str "1.e2" = Some (Finite false 1 2). Proof. reflexivity. Qed.
Example of_str_9 : Dec.of_str "None" = None. Proof. reflexivity. Qed.

(** ** Facts about strings *)

Section StrFacts.
Implicit Types (s t : string) (c : ascii) (p : ascii -> bool).

Lemma str_app_nil_l s : "" +:+ s = s.
Proof. reflexivity. Qed.

Lemma str_app_cons c s t : String c s +:+ t = String c (s +:+ t).
Proof. reflexivity. Qed.

Lemma str_app_nil_r s : s +:+ "" = s.
Proof. induction s as [|c s IH]; [reflexivity|]. now rewrite str_app_cons, IH. Qed.

Lemma str_app_assoc s t u : (s +:+ t) +:+ u = s +:+ (t +:+ u).
Proof.
  induction s as [|c s IH]; [reflexivity|].
  now rewrite !str_app_cons, IH.
Qed.

Lemma str_length_app s t :
  String.length (s +:+ t) = (String.length s + String.length t)%nat.
Proof.
  induction s as [|c s IH]; [reflexivity|].
  rewrite str_app_cons. simpl. now rewrite IH.
Qed.

Lemma all_app p s t : Str.all p (s +:+ t) = Str.all p s && Str.all p t.
Proof.
  induction s as [|c s IH]; [reflexivity|].
  rewrite str_app_cons. simpl. rewrite IH. now destruct (p c).
Qed.

Lemma all_repeat p c n : p c = true -> Str.all p (Str.repeat c n) = true.
Proof. intros Hc. induction n as [|n IH]; simpl; [reflexivity|]. now rewrite Hc, IH. Qed.

Lemma all_impl p q s :
  (forall c, p c = true -> q c = true) -> Str.all p s = true -> Str.all q s = true.
Proof.
  intros Hpq. induction s as [|c s IH]; simpl; [reflexivity|].
  intros [Hc Hs]%andb_true_iff. now rewrite (Hpq _ Hc), IH.
Qed.

Lemma length_repeat c n : String.length (Str.repeat c n) = n.
Proof. induction n as [|n IH]; simpl; [reflexivity|]. now rewrite IH. Qed.

Lemma take_drop n s : Str.take n s +:+ Str.drop n s = s.
Proof.
  revert s. induction n as [|n IH]; intros [|c s]; try reflexivity.
  simpl. now rewrite str_app_cons, IH.
Qed.

Lemma length_take n s :
  (n <= String.length s)%nat -> String.length (Str.take n s) = n.
Proof.
  revert s. induction n as [|n IH]; intros [|c s]; simpl; try reflexivity; try lia.
  intros H. rewrite IH; lia.
Qed.

Lemma length_drop n s :
  String.length (Str.drop n s) = (String.length s - n)%nat.
Proof.
  revert s. induction n as [|n IH]; intros [|c s]; simpl; try reflexivity.
  apply IH.
Qed.

Lemma all_take p n s : Str.all p s = true -> Str.all p (Str.take n s) = true.
Proof.
  revert s. induction n as [|n IH]; intros [|c s]; simpl; try reflexivity.
  intros [Hc Hs]%andb_true_iff. now rewrite Hc, IH.
Qed.

Lemma all_drop p n s : Str.all p s = true -> Str.all p (Str.drop n s) = true.
Proof.
  revert s. induction n as [|n IH]; intros [|c s]; simpl; try easy.
  intros [Hc Hs]%andb_true_iff. now apply IH.
Qed.

Lemma span_app p s t :
  Str.all p s = true -> Str.stops p t -> Str.span p (s +:+ t) = (s, t).
Proof.
  intros Hs Ht. induction s as [|c s IH].
  - rewrite str_app_nil_l. destruct t as [|c r]; [reflexivity|].
    simpl in *. now rewrite Ht.
  - simpl in Hs. apply andb_true_iff in Hs as [Hc Hs].
    rewrite str_app_cons. simpl. now rewrite Hc, (IH Hs).
Qed.

Lemma span_all p s : Str.all p s = true -> Str.span p s = (s, "").
Proof.
  intros Hs. rewrite <- (str_app_nil_r s) at 1. now apply span_app.
Qed.

Lemma lstrip_id s :
  Str.all (fun c => negb (Str.is_space c)) s = true -> Str.lstrip s = s.
Proof.
  destruct s as [|c s]; [reflexivity|]. simpl.
  intros [Hc _]%andb_true_iff. now destruct (Str.is_space c).
Qed.

Lemma rstrip_id s :
  Str.all (fun c => negb (Str.is_space c)) s = true -> Str.rstrip s = s.
Proof.
  induction s as [|c s IH]; [reflexivity|]. simpl.
  intros [Hc Hs]%andb_true_iff. rewrite (IH Hs).
  destruct s; [|reflexivity]. now destruct (Str.is_space c).
Qed.

Lemma strip_id s :
  Str.all (fun c => negb (Str.is_space c)) s = true -> Str.strip s = s.
Proof. intros H. unfold Str.strip. now rewrite lstrip_id, rstrip_id. Qed.

Lemma remove_id c s :
  Str.all (fun a => negb (Ascii.eqb a c)) s = true -> Str.remove c s = s.
Proof.
  induction s as [|a s IH]; [reflexivity|]. simpl.
  intros [Ha Hs]%andb_true_iff. rewrite (IH Hs).
  now destruct (Ascii.eqb a c).
Qed.

Lemma string_of_uint_digits d :
  Str.all Str.is_digit (NilEmpty.string_of_uint d) = true.
Proof. induction d; simpl; auto. Qed.

Lemma of_N_digits n : Str.all Str.is_digit (Str.of_N n) = true.
Proof. apply string_of_uint_digits. Qed.

Lemma of_N_nonempty n : Str.of_N n <> "".
Proof.
  unfold Str.of_N. destruct n as [|q]; [discriminate|]. simpl.
  pose proof (DecimalPos.Unsigned.to_uint_nonnil q) as Hnil.
  destruct (Pos.to_uint q); [congruence|discriminate..].
Qed.

Lemma to_N_of_N n : Str.to_N (Str.of_N n) = n.
Proof.
  unfold Str.to_N, Str.of_N. rewrite NilEmpty.usu.
  apply DecimalN.Unsigned.of_to.
Qed.

Lemma to_N_cons0 s : Str.to_N (String "0" s) = Str.to_N s.
Proof.
  unfold Str.to_N. simpl.
  now destruct (NilEmpty.uint_of_string s).
Qed.

Lemma to_N_zeros k s : Str.to_N (Str.repeat "0" k +:+ s) = Str.to_N s.
Proof.
  induction k as [|k IH]; [reflexivity|].
  simpl. now rewrite str_app_cons, to_N_cons0.
Qed.

End StrFacts.

(** ** [Decimal(str(d))] gives back [d] *)

Section DecimalRoundTrip.

Lemma digit_plain c : Str.is_digit c = true -> Dec.plain c = true.
Proof. destruct c as [[] [] [] [] [] [] [] []]; simpl; easy. Qed.

Lemma digit_not_sign c r :
  Str.is_digit c = true ->
  match String c r with
  | String "-" r' => (true, r')
  | String "+" r' => (false, r')
  | _ => (false, String c r)
  end = (false, String c r).
Proof. destruct c as [[] [] [] [] [] [] [] []]; simpl; easy. Qed.

Lemma plain_strip_remove s :
  Str.all Dec.plain s = true -> Str.remove "_" (Str.strip s) = s.
Proof.
  intros H. rewrite strip_id, remove_id; [reflexivity| |].
  - revert H. apply all_impl. unfold Dec.plain. intros c [_ ->]%andb_true_iff. reflexivity.
  - revert H. apply all_impl. unfold Dec.plain. intros c [-> _]%andb_true_iff. reflexivity.
Qed.

Lemma of_Z_plus_plain z : Str.all Dec.plain (Str.of_Z_plus z) = true.
Proof.
  unfold Str.of_Z_plus. simpl.
  rewrite (all_impl _ _ _ digit_plain (of_N_digits _)).
  now destruct (z <? 0).
Qed.

Lemma parse_exp_of_Z_plus z :
  Dec.parse_exp ("E" +:+ Str.of_Z_plus z) = Some (Some z, "").
Proof.
  unfold Str.of_Z_plus. rewrite str_app_cons, str_app_nil_l.
  unfold Dec.parse_exp.
  replace (Ascii.eqb (Str.lower "E") "e") with true by reflexivity.
  assert (Hspan : Str.span Str.is_digit (Str.of_N (Z.abs_N z))
                  = (Str.of_N (Z.abs_N z), ""))
    by (apply span_all, of_N_digits).
  pose proof (of_N_nonempty (Z.abs_N z)) as Hne.
  destruct (Z.ltb_spec z 0) as [Hz|Hz]; cbn match; rewrite Hspan;
    (destruct (Str.of_N (Z.abs_N z)) eqn:E; [congruence|]);
    rewrite <- E, to_N_of_N; do 3 f_equal; lia.
Qed.

Lemma parse_number_numeric i fo eo :
  Str.all Str.is_digit i = true ->
  Str.all Str.is_digit (default "" fo) = true ->
  i <> "" ->
  Dec.parse_number (Dec.numeric i fo eo) = Some (i, fo, eo).
Proof.
  intros Hi Hf Hne. unfold Dec.parse_number, Dec.numeric.
  assert (Hexp : forall eo,
    Dec.parse_exp
      match eo with Some z => "E" +:+ Str.of_Z_plus z | None => "" end
    = Some (eo, "")).
  { intros [z|]; [apply parse_exp_of_Z_plus | reflexivity]. }
  assert (Hstop : forall eo,
    Str.stops Str.is_digit
      match eo with Some z => "E" +:+ Str.of_Z_plus z | None => "" end).
  { intros [z|]; simpl; [reflexivity | exact I]. }
  destruct fo as [f|]; simpl in Hf.
  - rewrite span_app by easy.
    rewrite str_app_assoc, str_app_cons, str_app_nil_l.
    cbn match. rewrite span_app by auto.
    rewrite Hexp. now destruct i.
  - rewrite str_app_nil_l, span_app by auto.
    destruct eo as [z|].
    + rewrite str_app_cons at 1. cbn match.
      rewrite (Hexp (Some z)). now destruct i.
    + simpl. now destruct i.
Qed.

Lemma numeric_plain i fo eo :
  Str.all Str.is_digit i = true ->
  Str.all Str.is_digit (default "" fo) = true ->
  Str.all Dec.plain (Dec.numeric i fo eo) = true.
Proof.
  intros Hi Hf. unfold Dec.numeric. rewrite !all_app.
  rewrite (all_impl _ _ _ digit_plain Hi).
  assert (Str.all Dec.plain
            match fo with Some f => "." +:+ f | None => "" end = true) as ->.
  { destruct fo as [f|]; [|reflexivity]. simpl in Hf.
    rewrite all_app. now rewrite (all_impl _ _ _ digit_plain Hf). }
  destruct eo as [z|]; [|reflexivity].
  rewrite all_app. now rewrite of_Z_plus_plain.
Qed.

(** A signed numeric string is parsed into its parts. *)
Lemma parse_numeric sign i fo eo :
  Str.all Str.is_digit i = true ->
  Str.all Str.is_digit (default "" fo) = true ->
  i <> "" ->
  Dec.parse (Dec.sign_str sign +:+ Dec.numeric i fo eo)
  = Some (Finite sign (Str.to_N (i +:+ default "" fo))
            (default 0 eo - Z.of_nat (String.length (default "" fo)))).
Proof.
  intros Hi Hf Hne. unfold Dec.parse.
  rewrite plain_strip_remove.
  2:{ rewrite all_app, numeric_plain by easy. now destruct sign. }
  assert (exists c r, Dec.numeric i fo eo = String c r
                            /\ Str.is_digit c = true) as (c & r & Hcr & Hc).
  { destruct i as [|c i]; [congruence|]. simpl in Hi.
    apply andb_true_iff in Hi as [Hc _].
    exists c. eexists. split; [|exact Hc].
    unfold Dec.numeric. now rewrite str_app_cons. }
  destruct sign; unfold Dec.sign_str.
  - rewrite str_app_cons, str_app_nil_l. cbn match.
    now rewrite parse_number_numeric.
  - rewrite str_app_nil_l, Hcr, digit_not_sign by exact Hc.
    rewrite <- Hcr. now rewrite parse_number_numeric.
Qed.

End DecimalRoundTrip.

Section DecimalRoundTripFinite.

Lemma take_nonempty n s : (1 <= n)%nat -> s <> "" -> Str.take n s <> "".
Proof. destruct n, s; simpl; easy. Qed.

(** [str] of a finite decimal is a signed numeric string whose parts
    carry the coefficient and the exponent. *)
Lemma to_str_finite s c e :
  exists i fo eo,
    Dec.to_str (Finite s c e) = Dec.sign_str s +:+ Dec.numeric i fo eo
    /\ Str.all Str.is_digit i = true
    /\ Str.all Str.is_digit (default "" fo) = true
    /\ i <> ""
    /\ Str.to_N (i +:+ default "" fo) = c
    /\ default 0 eo - Z.of_nat (String.length (default "" fo)) = e.
Proof.
  unfold Dec.to_str.
  pose proof (of_N_digits c) as Hd.
  pose proof (of_N_nonempty c) as Hne.
  pose proof (to_N_of_N c) as Hval.
  set (L := Str.of_N c) in *.
  assert (Hlen : (1 <= String.length L)%nat)
    by (destruct L; [congruence | simpl; lia]).
  set (len := Z.of_nat (String.length L)).
  assert (Hlen' : 1 <= len) by lia.
  set (dotplace := if (e <=? 0) && (-6 <? e + len) then e + len else 1).
  destruct (Z.leb_spec dotplace 0) as [Hdp|Hdp].
  - (* 0.000ddd *)
    assert (Hdp' : dotplace = e + len).
    { subst dotplace. destruct ((e <=? 0) && (-6 <? e + len)); [reflexivity|lia]. }
    rewrite Hdp', Z.eqb_refl.
    exists "0", (Some (Str.repeat "0" (Z.to_nat (- (e + len))) +:+ L)), None.
    cbn [default from_option id]. repeat split.
    + rewrite all_app, all_repeat, Hd; reflexivity.
    + discriminate.
    + rewrite str_app_cons, str_app_nil_l, to_N_cons0, to_N_zeros. exact Hval.
    + rewrite str_length_app, length_repeat. lia.
  - destruct (Z.leb_spec len dotplace) as [Hld|Hld].
    + (* ddd or dE+n *)
      assert (Hdl : dotplace = len).
      { subst dotplace.
        destruct (Z.leb_spec e 0); destruct (Z.ltb_spec (-6) (e + len));
          cbn [andb] in *; lia. }
      rewrite Hdl, Z.sub_diag. cbn [Z.to_nat Str.repeat].
      rewrite !str_app_nil_r.
      destruct (Z.eqb_spec (e + len) len) as [Heq|Hneq].
      * exists L, None, None. cbn [default from_option id].
        unfold Dec.numeric. rewrite !str_app_nil_r.
        repeat split; auto. cbn [String.length]. lia.
      * exists L, None, (Some (e + len - len)). cbn [default from_option id].
        unfold Dec.numeric. rewrite str_app_nil_l.
        repeat split; rewrite ?str_app_nil_r; auto. cbn [String.length]. lia.
    + (* dd.ddd or d.dddE+n *)
      set (k := Z.to_nat dotplace).
      assert (Hk : (1 <= k <= String.length L)%nat) by lia.
      assert (Hparts :
        Str.all Str.is_digit (Str.take k L) = true
        /\ Str.all Str.is_digit (Str.drop k L) = true
        /\ Str.take k L <> ""
        /\ Str.to_N (Str.take k L +:+ Str.drop k L) = c
        /\ Z.of_nat (String.length (Str.drop k L)) = len - dotplace).
      { repeat split.
        - now apply all_take.
        - now apply all_drop.
        - apply take_nonempty; [lia | exact Hne].
        - now rewrite take_drop.
        - rewrite length_drop. lia. }
      destruct Hparts as (H1 & H2 & H3 & H4 & H5).
      destruct (Z.eqb_spec (e + len) dotplace) as [Heq|Hneq].
      * exists (Str.take k L), (Some (Str.drop k L)), None.
        cbn [default from_option id]. unfold Dec.numeric. repeat split; auto. lia.
      * exists (Str.take k L), (Some (Str.drop k L)), (Some (e + len - dotplace)).
        cbn [default from_option id]. unfold Dec.numeric. repeat split; auto. lia.
Qed.

Lemma parse_to_str_finite s c e :
  Dec.parse (Dec.to_str (Finite s c e)) = Some (Finite s c e).
Proof.
  destruct (to_str_finite s c e) as (i & fo & eo & -> & Hi & Hf & Hne & Hc & He).
  rewrite parse_numeric by assumption. now rewrite Hc, He.
Qed.

End DecimalRoundTripFinite.

(** ** Sample runs of the tracker *)

Example create_then_get :
  let h := run_call manager0 (CreateOrder (sample_params (Some "abc123"))) heap0 in
  status <$> registered manager0 h "abc123" = Some PENDING.
Proof. vm_compute. reflexivity. Qed.

Example filled_is_pruned :
  let h1 := run_call manager0 (CreateOrder (sample_params (Some "abc123"))) heap0 in
  let h2 := run_call manager0
              (UpdateOrder "abc123"
                 (<["status" := VStr "FILLED"]> {["fillQuantity" := VStr "1.5"]})) h1 in
  registered manager0 h2 "abc123" = None
  /\ (status <$> orders h2 !! 0%nat) = Some FILLED
  /\ (filled_quantity <$> orders h2 !! 0%nat) = Some (Finite false 15 (-1)).
Proof. vm_compute. auto. Qed.

(** ** Unparseable amounts *)

Lemma validate_quantity_amount :
  validate_quantity = validate_amount "Quantity" "quantity".
Proof. reflexivity. Qed.

Lemma validate_price_amount :
  validate_price = validate_amount "Price" "price".
Proof. reflexivity. Qed.

(** The [except (TypeError, ValueError)] clause does not catch what
    [Decimal(...)] raises on a syntax error: the [InvalidOperation]
    propagates, whatever the bounds. *)
Lemma validate_amount_unparseable what what_lc amount mn mx :
  Py.Decimal_of amount = Raise InvalidOperation ->
  validate_amount what what_lc amount mn mx = Raise InvalidOperation.
Proof.
  intros H. unfold validate_amount. now rewrite H.
Qed.

(** C4: on the unparseable input ["abc"], [validate_quantity] and
    [validate_price] do not raise a [ValidationError]: the
    [decimal.InvalidOperation] of the conversion escapes. *)
Theorem unparseable_amount_escapes_as_InvalidOperation :
  validate_quantity (VStr "abc") VNone VNone = Raise InvalidOperation
  /\ validate_price (VStr "abc") VNone VNone = Raise InvalidOperation.
Proof. split; reflexivity. Qed.

(** ** The matcher decides the language of an expression *)

Section Regex.
Import Re.
Implicit Types (r : re) (s : string) (c : ascii).

Lemma str_app_eq_nil s1 s2 : s1 +:+ s2 = "" -> s1 = "" /\ s2 = "".
Proof. destruct s1; [auto | discriminate]. Qed.

Lemma str_app_eq_cons s1 s2 c s :
  s1 +:+ s2 = String c s ->
  (s1 = "" /\ s2 = String c s) \/ exists t, s1 = String c t /\ s = t +:+ s2.
Proof.
  destruct s1 as [|a t]; [auto|].
  rewrite str_app_cons. intros [= -> <-]. right. eauto.
Qed.

Lemma lang_cat_inv r1 r2 s :
  lang (Cat r1 r2) s -> exists s1 s2, s = s1 +:+ s2 /\ lang r1 s1 /\ lang r2 s2.
Proof. inversion 1; subst; eauto. Qed.

Lemma lang_alt_inv r1 r2 s : lang (Alt r1 r2) s -> lang r1 s \/ lang r2 s.
Proof. inversion 1; subst; auto. Qed.

Lemma lang_chr_inv p s : lang (Chr p) s -> exists c, s = String c "" /\ p c = true.
Proof. inversion 1; subst; eauto. Qed.

Lemma lang_eps_inv s : lang Eps s -> s = "".
Proof. now inversion 1. Qed.

Lemma lang_void_inv s : ~ lang Void s.
Proof. inversion 1. Qed.

Lemma nullable_lang r : nullable r = true <-> lang r "".
Proof.
  split.
  - induction r; simpl; intros H; try discriminate.
    + constructor.
    + apply andb_true_iff in H as [H1 H2].
      change "" with ("" +:+ ""). constructor; auto.
    + apply orb_true_iff in H as [H|H]; [apply lang_alt_l | apply lang_alt_r]; auto.
    + constructor.
  - induction r; simpl; intros H.
    + now apply lang_void_inv in H.
    + reflexivity.
    + apply lang_chr_inv in H as (c & [=] & _).
    + apply lang_cat_inv in H as (s1 & s2 & Hs & H1 & H2).
      symmetry in Hs. apply str_app_eq_nil in Hs as [-> ->].
      now rewrite IHr1, IHr2.
    + apply lang_alt_inv in H as [H|H]; [rewrite IHr1 | rewrite IHr2]; auto.
      now rewrite orb_true_r.
    + reflexivity.
Qed.

(** A non-empty word of [Star r] starts with a non-empty word of [r]. *)
Lemma lang_star_cons_inv r c s :
  lang (Star r) (String c s) ->
  exists t1 t2, s = t1 +:+ t2 /\ lang r (String c t1) /\ lang (Star r) t2.
Proof.
  intros H. remember (Star r) as r' eqn:Hr. remember (String c s) as w eqn:Hw.
  induction H as [| | | | | |r0 s1 s2 H1 _ H2 IH2]; try discriminate.
  injection Hr as ->.
  apply str_app_eq_cons in Hw as [[-> ->]|(t & -> & ->)].
  - now apply IH2.
  - eauto.
Qed.

Lemma deriv_lang c r s : lang (deriv c r) s <-> lang r (String c s).
Proof.
  revert s. induction r as [| |p|r1 IH1 r2 IH2|r1 IH1 r2 IH2|r1 IH1]; intros s; simpl.
  - split; intros H; now apply lang_void_inv in H.
  - split; intros H; [now apply lang_void_inv in H | now apply lang_eps_inv in H].
  - destruct (p c) eqn:Hp; split; intros H.
    + apply lang_eps_inv in H as ->. now constructor.
    + apply lang_chr_inv in H as (a & [= -> ->] & _). constructor.
    + now apply lang_void_inv in H.
    + apply lang_chr_inv in H as (a & [= -> ->] & Ha). congruence.
  - assert (Hcat : lang (Cat (deriv c r1) r2) s ->
                   lang (Cat r1 r2) (String c s)).
    { intros (s1 & s2 & -> & H1 & H2)%lang_cat_inv.
      rewrite <- str_app_cons. constructor; [now apply IH1 | exact H2]. }
    destruct (nullable r1) eqn:Hn; split; intros H.
    + apply lang_alt_inv in H as [H|H]; [now apply Hcat|].
      change (String c s) with ("" +:+ String c s).
      constructor; [now apply nullable_lang | now apply IH2].
    + apply lang_cat_inv in H as (s1 & s2 & Hs & H1 & H2).
      symmetry in Hs. apply str_app_eq_cons in Hs as [[-> ->]|(t & -> & ->)].
      * apply lang_alt_r. now apply IH2.
      * apply lang_alt_l. constructor; [now apply IH1 | exact H2].
    + now apply Hcat.
    + apply lang_cat_inv in H as (s1 & s2 & Hs & H1 & H2).
      symmetry in Hs. apply str_app_eq_cons in Hs as [[-> ->]|(t & -> & ->)].
      * apply nullable_lang in H1. congruence.
      * constructor; [now apply IH1 | exact H2].
  - split; intros H.
    + apply lang_alt_inv in H as [H|H];
        [apply lang_alt_l; now apply IH1 | apply lang_alt_r; now apply IH2].
    + apply lang_alt_inv in H as [H|H];
        [apply lang_alt_l; now apply IH1 | apply lang_alt_r; now apply IH2].
  - split; intros H.
    + apply lang_cat_inv in H as (s1 & s2 & -> & H1 & H2).
      rewrite <- str_app_cons. constructor; [now apply IH1 | exact H2].
    + apply lang_star_cons_inv in H as (t1 & t2 & -> & H1 & H2).
      constructor; [now apply IH1 | exact H2].
Qed.

Lemma matches_lang r s : matches r s = true <-> lang r s.
Proof.
  revert r. induction s as [|c s IH]; intros r; simpl.
  - apply nullable_lang.
  - rewrite IH. apply deriv_lang.
Qed.

(** Words over one character class. *)
Lemma lang_star_chr p s : lang (Star (Chr p)) s <-> Str.all p s = true.
Proof.
  split.
  - induction s as [|c s IH]; [reflexivity|].
    intros (t1 & t2 & -> & H1 & H2)%lang_star_cons_inv.
    apply lang_chr_inv in H1 as (a & [= -> ->] & Ha).
    simpl. rewrite Ha. apply IH. exact H2.
  - induction s as [|c s IH]; simpl; [constructor|].
    intros [Hc Hs]%andb_true_iff.
    change (String c s) with (String c "" +:+ s).
    constructor; [now constructor | auto].
Qed.

Lemma lang_plus_chr p s :
  lang (Plus (Chr p)) s <-> s <> "" /\ Str.all p s = true.
Proof.
  unfold Plus. split.
  - intros (s1 & s2 & -> & H1 & H2)%lang_cat_inv.
    apply lang_chr_inv in H1 as (a & -> & Ha).
    apply lang_star_chr in H2. rewrite str_app_cons, str_app_nil_l.
    simpl. now rewrite Ha, H2.
  - intros [Hne Hall]. destruct s as [|c s]; [congruence|].
    simpl in Hall. apply andb_true_iff in Hall as [Hc Hs].
    change (String c s) with (String c "" +:+ s).
    constructor; [now constructor | now apply lang_star_chr].
Qed.

Lemma lang_dollar s : lang Dollar s <-> s = "" \/ s = Str.newline.
Proof.
  unfold Dollar, Opt. split.
  - intros [H|H]%lang_alt_inv.
    + left. now apply lang_eps_inv.
    + right. apply lang_chr_inv in H as (c & -> & Hc).
      apply Ascii.eqb_eq in Hc. now subst.
  - intros [->| ->]; [apply lang_alt_l; constructor|].
    apply lang_alt_r. now constructor.
Qed.

End Regex.

(** ** [validate_symbol] *)

Section Symbol.
Import Re.

Lemma symbol_pattern_lang s :
  lang symbol_pattern s <->
  symbol_format s \/ exists t, symbol_format t /\ s = t +:+ Str.newline.
Proof.
  unfold symbol_pattern, symbol_format. split.
  - intros (a & s1 & -> & Ha & H1)%lang_cat_inv.
    apply lang_cat_inv in H1 as (h & s2 & -> & Hh & H2).
    apply lang_cat_inv in H2 as (b & e & -> & Hb & He).
    apply lang_plus_chr in Ha as [Ha1 Ha2], Hb as [Hb1 Hb2].
    apply lang_chr_inv in Hh as (c & -> & Hc). apply Ascii.eqb_eq in Hc as <-.
    apply lang_dollar in He as [-> | ->].
    + left. exists a, b. now rewrite str_app_nil_r.
    + right. exists (a +:+ "-" +:+ b). split; [exists a, b; auto|].
      now rewrite !str_app_assoc.
  - assert (Hfmt : forall a b e,
              a <> "" -> b <> "" ->
              Str.all upper_alnum a = true -> Str.all upper_alnum b = true ->
              e = "" \/ e = Str.newline ->
              lang (Cat (Plus (Chr upper_alnum))
                      (Cat (Chr (Ascii.eqb "-"))
                         (Cat (Plus (Chr upper_alnum)) Dollar)))
                (a +:+ "-" +:+ b +:+ e)).
    { intros a b e Ha1 Hb1 Ha2 Hb2 He.
      constructor; [now apply lang_plus_chr|].
      constructor; [now constructor|].
      constructor; [now apply lang_plus_chr | now apply lang_dollar]. }
    intros [(a & b & -> & Ha1 & Hb1 & Ha2 & Hb2)
           |(t & (a & b & -> & Ha1 & Hb1 & Ha2 & Hb2) & ->)].
    + rewrite <- (str_app_nil_r b). apply Hfmt; auto.
    + rewrite !str_app_assoc. apply Hfmt; auto.
Qed.

(** What [validate_symbol] does on every string: it accepts the symbols of
    the format, and those followed by one newline, and turns down the rest
    with its format message. *)
Lemma validate_symbol_spec s :
  (symbol_format s \/ (exists t, symbol_format t /\ s = t +:+ Str.newline) ->
   validate_symbol (VStr s) = Ok s)
  /\ (~ (symbol_format s \/ exists t, symbol_format t /\ s = t +:+ Str.newline) ->
      validate_symbol (VStr s)
      = Raise (ValidationError
                 "Invalid symbol format. Expected format: XXX-XXX (e.g., BTC-USDT)")).
Proof.
  unfold validate_symbol. rewrite <- symbol_pattern_lang, <- matches_lang.
  destruct (matches symbol_pattern s); split; simpl; intros H;
    try reflexivity; try discriminate. now destruct H.
Qed.

Lemma symbol_format_chars s :
  symbol_format s ->
  Str.all (fun c => upper_alnum c || Ascii.eqb c "-") s = true.
Proof.
  intros (a & b & -> & _ & _ & Ha & Hb).
  rewrite !all_app. simpl.
  rewrite (all_impl upper_alnum _ a), (all_impl upper_alnum _ b); auto;
    intros c ->; reflexivity.
Qed.

End Symbol.

(** C3: [validate_symbol] accepts the string ["BTC-USDT\n"], which is not of
    the symbol format (it ends in a newline): the [$] of the pattern also
    matches just before a final newline. *)
Theorem validate_symbol_accepts_trailing_newline :
  validate_symbol (VStr symbol_with_newline) = Ok symbol_with_newline
  /\ ~ symbol_format symbol_with_newline.
Proof.
  split; [reflexivity|].
  intros H%symbol_format_chars. vm_compute in H. discriminate.
Qed.

(** ** Facts about the order of decimals *)

Section DecimalOrder.

Lemma pow10_pos k : 0 <= k -> 0 < 10 ^ k.
Proof. intros Hk. apply Z.pow_pos_nonneg; lia. Qed.

Lemma cmp_finite_zero s c e :
  DecOps.cmp (Finite s c e) Dec.zero = Some (DecOps.signed s c ?= 0).
Proof.
  unfold DecOps.cmp, Dec.zero. f_equal.
  replace (DecOps.signed false 0 * 10 ^ (0 - Z.min e 0))
    with (0 * 10 ^ (e - Z.min e 0)) by (cbn; lia).
  symmetry. apply Zmult_compare_compat_r, Z.lt_gt, pow10_pos. lia.
Qed.

(** The numbers equal to zero are the false ones. *)
Lemma cmp_zero_eq d :
  DecOps.cmp d Dec.zero = Some Eq <-> DecOps.truthy d = false.
Proof.
  destruct d as [s c e|s|s sig diag].
  - rewrite cmp_finite_zero. unfold DecOps.signed. simpl.
    split.
    + intros [= H]. apply Z.compare_eq in H.
      destruct s, (N.eqb_spec c 0); simpl; auto; lia.
    + intros H. f_equal. apply Z.compare_eq_iff.
      destruct (N.eqb_spec c 0); [|discriminate]. subst. now destruct s.
  - now destruct s.
  - easy.
Qed.

Lemma positive_finite s c e :
  DecOps.positive (Finite s c e) <-> s = false /\ c <> 0%N.
Proof.
  unfold DecOps.positive. rewrite cmp_finite_zero. unfold DecOps.signed.
  split.
  - intros [= H]. apply Z.compare_gt_iff in H. destruct s; split; auto; lia.
  - intros [-> Hc]. f_equal. apply Z.compare_gt_iff. lia.
Qed.

Lemma positive_truthy d : DecOps.positive d -> DecOps.truthy d = true.
Proof.
  destruct d as [s c e|s|s sig diag]; auto.
  intros [_ Hc]%positive_finite. now apply negb_true_iff, N.eqb_neq.
Qed.

End DecimalOrder.

(** ** Serialising an order *)

(** C9: a price field equal to zero counts as missing.  For a LIMIT order
    whose [price] is a decimal equal to zero, [to_dict] raises the same
    "Price is required" error as for an absent [price]; likewise for
    [stop_price] on STOP_LOSS and [take_profit_price] on TAKE_PROFIT
    orders. *)
Theorem zero_price_counts_as_missing (self : Order) (d : Decimal) :
  DecOps.cmp d Dec.zero = Some Eq ->
  (order_type (params self) = LIMIT ->
   price (params self) = Some d \/ price (params self) = None ->
   to_dict self = Raise (ValueError (Msg "Price is required for LIMIT orders")))
  /\ (order_type (params self) = STOP_LOSS ->
      stop_price (params self) = Some d \/ stop_price (params self) = None ->
      to_dict self
      = Raise (ValueError (Msg "Stop price is required for STOP_LOSS orders")))
  /\ (order_type (params self) = TAKE_PROFIT ->
      take_profit_price (params self) = Some d
      \/ take_profit_price (params self) = None ->
      to_dict self
      = Raise (ValueError
                 (Msg "Take profit price is required for TAKE_PROFIT orders"))).
Proof.
  intros Hz%cmp_zero_eq. unfold to_dict.
  repeat split; intros -> [-> | ->]; unfold required_price;
    rewrite ?Hz; reflexivity.
Qed.

(** ** Computations on the heap *)

Section HeapSteps.
Context {A B : Type}.

Lemma bind_run (m : M A) (f : A -> M B) h :
  (m ≫= f) h = match m h with
               | Some (Ok a, h') => f a h'
               | Some (Raise e, h') => Some (Raise e, h')
               | None => None
               end.
Proof. reflexivity. Qed.

End HeapSteps.

Lemma modify_order_insert (l : nat) f (L : list Order) D o :
  (l < length L)%nat ->
  modify_order l f {| orders := <[l:=o]> L; dicts := D |}
  = Some (Ok tt, {| orders := <[l:=f o]> L; dicts := D |}).
Proof.
  intros Hl. unfold modify_order. cbn [orders dicts].
  now rewrite list_lookup_insert_eq, list_insert_insert_eq.
Qed.

(** [update_from_exchange] step by step: the heap it leaves depends on how
    far it gets before an exception. *)
Lemma update_from_exchange_run (l : nat) data (L : list Order) D o :
  (l < length L)%nat ->
  update_from_exchange l data {| orders := <[l:=o]> L; dicts := D |}
  = let heap o' := {| orders := <[l:=o']> L; dicts := D |} in
    let o1 := set_exchange_order_id (Py.get data "orderId") o in
    match OrderStatus_of (Py.get_default data "status" (VStr "PENDING")) with
    | Raise e => Some (Raise e, heap o1)
    | Ok st =>
        let o2 := set_status st o1 in
        match payload_decimal data "fillQuantity" with
        | Raise e => Some (Raise e, heap o2)
        | Ok q =>
            let o3 := from_option (fun d => set_filled_quantity d o2) o2 q in
            match payload_decimal data "averagePrice" with
            | Raise e => Some (Raise e, heap o3)
            | Ok a =>
                let o4 := from_option
                            (fun d => set_average_fill_price (Some d) o3) o3 a in
                Some (Ok tt,
                      heap (set_error_message (Py.get data "error")
                              (set_last_update_timestamp
                                 (Py.get data "timestamp") o4)))
            end
        end
    end.
Proof.
  intros Hl. unfold update_from_exchange, payload_decimal.
  rewrite bind_run, modify_order_insert by exact Hl.
  rewrite bind_run. unfold lift at 1.
  destruct (OrderStatus_of _) as [st|e]; [|reflexivity].
  rewrite bind_run, modify_order_insert by exact Hl.
  rewrite bind_run.
  destruct (data !! "fillQuantity") as [v|].
  - rewrite bind_run. unfold lift at 1.
    destruct (Py.Decimal_of v) as [d|]; [|reflexivity].
    rewrite modify_order_insert by exact Hl. cbn [from_option].
    rewrite bind_run.
    destruct (data !! "averagePrice") as [v'|].
    + rewrite bind_run. unfold lift at 1.
      destruct (Py.Decimal_of v') as [d'|]; [|reflexivity].
      rewrite modify_order_insert by exact Hl. cbn [from_option].
      now rewrite bind_run, !modify_order_insert by exact Hl.
    + cbn [mret M_ret from_option].
      now rewrite bind_run, !modify_order_insert by exact Hl.
  - cbn [mret M_ret from_option]. rewrite bind_run.
    destruct (data !! "averagePrice") as [v'|].
    + rewrite bind_run. unfold lift at 1.
      destruct (Py.Decimal_of v') as [d'|]; [|reflexivity].
      rewrite modify_order_insert by exact Hl. cbn [from_option].
      now rewrite bind_run, !modify_order_insert by exact Hl.
    + cbn [mret M_ret from_option].
      now rewrite bind_run, !modify_order_insert by exact Hl.
Qed.

Lemma heap_eta h : {| orders := orders h; dicts := dicts h |} = h.
Proof. now destruct h. Qed.

Lemma heap_at (l : nat) o h :
  orders h !! l = Some o ->
  h = {| orders := <[l:=o]> (orders h); dicts := dicts h |}.
Proof. intros H. now rewrite list_insert_id, heap_eta. Qed.

Lemma read_dict_run (d : nat) reg h :
  dicts h !! d = Some reg -> read_dict d h = Some (Ok reg, h).
Proof. intros H. unfold read_dict. now rewrite H. Qed.

Lemma modify_dict_run (d : nat) f reg h :
  dicts h !! d = Some reg ->
  modify_dict d f h
  = Some (Ok tt, {| orders := orders h; dicts := <[d:=f reg]> (dicts h) |}).
Proof. intros H. unfold modify_dict. now rewrite H. Qed.

Lemma OrderStatus_of_unknown s :
  (forall st, OrderStatus_value st <> s) ->
  OrderStatus_of (VStr s) = Raise (ValueError (NotAValidOrderStatus (VStr s))).
Proof.
  intros H. unfold OrderStatus_of, all_statuses. cbn [List.find].
  rewrite !(proj2 (String.eqb_neq _ _)) by apply H. reflexivity.
Qed.

Lemma OrderStatus_of_value st : OrderStatus_of (VStr (OrderStatus_value st)) = Ok st.
Proof. now destruct st. Qed.

Lemma update_from_exchange_at (l : nat) data h o :
  orders h !! l = Some o ->
  update_from_exchange l data h
  = update_from_exchange l data
      {| orders := <[l:=o]> (orders h); dicts := dicts h |}.
Proof. intros H. now rewrite <- (heap_at l o h H). Qed.

Section Tracker.
Variable self : OrderManager.
Variable h : Heap.
Variable reg : gmap string nat.
Hypothesis Hreg : dicts h !! active_orders self = Some reg.

Lemma create_order_run p :
  create_order self p h
  = Some (Ok (length (orders h)),
          {| orders := orders h ++ [Order_init p];
             dicts := match client_order_id p with
                      | Some id =>
                          if negb (String.eqb id "")
                          then <[active_orders self :=
                                   <[id := length (orders h)]> reg]> (dicts h)
                          else dicts h
                      | None => dicts h
                      end |}).
Proof.
  unfold create_order. rewrite bind_run. unfold new_order at 1.
  rewrite bind_run.
  destruct (client_order_id p) as [id|]; [|reflexivity].
  destruct (negb (String.eqb id "")); [|reflexivity].
  now rewrite (modify_dict_run _ _ reg).
Qed.

Lemma get_order_run id : get_order self id h = Some (Ok (reg !! id), h).
Proof. unfold get_order. now rewrite bind_run, (read_dict_run _ reg). Qed.

Lemma cancel_order_missing id :
  reg !! id = None -> cancel_order self id h = Some (Ok tt, h).
Proof.
  intros H. unfold cancel_order.
  now rewrite bind_run, (read_dict_run _ reg), H.
Qed.

Lemma cancel_order_run id (l : nat) o :
  reg !! id = Some l -> orders h !! l = Some o ->
  cancel_order self id h
  = Some (Ok tt,
          {| orders := <[l := set_status CANCELLED o]> (orders h);
             dicts := <[active_orders self := delete id reg]> (dicts h) |}).
Proof.
  intros Hid Hl. unfold cancel_order.
  rewrite bind_run, (read_dict_run _ reg), Hid by exact Hreg.
  rewrite bind_run. unfold modify_order at 1. rewrite Hl.
  now rewrite (modify_dict_run _ _ reg).
Qed.

Lemma update_order_missing id data :
  reg !! id = None -> update_order self id data h = Some (Ok tt, h).
Proof.
  intros H. unfold update_order.
  now rewrite bind_run, (read_dict_run _ reg), H.
Qed.

(** [update_order] on a registered id: either [update_from_exchange]
    raises and the registry stays as it is, or it returns and the entry is
    dropped if the new status is terminal. *)
Lemma update_order_run id data (l : nat) o :
  reg !! id = Some l -> orders h !! l = Some o ->
  exists r o',
    update_from_exchange l data h
    = Some (r, {| orders := <[l:=o']> (orders h); dicts := dicts h |})
    /\ params o' = params o
    /\ match r with
       | Raise e =>
           update_order self id data h
           = Some (Raise e, {| orders := <[l:=o']> (orders h); dicts := dicts h |})
       | Ok _ =>
           OrderStatus_of (Py.get_default data "status" (VStr "PENDING"))
           = Ok (status o')
           /\ update_order self id data h
              = Some (Ok tt,
                      {| orders := <[l:=o']> (orders h);
                         dicts := if is_terminal (status o')
                                  then <[active_orders self := delete id reg]> (dicts h)
                                  else dicts h |})
       end.
Proof.
  intros Hid Hl.
  pose proof (lookup_lt_Some _ _ _ Hl) as Hlt.
  unfold update_order.
  rewrite bind_run, (read_dict_run _ reg), Hid by exact Hreg.
  rewrite bind_run.
  rewrite (update_from_exchange_at l data h o Hl).
  rewrite update_from_exchange_run by exact Hlt. cbv zeta.
  destruct (OrderStatus_of _) as [st|e].
  2:{ do 2 eexists. split; [reflexivity|]. split; [reflexivity|]. reflexivity. }
  destruct (payload_decimal data "fillQuantity") as [q|e].
  2:{ do 2 eexists. split; [reflexivity|]. split; [reflexivity|]. reflexivity. }
  destruct (payload_decimal data "averagePrice") as [a|e].
  2:{ do 2 eexists. split; [reflexivity|]. split; [now destruct q|]. reflexivity. }
  do 2 eexists. split; [reflexivity|]. split; [now destruct q, a|].
  split; [now destruct q, a|].
  rewrite bind_run. unfold read_order at 1. cbn [orders dicts].
  rewrite list_lookup_insert_eq by exact Hlt.
  destruct (is_terminal _); [|reflexivity].
  unfold modify_dict. cbn [orders dicts]. now rewrite Hreg.
Qed.

End Tracker.

(** ** Updates that fail half-way *)

(** C8: [update_order] is not atomic.  With a payload whose status string
    is not the value of any [OrderStatus], the call on a registered order
    raises the [ValueError] of the enum constructor after the order's
    [exchange_order_id] has been overwritten with the payload's [orderId]
    ([None] when the payload has none); every other field keeps its value
    and the order stays registered. *)
Theorem update_order_unknown_status_not_atomic
    (self : OrderManager) (h : Heap) (reg : gmap string nat)
    (cid : string) (l : nat) (o : Order)
    (data : gmap string pyval) (s : string) :
  dicts h !! active_orders self = Some reg ->
  reg !! cid = Some l ->
  orders h !! l = Some o ->
  data !! "status" = Some (VStr s) ->
  (forall st, OrderStatus_value st <> s) ->
  exists o' h',
    update_order self cid data h
    = Some (Raise (ValueError (NotAValidOrderStatus (VStr s))), h')
    /\ registry self h' = reg
    /\ registered self h' cid = Some o'
    /\ exchange_order_id o' = default VNone (data !! "orderId")
    /\ status o' = status o
    /\ filled_quantity o' = filled_quantity o
    /\ average_fill_price o' = average_fill_price o
    /\ last_update_timestamp o' = last_update_timestamp o
    /\ error_message o' = error_message o
    /\ params o' = params o.
Proof.
  intros Hreg Hid Hl Hst Hs.
  pose proof (lookup_lt_Some _ _ _ Hl) as Hlt.
  exists (set_exchange_order_id (Py.get data "orderId") o).
  eexists. split.
  - unfold update_order.
    rewrite bind_run, (read_dict_run _ reg), Hid by exact Hreg.
    rewrite bind_run, (update_from_exchange_at l data h o Hl).
    rewrite update_from_exchange_run by exact Hlt. cbv zeta.
    unfold Py.get_default. rewrite Hst. cbn [default from_option id].
    rewrite OrderStatus_of_unknown by exact Hs. reflexivity.
  - unfold registry, registered, registry. cbn [orders dicts].
    rewrite Hreg. cbn [default from_option id]. rewrite Hid.
    cbn [mbind option_bind]. rewrite list_lookup_insert_eq by exact Hlt.
    repeat split.
Qed.

(** ** Reachable tracker states are well formed *)

Section WellFormed.
Variable self : OrderManager.

Lemma tracker_wf_orders h (L : list Order) :
  tracker_wf self h -> (length (orders h) <= length L)%nat ->
  tracker_wf self {| orders := L; dicts := dicts h |}.
Proof.
  intros (reg & Hreg & Hlt & He) Hlen. exists reg. cbn [orders dicts].
  repeat split; auto. intros k l Hk. specialize (Hlt k l Hk). lia.
Qed.

Lemma tracker_wf_delete h reg (L : list Order) id :
  tracker_wf self h -> dicts h !! active_orders self = Some reg ->
  (length (orders h) <= length L)%nat ->
  tracker_wf self
    {| orders := L;
       dicts := <[active_orders self := delete id reg]> (dicts h) |}.
Proof.
  intros (reg' & Hreg & Hlt & He) Hreg' Hlen.
  assert (reg' = reg) as -> by congruence.
  exists (delete id reg). cbn [orders dicts].
  rewrite list_lookup_insert_eq by (eapply lookup_lt_Some; eauto).
  repeat split.
  - intros k l [_ Hk]%lookup_delete_Some. specialize (Hlt k l Hk). lia.
  - apply lookup_delete_None. auto.
Qed.

Lemma tracker_wf_create h p :
  tracker_wf self h -> tracker_wf self (heap_after (create_order self p) h).
Proof.
  intros Hwf. pose proof Hwf as (reg & Hreg & Hlt & He).
  unfold heap_after. rewrite (create_order_run self h reg Hreg).
  destruct (client_order_id p) as [id|].
  2:{ apply tracker_wf_orders; [exact Hwf|]. rewrite length_app. lia. }
  destruct (String.eqb_spec id "") as [->|Hne]; cbn [negb].
  { apply tracker_wf_orders; [exact Hwf|]. rewrite length_app. lia. }
  exists (<[id := length (orders h)]> reg). cbn [orders dicts].
  rewrite list_lookup_insert_eq by (eapply lookup_lt_Some; eauto).
  repeat split.
  - intros k l. rewrite length_app. cbn [length].
    intros [[_ <-]|[_ Hk]]%lookup_insert_Some; [lia|].
    specialize (Hlt k l Hk). lia.
  - rewrite lookup_insert_ne; auto.
Qed.

Lemma tracker_wf_update h id data :
  tracker_wf self h -> tracker_wf self (heap_after (update_order self id data) h).
Proof.
  intros Hwf. pose proof Hwf as (reg & Hreg & Hlt & He).
  unfold heap_after.
  destruct (reg !! id) as [l|] eqn:Hid.
  2:{ now rewrite (update_order_missing self h reg Hreg id data Hid). }
  destruct (lookup_lt_is_Some_2 (orders h) l (Hlt _ _ Hid)) as [o Hl].
  destruct (update_order_run self h reg Hreg id data l o Hid Hl)
    as ([[]|e] & o' & _ & _ & Hrun).
  - destruct Hrun as [_ ->]. destruct (is_terminal (status o')).
    + apply tracker_wf_delete; auto. now rewrite length_insert.
    + apply tracker_wf_orders; auto. now rewrite length_insert.
  - rewrite Hrun. apply tracker_wf_orders; auto. now rewrite length_insert.
Qed.

Lemma tracker_wf_cancel h id :
  tracker_wf self h -> tracker_wf self (heap_after (cancel_order self id) h).
Proof.
  intros Hwf. pose proof Hwf as (reg & Hreg & Hlt & He).
  unfold heap_after.
  destruct (reg !! id) as [l|] eqn:Hid.
  2:{ now rewrite (cancel_order_missing self h reg Hreg id Hid). }
  destruct (lookup_lt_is_Some_2 (orders h) l (Hlt _ _ Hid)) as [o Hl].
  rewrite (cancel_order_run self h reg Hreg id l o Hid Hl).
  apply tracker_wf_delete; auto. now rewrite length_insert.
Qed.

Lemma tracker_wf_call h c :
  tracker_wf self h -> tracker_wf self (run_call self c h).
Proof.
  destruct c; cbn [run_call];
    auto using tracker_wf_create, tracker_wf_update, tracker_wf_cancel.
Qed.

End WellFormed.

Lemma tracker_wf_init : tracker_wf manager0 heap0.
Proof. exists ∅. repeat split; intros; simplify_map_eq. Qed.

Lemma reachable_wf h : reachable h -> tracker_wf manager0 h.
Proof.
  induction 1; [apply tracker_wf_init | now apply tracker_wf_call].
Qed.

(** ** Orders with an empty client order id *)

Lemma to_dict_no_client_order_id p body :
  truthy_str (client_order_id p) = false ->
  to_dict (Order_init p) = Ok body -> body !! "clientOrderId" = None.
Proof.
  intros Hid. unfold to_dict. cbn [params Order_init].
  assert (match client_order_id p with
          | Some id => negb (String.eqb id "")
          | None => false
          end = false) as Hid' by exact Hid.
  destruct (client_order_id p) as [id|]; [rewrite Hid'|];
    (destruct (order_type p); unfold required_price;
     [ intros [= <-]; now simplify_map_eq
     | destruct (price p) as [d|]; [destruct (DecOps.truthy d)|]
     | destruct (stop_price p) as [d|]; [destruct (DecOps.truthy d)|]
     | destruct (take_profit_price p) as [d|]; [destruct (DecOps.truthy d)|] ];
     cbn; intros [= <-]; now simplify_map_eq).
Qed.

(** C10: an order whose client order id is the empty string is created and
    returned but not registered: the registry stays as it is, [get_order("")]
    finds nothing, and [to_dict] leaves out ["clientOrderId"].  At each of
    these points the empty id behaves as an absent one. *)
Theorem empty_client_order_id_is_not_registered (h : Heap) (p : OrderParams) :
  reachable h ->
  client_order_id p = Some "" ->
  exists l h',
    create_order manager0 p h = Some (Ok l, h')
    /\ orders h !! l = None
    /\ orders h' !! l = Some (Order_init p)
    /\ dicts h' = dicts h
    /\ get_order manager0 "" h' = Some (Ok None, h')
    /\ (exists h'',
          create_order manager0 (with_client_order_id None p) h = Some (Ok l, h'')
          /\ dicts h'' = dicts h')
    /\ to_dict (Order_init p) = to_dict (Order_init (with_client_order_id None p))
    /\ (forall body,
          to_dict (Order_init p) = Ok body -> body !! "clientOrderId" = None).
Proof.
  intros (reg & Hreg & Hlt & He)%reachable_wf Hid.
  do 2 eexists. split; [apply (create_order_run manager0 h reg Hreg)|].
  rewrite Hid. cbn [String.eqb negb orders dicts].
  repeat split.
  - now apply lookup_ge_None_2.
  - now rewrite lookup_app_r, Nat.sub_diag.
  - rewrite (get_order_run manager0 _ reg) by exact Hreg. now rewrite He.
  - eexists. split; [apply (create_order_run manager0 h reg Hreg)|]. reflexivity.
  - unfold to_dict. cbn [params Order_init with_client_order_id
                          client_order_id order_type symbol side quantity
                          leverage time_in_force reduce_only price stop_price
                          take_profit_price].
    now rewrite Hid.
  - intros body. apply to_dict_no_client_order_id. now rewrite Hid.
Qed.

(** ** The registry and terminal orders *)

Section ActiveOnly.
Variable self : OrderManager.

Lemma active_only_create h p :
  active_only self h -> active_only self (heap_after (create_order self p) h).
Proof.
  intros (reg & Hreg & Hact & Hinj).
  assert (Hold : forall k l, reg !! k = Some l ->
            exists o, (orders h ++ [Order_init p]) !! l = Some o
                      /\ is_terminal (status o) = false).
  { intros k l (o & Ho & Hs)%Hact. exists o. split; [|exact Hs].
    now apply lookup_app_l_Some. }
  unfold heap_after. rewrite (create_order_run self h reg Hreg).
  destruct (client_order_id p) as [id|]; [|exists reg; auto].
  destruct (negb (String.eqb id "")); [|exists reg; auto].
  exists (<[id := length (orders h)]> reg). cbn [orders dicts].
  rewrite list_lookup_insert_eq by (eapply lookup_lt_Some; eauto).
  assert (Hfresh : forall k, reg !! k <> Some (length (orders h))).
  { intros k (o & Ho%lookup_lt_Some & _)%Hact. lia. }
  repeat split.
  - intros k l [[_ <-]|[_ Hk]]%lookup_insert_Some; [|eauto].
    exists (Order_init p). split; [|reflexivity].
    now rewrite lookup_app_r, Nat.sub_diag.
  - intros k1 k2 l [[<- <-]|[Hn1 H1]]%lookup_insert_Some
                     [[<- Hl]|[Hn2 H2]]%lookup_insert_Some;
      try reflexivity; subst; try (exfalso; eapply Hfresh; eauto; fail).
    eauto.
Qed.

Lemma active_only_drop h reg id (l : nat) o' :
  dicts h !! active_orders self = Some reg ->
  (forall k l, reg !! k = Some l ->
     exists o, orders h !! l = Some o /\ is_terminal (status o) = false) ->
  (forall k1 k2 l, reg !! k1 = Some l -> reg !! k2 = Some l -> k1 = k2) ->
  reg !! id = Some l ->
  active_only self
    {| orders := <[l:=o']> (orders h);
       dicts := <[active_orders self := delete id reg]> (dicts h) |}.
Proof.
  intros Hreg Hact Hinj Hid.
  exists (delete id reg). cbn [orders dicts].
  rewrite list_lookup_insert_eq by (eapply lookup_lt_Some; eauto).
  repeat split.
  - intros k l' [Hne Hk]%lookup_delete_Some.
    destruct (Hact _ _ Hk) as (o & Ho & Hs). exists o. split; [|exact Hs].
    rewrite list_lookup_insert_ne; [exact Ho|].
    intros <-. apply Hne. eauto.
  - intros k1 k2 l' [_ H1]%lookup_delete_Some [_ H2]%lookup_delete_Some. eauto.
Qed.

Lemma active_only_update h id data :
  active_only self h ->
  (exists h', update_order self id data h = Some (Ok tt, h')) ->
  active_only self (heap_after (update_order self id data) h).
Proof.
  intros Hao [h' Hret]. pose proof Hao as (reg & Hreg & Hact & Hinj).
  unfold heap_after.
  destruct (reg !! id) as [l|] eqn:Hid.
  2:{ now rewrite (update_order_missing self h reg Hreg id data Hid). }
  destruct (Hact _ _ Hid) as (o & Hl & Hs).
  destruct (update_order_run self h reg Hreg id data l o Hid Hl)
    as ([[]|e] & o' & _ & _ & Hrun); [|congruence].
  destruct Hrun as [_ ->].
  destruct (is_terminal (status o')) eqn:Ht.
  - now apply active_only_drop.
  - exists reg. cbn [orders dicts]. repeat split; auto.
    intros k l' Hk. destruct (decide (l' = l)) as [->|Hne].
    + exists o'. split; [|exact Ht].
      apply list_lookup_insert_eq. eapply lookup_lt_Some; eauto.
    + rewrite list_lookup_insert_ne by auto. eauto.
Qed.

Lemma active_only_cancel h id :
  active_only self h -> active_only self (heap_after (cancel_order self id) h).
Proof.
  intros Hao. pose proof Hao as (reg & Hreg & Hact & Hinj).
  unfold heap_after.
  destruct (reg !! id) as [l|] eqn:Hid.
  2:{ now rewrite (cancel_order_missing self h reg Hreg id Hid). }
  destruct (Hact _ _ Hid) as (o & Hl & Hs).
  rewrite (cancel_order_run self h reg Hreg id l o Hid Hl).
  now apply active_only_drop.
Qed.

End ActiveOnly.

(** As long as no call raises, the registry holds non-terminal orders
    only. *)
Lemma reachable_without_exception_active_only h :
  reachable_without_exception h -> active_only manager0 h.
Proof.
  induction 1 as [|h c _ IH Hret].
  - exists ∅. repeat split; intros; simplify_map_eq.
  - destruct c; cbn [run_call call_returns] in *.
    + now apply active_only_create.
    + now apply active_only_update.
    + now apply active_only_cancel.
Qed.

(** C1: a terminal order can stay in the registry.  After
    [create_order] with the id ["abc123"], the call
    [update_order("abc123", {"status": "FILLED", "fillQuantity": None})]
    sets the status to FILLED, then raises [InvalidOperation] on the fill
    quantity and never reaches the pruning step: the state is reachable and
    ["abc123"] is registered with status FILLED. *)
Theorem filled_order_stays_registered_after_failed_update :
  let h1 := run_call manager0 (CreateOrder (sample_params (Some "abc123"))) heap0 in
  let h2 := run_call manager0 (UpdateOrder "abc123" filled_null_quantity) h1 in
  reachable h2
  /\ update_order manager0 "abc123" filled_null_quantity h1
     = Some (Raise InvalidOperation, h2)
  /\ (status <$> registered manager0 h2 "abc123") = Some FILLED
  /\ is_terminal FILLED = true.
Proof.
  repeat split.
  do 2 apply reachable_call. apply reachable_init.
Qed.

(** ** Snapshots of the registry *)

Lemma get_active_orders_run self h reg :
  dicts h !! active_orders self = Some reg ->
  get_active_orders self h
  = Some (Ok (length (dicts h)),
          {| orders := orders h; dicts := dicts h ++ [reg] |}).
Proof.
  intros Hreg. unfold get_active_orders.
  now rewrite bind_run, (read_dict_run _ reg).
Qed.

(** Changing a [dict] other than the registry leaves the registry and the
    orders as they are. *)
Lemma mutate_map_frame self (snapshot : nat) f h d :
  snapshot <> active_orders self ->
  dicts h !! snapshot = Some d ->
  exists h',
    modify_dict snapshot f h = Some (Ok tt, h')
    /\ dicts h' !! snapshot = Some (f d)
    /\ dicts h' !! active_orders self = dicts h !! active_orders self
    /\ orders h' = orders h.
Proof.
  intros Hne Hd. eexists. split; [apply (modify_dict_run _ _ d _ Hd)|].
  cbn [orders dicts]. repeat split.
  - apply list_lookup_insert_eq. eapply lookup_lt_Some; eauto.
  - now apply list_lookup_insert_ne.
Qed.

Lemma mutate_maps_frame self (snapshot : nat) ms :
  Forall is_map_mutation ms ->
  forall h d,
    snapshot <> active_orders self ->
    dicts h !! snapshot = Some d ->
    exists h',
      mutate_snapshot_all snapshot ms h = Some (Ok tt, h')
      /\ dicts h' !! active_orders self = dicts h !! active_orders self
      /\ orders h' = orders h.
Proof.
  induction 1 as [|m ms Hm _ IH]; intros h d Hne Hd.
  - exists h. now repeat split.
  - destruct m as [f|]; [|contradiction]. cbn [mutate_snapshot_all mutate_snapshot].
    destruct (mutate_map_frame self snapshot f h d Hne Hd)
      as (h1 & Hrun & Hd1 & Hreg1 & Ho1).
    destruct (IH h1 (f d) Hne Hd1) as (h2 & Hrun2 & Hreg2 & Ho2).
    exists h2. rewrite bind_run, Hrun. split; [exact Hrun2|].
    split; congruence.
Qed.

(** C7, as amended: [get_active_orders] returns a new [dict] with the
    content of the registry (the same ids, referring to the same [Order]
    objects), and whatever the caller then does to that [dict] itself leaves
    the registry and every registered order as they were, as [get_order] and
    a second [get_active_orders] show. *)
Theorem get_active_orders_copies_the_map
    (self : OrderManager) (h : Heap) (reg : gmap string nat)
    (ms : list snapshot_mutation) :
  dicts h !! active_orders self = Some reg ->
  Forall is_map_mutation ms ->
  exists snapshot h1 h2,
    get_active_orders self h = Some (Ok snapshot, h1)
    /\ snapshot <> active_orders self
    /\ dicts h !! snapshot = None
    /\ dicts h1 !! snapshot = Some reg
    /\ mutate_snapshot_all snapshot ms h1 = Some (Ok tt, h2)
    /\ registry self h2 = reg
    /\ orders h2 = orders h
    /\ (forall id, get_order self id h2 = Some (Ok (reg !! id), h2))
    /\ (forall id, registered self h2 id = registered self h id)
    /\ (exists snapshot' h3,
          get_active_orders self h2 = Some (Ok snapshot', h3)
          /\ dicts h3 !! snapshot' = Some reg).
Proof.
  intros Hreg Hms.
  pose proof (lookup_lt_Some _ _ _ Hreg) as Hlt.
  assert (Hne : length (dicts h) <> active_orders self) by lia.
  assert (Hsnap : (dicts h ++ [reg]) !! length (dicts h) = Some reg)
    by now rewrite lookup_app_r, Nat.sub_diag.
  destruct (mutate_maps_frame self (length (dicts h)) ms Hms
              {| orders := orders h; dicts := dicts h ++ [reg] |} reg Hne Hsnap)
    as (h2 & Hrun & Hreg2 & Ho2).
  cbn [orders dicts] in Hreg2, Ho2.
  rewrite lookup_app_l in Hreg2 by exact Hlt. rewrite Hreg in Hreg2.
  exists (length (dicts h)), {| orders := orders h; dicts := dicts h ++ [reg] |}, h2.
  split; [now apply get_active_orders_run|].
  split; [exact Hne|].
  split; [now apply lookup_ge_None_2|].
  split; [exact Hsnap|].
  split; [exact Hrun|].
  split; [unfold registry; now rewrite Hreg2|].
  split; [exact Ho2|].
  split; [intros id; now apply get_order_run|].
  split.
  - intros id. unfold registered, registry. now rewrite Hreg2, Hreg, Ho2.
  - do 2 eexists. split; [apply (get_active_orders_run _ _ reg Hreg2)|].
    cbn [dicts]. now rewrite lookup_app_r, Nat.sub_diag.
Qed.

(** C7, as stated, fails: the [Order] objects in the snapshot are the
    registry's own.  Setting the status of the order found under ["abc123"]
    in the snapshot changes what the tracker shows for ["abc123"]. *)
Lemma snapshot_is_not_defensive : ~ snapshot_is_defensive.
Proof.
  intros Hclaim.
  set (h := run_call manager0 (CreateOrder (sample_params (Some "abc123"))) heap0).
  assert (Hwf : tracker_wf manager0 h)
    by (apply reachable_wf, reachable_call, reachable_init).
  specialize (Hclaim manager0 h [MutateOrder "abc123" (set_status FILLED)]
                _ _ _ Hwf eq_refl eq_refl "abc123").
  vm_compute in Hclaim. discriminate.
Qed.

(** ** Range checks *)

Section Range.

Lemma cmp_not_nan a b :
  DecOps.is_nan a = false -> DecOps.is_nan b = false ->
  exists c, DecOps.cmp a b = Some c.
Proof. destruct a, b; simpl; try discriminate; eauto. Qed.

Lemma cmp_some_not_nan a b c :
  DecOps.cmp a b = Some c -> DecOps.is_nan a = false.
Proof. destruct a, b; simpl; try discriminate; auto. Qed.


Lemma validate_amount_out_of_range what what_lc amount q mn mx :
  Py.Decimal_of amount = Ok q ->
  bound_is_number mn -> bound_is_number mx ->
  OutOfRange what (validate_amount what what_lc amount (bound mn) (bound mx))
  <-> DecOps.le q Dec.zero
      \/ (exists m, effective_bound mn = Some m /\ DecOps.lt q m)
      \/ (exists m, effective_bound mx = Some m /\ DecOps.gt q m).
Proof.
  intros Hq Hmn Hmx.
  unfold validate_amount. rewrite Hq.
  cbn [try_except mbind result_bind].
  unfold Py.dec_le, Py.dec_order, DecOps.le, DecOps.lt, DecOps.gt.
  destruct (DecOps.cmp q Dec.zero) as [c0|] eqn:H0.
  2:{ (* [q] is a NaN *)
    assert (Hnan : forall m, DecOps.cmp q m = None)
      by (destruct q; [discriminate..|reflexivity]).
    split.
    - intros (msg & [=] & _).
    - intros [[[=]|[=]]|[(m & _ & H)|(m & _ & H)]];
        rewrite Hnan in H; discriminate. }
  pose proof (cmp_some_not_nan _ _ _ H0) as Hqn.
  destruct c0; cbn [Py.is_Le Py.is_Gt negb].
  1,2: split; [intros _; left; auto
              |intros _; eexists; split; [reflexivity|left; reflexivity]].
  (* [q] is positive *)
  assert (Hmin : exists below,
    (if Py.truthy (bound mn) then Py.dec_lt_val q (bound mn) else Ok false)
    = Ok below
    /\ (below = true <-> exists m, effective_bound mn = Some m
                                   /\ DecOps.cmp q m = Some Lt)).
  { destruct mn as [m|]; cbn [bound Py.truthy effective_bound].
    - destruct (DecOps.truthy m).
      + destruct (cmp_not_nan q m Hqn Hmn) as [c Hc].
        unfold Py.dec_lt_val, Py.dec_order. cbn [Py.comparable]. rewrite Hc.
        eexists. split; [reflexivity|]. split.
        * intros Hlt. exists m. split; [reflexivity|]. now destruct c.
        * intros (m' & [= <-] & Hlt). rewrite Hc in Hlt. now injection Hlt as ->.
      + exists false. split; [reflexivity|].
        split; [discriminate | intros (m' & [=] & _)].
    - exists false. split; [reflexivity|].
      split; [discriminate | intros (m' & [=] & _)]. }
  assert (Hmax : exists above,
    (if Py.truthy (bound mx) then Py.dec_gt_val q (bound mx) else Ok false)
    = Ok above
    /\ (above = true <-> exists m, effective_bound mx = Some m
                                   /\ DecOps.cmp q m = Some Gt)).
  { destruct mx as [m|]; cbn [bound Py.truthy effective_bound].
    - destruct (DecOps.truthy m).
      + destruct (cmp_not_nan q m Hqn Hmx) as [c Hc].
        unfold Py.dec_gt_val, Py.dec_order. cbn [Py.comparable]. rewrite Hc.
        eexists. split; [reflexivity|]. split.
        * intros Hgt. exists m. split; [reflexivity|]. now destruct c.
        * intros (m' & [= <-] & Hgt). rewrite Hc in Hgt. now injection Hgt as ->.
      + exists false. split; [reflexivity|].
        split; [discriminate | intros (m' & [=] & _)].
    - exists false. split; [reflexivity|].
      split; [discriminate | intros (m' & [=] & _)]. }
  destruct Hmin as (below & -> & Hbelow), Hmax as (above & -> & Habove).
  cbn [mbind result_bind].
  destruct below.
  { destruct (proj1 Hbelow eq_refl) as (m & Hm & _).
    destruct mn as [m0|]; [|discriminate].
    cbn [bound Py.str mbind result_bind].
    split; [intros _; right; left; now apply Hbelow|].
    intros _. eexists. split; [reflexivity|]. right. left. eauto. }
  cbn [mbind result_bind]. destruct above.
  { destruct (proj1 Habove eq_refl) as (m & Hm & _).
    destruct mx as [m0|]; [|discriminate].
    cbn [bound Py.str mbind result_bind].
    split; [intros _; right; right; now apply Habove|].
    intros _. eexists. split; [reflexivity|]. right. right. eauto. }
  split.
  - intros (msg & [=] & _).
  - intros [[[=]|[=]]|[H|H]].
    + apply Hbelow in H. discriminate.
    + apply Habove in H. discriminate.
Qed.

End Range.


(** ** [validate_order_params] *)

Section OrderParamsValidation.

Lemma copy_optional_lookup optional params validated k v :
  params !! k = Some v ->
  validated !! k = Some v \/ k ∈ optional ->
  copy_optional optional params validated !! k = Some v.
Proof.
  intros Hk. revert validated.
  induction optional as [|a rest IH]; intros validated Hcase; cbn [copy_optional].
  - destruct Hcase as [H|H]; [exact H | now apply elem_of_nil in H].
  - destruct (decide (a = k)) as [->|Hne].
    + rewrite Hk. apply IH. left. apply lookup_insert_eq.
    + assert (Hrest : forall w, (<[a:=w]> validated) !! k = Some v \/ k ∈ rest).
      { intros w. rewrite lookup_insert_ne by exact Hne.
        destruct Hcase as [H|H]; [now left|].
        apply elem_of_cons in H as [->|H]; [congruence | now right]. }
      destruct (params !! a) as [w|]; [now apply IH|].
      apply IH. specialize (Hrest VNone).
      now rewrite lookup_insert_ne in Hrest by exact Hne.
Qed.

Lemma validated_present (params : gmap string pyval) k :
  Py.get params k <> VNone -> exists v, params !! k = Some v.
Proof.
  unfold Py.get. destruct (params !! k) as [v|]; [eauto|].
  intros H. now contradiction H.
Qed.

End OrderParamsValidation.

(** C6, as amended: when the required parameters pass their validation and
    the price and the leverage, if present, pass theirs, the value under
    [client_order_id] arrives in the result as it is, whatever it is:
    [validate_client_order_id] plays no part. *)
Theorem validate_order_params_passes_client_order_id_through
    (params : gmap string pyval) (v : pyval) :
  params !! "client_order_id" = Some v ->
  required_params_valid params ->
  present_params_valid params ->
  exists validated,
    validate_order_params params = Ok validated
    /\ validated !! "client_order_id" = Some v.
Proof.
  intros Hid ((s & Hs) & (q & Hq) & Hside) (Hprice & Hlev).
  assert (Hsym : exists x, params !! "symbol" = Some x).
  { apply validated_present. intros E. rewrite E in Hs. discriminate. }
  assert (Hqty : exists x, params !! "quantity" = Some x).
  { apply validated_present. intros E. rewrite E in Hq. discriminate. }
  assert (Hsd : exists x, params !! "side" = Some x).
  { apply validated_present. intros E. rewrite E in Hside. discriminate. }
  destruct Hsym as [x1 H1], Hqty as [x2 H2], Hsd as [x3 H3].
  unfold validate_order_params. cbn [check_required].
  rewrite H1, H2, H3. cbn [mbind result_bind].
  rewrite Hs. cbn [mbind result_bind]. rewrite Hq. cbn [mbind result_bind].
  rewrite Hside. cbn [negb].
  destruct (params !! "price") as [pr|] eqn:Hpr.
  - destruct (Hprice pr eq_refl) as [p ->]. cbn [mbind result_bind].
    destruct (params !! "leverage") as [lv|] eqn:Hlv.
    + destruct (Hlev lv eq_refl) as [l ->]. cbn [mbind result_bind].
      eexists. split; [reflexivity|].
      apply copy_optional_lookup; [exact Hid | right; set_solver].
    + cbn [mbind result_bind]. eexists. split; [reflexivity|].
      apply copy_optional_lookup; [exact Hid | right; set_solver].
  - cbn [mbind result_bind].
    destruct (params !! "leverage") as [lv|] eqn:Hlv.
    + destruct (Hlev lv eq_refl) as [l ->]. cbn [mbind result_bind].
      eexists. split; [reflexivity|].
      apply copy_optional_lookup; [exact Hid | right; set_solver].
    + cbn [mbind result_bind]. eexists. split; [reflexivity|].
      apply copy_optional_lookup; [exact Hid | right; set_solver].
Qed.

(** C6, as stated, fails: with valid required parameters and the price
    ["0"], [validate_order_params] raises the range error of the price and
    returns no result. *)
Lemma client_order_id_not_always_passed_through :
  ~ client_order_id_always_passed_through.
Proof.
  intros Hclaim.
  destruct (Hclaim (sample_raw_params (Some (VStr "0"))) (VStr "bad id!"))
    as (validated & Hrun & _).
  - reflexivity.
  - split; [|split]; [eexists; reflexivity..|reflexivity].
  - vm_compute in Hrun. discriminate.
Qed.

Example validate_client_order_id_rejects :
  validate_client_order_id (VStr "bad id!")
  = Raise (ValidationError
             ("Invalid client order ID format. Must be 1-36 characters long "
              +:+ "and contain only letters, numbers, underscore, and hyphen.")).
Proof. reflexivity. Qed.

(** ** Decimals survive serialisation *)

Section DecimalRoundTripAll.

Lemma parse_infinity s :
  Dec.parse (Dec.to_str (Infinity s)) = Some (Infinity s).
Proof. now destruct s. Qed.

Lemma lower_chars :
  Str.lower "s" = "s"%char /\ Str.lower "N" = "n"%char
  /\ Str.lower "a" = "a"%char.
Proof. now vm_compute. Qed.

Lemma parse_nan_digits s (sig : bool) digits :
  Str.all Str.is_digit digits = true ->
  Dec.parse (Dec.sign_str s +:+ (if sig then "sNaN" else "NaN") +:+ digits)
  = Some (NaN s sig (Str.to_N digits)).
Proof.
  intros Hd. unfold Dec.parse.
  rewrite plain_strip_remove.
  2:{ rewrite !all_app, (all_impl _ _ _ digit_plain Hd). now destruct s, sig. }
  destruct s, sig; unfold Dec.sign_str;
    rewrite ?str_app_nil_l, ?str_app_cons, ?str_app_nil_l;
    cbn match; unfold Dec.parse_number, Dec.parse_nan; cbn;
    destruct lower_chars as (Hs & HN & Ha); rewrite ?Hs, ?HN, ?Ha; cbn;
    now rewrite Hd.
Qed.

Lemma parse_to_str_nan s sig diag :
  Dec.parse (Dec.to_str (NaN s sig diag)) = Some (NaN s sig diag).
Proof.
  unfold Dec.to_str. destruct (N.eqb_spec diag 0) as [->|Hne].
  - now rewrite parse_nan_digits.
  - now rewrite parse_nan_digits, to_N_of_N by apply of_N_digits.
Qed.

(** The string of a decimal denotes that decimal, with the same sign,
    digits and exponent. *)
Lemma parse_to_str d : Dec.parse (Dec.to_str d) = Some d.
Proof.
  destruct d; auto using parse_to_str_finite, parse_infinity,
                         parse_to_str_nan.
Qed.

(** What [Decimal(...)] returns is within the limits. *)
Lemma of_str_representable s d :
  Dec.of_str s = Some d -> Dec.representable d = true.
Proof.
  unfold Dec.of_str. destruct (Dec.parse s) as [d'|]; [|discriminate].
  destruct (Dec.representable d') eqn:E; [|discriminate].
  now intros [= <-].
Qed.

(** [Decimal(str(d)) = d] for every [Decimal] object [d]. *)
Lemma of_str_to_str d :
  Dec.representable d = true -> Dec.of_str (Dec.to_str d) = Some d.
Proof. intros H. unfold Dec.of_str. now rewrite parse_to_str, H. Qed.

(** [Decimal(str(d))] for a [Decimal] object [d] *)
Lemma Decimal_of_VDec d :
  Dec.representable d = true -> Py.Decimal_of (VDec d) = Ok d.
Proof.
  intros H. unfold Py.Decimal_of, Py.Decimal_of_str. cbn [Py.str mbind result_bind].
  now rewrite of_str_to_str.
Qed.

(** A converted value is a [Decimal] object. *)
Lemma Decimal_of_representable v d :
  Py.Decimal_of v = Ok d -> Dec.representable d = true.
Proof.
  unfold Py.Decimal_of, Py.Decimal_of_str.
  destruct (Py.str v) as [s|]; [|discriminate]. cbn [mbind result_bind].
  destruct (Dec.of_str s) as [d'|] eqn:E; [|discriminate].
  intros [= <-]. now apply of_str_representable in E.
Qed.

End DecimalRoundTripAll.

Lemma required_price_truthy x msg :
  truthy_decimal x = true ->
  exists d, x = Some d /\ required_price x msg = Ok (Dec.to_str d).
Proof.
  destruct x as [d|]; [|discriminate]. cbn. intros Hd. exists d.
  split; [reflexivity|]. unfold required_price. now rewrite Hd.
Qed.

Lemma to_dict_quantity self body :
  to_dict self = Ok body ->
  body !! "quantity" = Some (VStr (Dec.to_str (quantity (params self)))).
Proof.
  unfold to_dict.
  set (base := match client_order_id (params self) with
               | Some id => if negb (String.eqb id "") then _ else _
               | None => _
               end).
  assert (Hbase : base !! "quantity"
                  = Some (VStr (Dec.to_str (quantity (params self))))).
  { subst base. destruct (client_order_id (params self)) as [id|];
      [destruct (negb (String.eqb id ""))|]; now simplify_map_eq. }
  destruct (order_type (params self)).
  - now intros [= <-].
  - destruct (required_price _ _); intros [= <-]. now simplify_map_eq.
  - destruct (required_price _ _); intros [= <-]. now simplify_map_eq.
  - destruct (required_price _ _); intros [= <-]. now simplify_map_eq.
Qed.

(** C2, as amended: for an order whose quantity (and, for a LIMIT order,
    price) is a positive [Decimal] and whose STOP_LOSS or TAKE_PROFIT trigger
    price is set and not zero, [to_dict] returns a body whose ["quantity"]
    (and ["price"]) entries are the exact decimal strings, and the strings
    parse back to the very decimals they came from. *)
Theorem to_dict_decimals_round_trip (self : Order) :
  let p := params self in
  positive_decimal (quantity p) ->
  (order_type p = LIMIT -> exists d, price p = Some d /\ positive_decimal d) ->
  trigger_price_set p ->
  exists body,
    to_dict self = Ok body
    /\ exact_entry body "quantity" (quantity p)
    /\ (order_type p = LIMIT ->
        exists d, price p = Some d /\ exact_entry body "price" d).
Proof.
  intros p [Hqr Hq] Hprice Htrig. subst p.
  assert (Hret : exists body, to_dict self = Ok body
            /\ (order_type (params self) = LIMIT ->
                exists d, price (params self) = Some d
                          /\ Dec.representable d = true
                          /\ body !! "price" = Some (VStr (Dec.to_str d)))).
  { unfold to_dict, trigger_price_set in *.
    destruct (order_type (params self)).
    - eexists. split; [reflexivity | discriminate].
    - destruct (Hprice eq_refl) as (d & Hd & Hrep & Hpos).
      rewrite Hd. unfold required_price. rewrite (positive_truthy d Hpos).
      cbn. eexists. split; [reflexivity|]. intros _. exists d.
      split; [reflexivity|]. split; [exact Hrep|]. now simplify_map_eq.
    - destruct (required_price_truthy _
                  "Stop price is required for STOP_LOSS orders" Htrig)
        as (d & _ & ->).
      cbn. eexists. split; [reflexivity | discriminate].
    - destruct (required_price_truthy _
                  "Take profit price is required for TAKE_PROFIT orders" Htrig)
        as (d & _ & ->).
      cbn. eexists. split; [reflexivity | discriminate]. }
  destruct Hret as (body & Hbody & Hp). exists body.
  split; [exact Hbody|]. split.
  - split; [now apply to_dict_quantity | now apply of_str_to_str].
  - intros Hl. destruct (Hp Hl) as (d & Hd & Hrep & Hentry). exists d.
    split; [exact Hd|]. split; [exact Hentry | now apply of_str_to_str].
Qed.

(** C2, as stated, fails: a STOP_LOSS order with a positive quantity and no
    stop price is not serialised at all, [to_dict] raises. *)
Lemma not_every_order_round_trips : ~ every_order_round_trips.
Proof.
  intros Hclaim.
  destruct (Hclaim (Order_init stop_loss_without_stop_price))
    as (body & Hrun & _).
  - split; reflexivity.
  - discriminate.
  - vm_compute in Hrun. discriminate.
Qed.

(** ** The theorems at sample inputs *)

Lemma to_dict_decimals_round_trip_witness :
  let self := Order_init (limit_params (Some (Finite false 49500000000001 (-9)))) in
  positive_decimal (quantity (params self))
  /\ (order_type (params self) = LIMIT ->
      exists d, price (params self) = Some d /\ positive_decimal d)
  /\ trigger_price_set (params self)
  /\ exists body,
       to_dict self = Ok body
       /\ exact_entry body "quantity" (Finite false 123456789012 (-12))
       /\ (order_type (params self) = LIMIT ->
           exists d, price (params self) = Some d /\ exact_entry body "price" d).
Proof.
  split; [split; reflexivity|].
  split; [intros _; eexists; split; [|split]; reflexivity|].
  split; [exact I|].
  apply (to_dict_decimals_round_trip
           (Order_init (limit_params (Some (Finite false 49500000000001 (-9)))))).
  - split; reflexivity.
  - intros _. eexists. split; [|split]; reflexivity.
  - exact I.
Defined.


Lemma validate_order_params_passes_client_order_id_through_witness :
  sample_raw_params None !! "client_order_id" = Some (VStr "bad id!")
  /\ required_params_valid (sample_raw_params None)
  /\ present_params_valid (sample_raw_params None)
  /\ exists validated,
       validate_order_params (sample_raw_params None) = Ok validated
       /\ validated !! "client_order_id" = Some (VStr "bad id!").
Proof.
  assert (Hreq : required_params_valid (sample_raw_params None)).
  { split; [|split]; [eexists; reflexivity..|reflexivity]. }
  assert (Hpres : present_params_valid (sample_raw_params None)).
  { split; intros x Hx; vm_compute in Hx; discriminate. }
  split; [reflexivity|]. split; [exact Hreq|]. split; [exact Hpres|].
  apply (validate_order_params_passes_client_order_id_through
           (sample_raw_params None) (VStr "bad id!") eq_refl Hreq Hpres).
Defined.

Lemma get_active_orders_copies_the_map_witness :
  let ms := [MutateMap (delete "abc123"); MutateMap (insert "zzz" 0%nat)] in
  dicts heap_abc123 !! active_orders manager0 = Some registry_abc123
  /\ Forall is_map_mutation ms
  /\ exists snapshot h1 h2,
       get_active_orders manager0 heap_abc123 = Some (Ok snapshot, h1)
       /\ mutate_snapshot_all snapshot ms h1 = Some (Ok tt, h2)
       /\ dicts h2 !! snapshot = Some {["zzz" := 0%nat]}
       /\ registry manager0 h2 = registry_abc123.
Proof.
  intros ms.
  assert (Hms : Forall is_map_mutation ms) by (repeat constructor).
  split; [reflexivity|]. split; [exact Hms|].
  destruct (get_active_orders_copies_the_map
              manager0 heap_abc123 registry_abc123 ms eq_refl Hms)
    as (snapshot & h1 & h2 & Hget & _ & _ & _ & Hmut & Hreg & _).
  exists snapshot, h1, h2. split; [exact Hget|]. split; [exact Hmut|].
  split; [|exact Hreg].
  vm_compute in Hget. injection Hget as <- <-.
  vm_compute in Hmut. injection Hmut as <-. reflexivity.
Defined.

Lemma update_order_unknown_status_not_atomic_witness :
  dicts heap_abc123 !! active_orders manager0 = Some registry_abc123
  /\ registry_abc123 !! "abc123" = Some 0%nat
  /\ orders heap_abc123 !! 0%nat = Some (Order_init (sample_params (Some "abc123")))
  /\ bogus_status !! "status" = Some (VStr "BOGUS")
  /\ (forall st, OrderStatus_value st <> "BOGUS")
  /\ exists o' h',
       update_order manager0 "abc123" bogus_status heap_abc123
       = Some (Raise (ValueError (NotAValidOrderStatus (VStr "BOGUS"))), h')
       /\ registered manager0 h' "abc123" = Some o'
       /\ exchange_order_id o' = VStr "X-1"
       /\ status o' = PENDING.
Proof.
  assert (Hs : forall st, OrderStatus_value st <> "BOGUS")
    by (intros []; discriminate).
  split; [reflexivity|]. split; [reflexivity|]. split; [reflexivity|].
  split; [reflexivity|]. split; [exact Hs|].
  destruct (update_order_unknown_status_not_atomic
              manager0 heap_abc123 registry_abc123 "abc123" 0%nat
              (Order_init (sample_params (Some "abc123"))) bogus_status "BOGUS"
              eq_refl eq_refl eq_refl eq_refl Hs)
    as (o' & h' & Hrun & _ & Hreg & Hx & Hst & _).
  exists o', h'. auto.
Defined.

Lemma zero_price_counts_as_missing_witness :
  let zero_cents := Finite false 0 (-2) in
  DecOps.cmp zero_cents Dec.zero = Some Eq
  /\ to_dict (Order_init (limit_params (Some zero_cents)))
     = Raise (ValueError (Msg "Price is required for LIMIT orders"))
  /\ to_dict (Order_init (limit_params None))
     = Raise (ValueError (Msg "Price is required for LIMIT orders")).
Proof.
  intros zero_cents. split; [reflexivity|]. split.
  - apply (proj1 (zero_price_counts_as_missing
                    (Order_init (limit_params (Some zero_cents))) zero_cents
                    eq_refl));
      [reflexivity | left; reflexivity].
  - apply (proj1 (zero_price_counts_as_missing
                    (Order_init (limit_params None)) zero_cents eq_refl));
      [reflexivity | right; reflexivity].
Defined.

Lemma empty_client_order_id_is_not_registered_witness :
  reachable heap_abc123
  /\ client_order_id (sample_params (Some "")) = Some ""
  /\ exists l h',
       create_order manager0 (sample_params (Some "")) heap_abc123
       = Some (Ok l, h')
       /\ dicts h' = dicts heap_abc123
       /\ get_order manager0 "" h' = Some (Ok None, h').
Proof.
  assert (Hreach : reachable heap_abc123)
    by (apply reachable_call, reachable_init).
  split; [exact Hreach|]. split; [reflexivity|].
  destruct (empty_client_order_id_is_not_registered
              heap_abc123 (sample_params (Some "")) Hreach eq_refl)
    as (l & h' & Hrun & _ & _ & Hd & Hget & _).
  exists l, h'. auto.
Defined.

(** The examples of the specification for the range check of a quantity. *)
Example validate_quantity_zero :
  validate_quantity (VStr "0") VNone VNone
  = Raise (ValidationError "Quantity must be greater than 0").
Proof. reflexivity. Qed.

Example validate_quantity_negative :
  validate_quantity (VStr "-1") VNone VNone
  = Raise (ValidationError "Quantity must be greater than 0").
Proof. reflexivity. Qed.

Example validate_quantity_zero_max :
  validate_quantity (VStr "5") VNone (VDec Dec.zero) = Ok (Finite false 5 0).
Proof. reflexivity. Qed.

Example validate_quantity_small :
  validate_quantity (VStr "0.00000001") VNone VNone = Ok (Finite false 1 (-8)).
Proof. reflexivity. Qed.

Example validate_quantity_above_max :
  validate_quantity (VStr "5") VNone (VDec (Finite false 45 (-1)))
  = Raise (ValidationError "Quantity must not exceed 4.5").
Proof. reflexivity. Qed.

#[local] Set Warnings "-clear-no-such-hyp".

(** ** More on the amounts: what is returned, what escapes *)

Section Amounts.
Variables what what_lc : string.

(** Whatever [validate_amount] returns is the decimal written in the input,
    it is positive, and it respects the bounds. *)
Lemma validate_amount_ok_inv amount mn mx q :
  validate_amount what what_lc amount mn mx = Ok q ->
  Py.Decimal_of amount = Ok q
  /\ DecOps.positive q
  /\ respects_min q mn
  /\ respects_max q mx.
Proof.
  unfold validate_amount, respects_min, respects_max.
  destruct (Py.Decimal_of amount) as [d|e];
    [|cbn [try_except]; destruct (is_TypeError_or_ValueError e); discriminate].
  cbn [try_except mbind result_bind].
  unfold Py.dec_le, Py.dec_order, DecOps.positive.
  destruct (DecOps.cmp d Dec.zero) as [[]|] eqn:H0;
    cbn [mbind result_bind Py.is_Le Py.is_Gt negb]; try discriminate.
  destruct (Py.truthy mn) eqn:Hmn.
  - unfold Py.dec_lt_val, Py.dec_order.
    destruct (Py.comparable mn) as [m|]; [|discriminate].
    destruct (DecOps.cmp d m) as [c|] eqn:Hc; [|discriminate].
    cbn [mbind result_bind].
    destruct c; cbn [Py.is_Lt]; try (destruct (Py.str mn); discriminate).
    all: destruct (Py.truthy mx) eqn:Hmx.
    all: try (unfold Py.dec_gt_val, Py.dec_order;
              destruct (Py.comparable mx) as [m'|]; [|discriminate];
              destruct (DecOps.cmp d m') as [c'|] eqn:Hc'; [|discriminate];
              cbn [mbind result_bind];
              destruct c'; cbn [Py.is_Gt];
              try (destruct (Py.str mx); discriminate)).
    all: cbn [mbind result_bind]; intros [= <-].
    all: repeat split; auto; try discriminate.
    all: try (intros _; exists m; split; [reflexivity|]; unfold dec_ge; auto).
    all: try (intros _; exists m'; split; [reflexivity|]; unfold DecOps.le; auto).
  - cbn [mbind result_bind].
    destruct (Py.truthy mx) eqn:Hmx.
    all: try (unfold Py.dec_gt_val, Py.dec_order;
              destruct (Py.comparable mx) as [m'|]; [|discriminate];
              destruct (DecOps.cmp d m') as [c'|] eqn:Hc'; [|discriminate];
              cbn [mbind result_bind];
              destruct c'; cbn [Py.is_Gt];
              try (destruct (Py.str mx); discriminate)).
    all: cbn [mbind result_bind]; intros [= <-].
    all: repeat split; auto; try discriminate.
    all: try (intros _; exists m'; split; [reflexivity|]; unfold DecOps.le; auto).
Qed.

(** A positive amount within the bounds is returned as it is. *)
Lemma validate_amount_ok amount mn mx q :
  Py.Decimal_of amount = Ok q ->
  DecOps.positive q ->
  (forall m, effective_bound mn = Some m -> dec_ge q m) ->
  (forall m, effective_bound mx = Some m -> DecOps.le q m) ->
  validate_amount what what_lc amount (bound mn) (bound mx) = Ok q.
Proof.
  intros Hq Hpos Hmn Hmx.
  unfold validate_amount. rewrite Hq.
  cbn [try_except mbind result_bind].
  unfold Py.dec_le, Py.dec_order. rewrite Hpos.
  cbn [mbind result_bind Py.is_Le Py.is_Gt negb].
  assert (Hbelow : (if Py.truthy (bound mn)
                    then Py.dec_lt_val q (bound mn) else Ok false) = Ok false).
  { destruct mn as [m|]; cbn [bound Py.truthy effective_bound] in *; [|reflexivity].
    destruct (DecOps.truthy m); [|reflexivity].
    unfold Py.dec_lt_val, Py.dec_order. cbn [Py.comparable].
    destruct (Hmn m eq_refl) as [-> | ->]; reflexivity. }
  assert (Habove : (if Py.truthy (bound mx)
                    then Py.dec_gt_val q (bound mx) else Ok false) = Ok false).
  { destruct mx as [m|]; cbn [bound Py.truthy effective_bound] in *; [|reflexivity].
    destruct (DecOps.truthy m); [|reflexivity].
    unfold Py.dec_gt_val, Py.dec_order. cbn [Py.comparable].
    destruct (Hmx m eq_refl) as [-> | ->]; reflexivity. }
  now rewrite Hbelow, Habove.
Qed.

(** An input that is a NaN is not turned down by a validation error: the
    comparison with zero raises. *)
Lemma validate_amount_nan amount mn mx s sig diag :
  Py.Decimal_of amount = Ok (NaN s sig diag) ->
  validate_amount what what_lc amount mn mx = Raise InvalidOperation.
Proof.
  intros Hq. unfold validate_amount. now rewrite Hq.
Qed.

(** A bound that is a non-empty string cannot be compared with the amount. *)
Lemma validate_amount_str_bound amount q s other :
  Py.Decimal_of amount = Ok q ->
  DecOps.positive q ->
  s <> "" ->
  validate_amount what what_lc amount (VStr s) other = Raise TypeError
  /\ validate_amount what what_lc amount VNone (VStr s) = Raise TypeError.
Proof.
  intros Hq Hpos Hs.
  unfold validate_amount. rewrite Hq.
  cbn [try_except mbind result_bind].
  unfold Py.dec_le, Py.dec_order. rewrite Hpos.
  cbn [mbind result_bind Py.is_Le Py.is_Gt negb Py.truthy].
  rewrite (proj2 (String.eqb_neq s "") Hs). split; reflexivity.
Qed.

End Amounts.

(** X1: what [validate_quantity] or [validate_price] returns is the decimal
    that the input spells, it is strictly positive, and it is not below a
    true minimum nor above a true maximum. *)
Theorem validated_amount_is_positive_and_within_bounds
    (amount mn mx : pyval) (q : Decimal) :
  validate_quantity amount mn mx = Ok q \/ validate_price amount mn mx = Ok q ->
  Py.Decimal_of amount = Ok q
  /\ DecOps.positive q
  /\ respects_min q mn
  /\ respects_max q mx.
Proof.
  rewrite validate_quantity_amount, validate_price_amount.
  intros [H|H]; eapply validate_amount_ok_inv; exact H.
Qed.

Lemma validated_amount_is_positive_and_within_bounds_witness :
  (validate_quantity (VStr "2.50") (VDec (Finite false 1 0)) (VInt 3)
   = Ok (Finite false 250 (-2))
   \/ validate_price (VStr "2.50") (VDec (Finite false 1 0)) (VInt 3)
      = Ok (Finite false 250 (-2)))
  /\ DecOps.positive (Finite false 250 (-2))
  /\ respects_max (Finite false 250 (-2)) (VInt 3).
Proof.
  split; [left; reflexivity|].
  destruct (validated_amount_is_positive_and_within_bounds
              (VStr "2.50") (VDec (Finite false 1 0)) (VInt 3)
              (Finite false 250 (-2)) (or_introl eq_refl))
    as (_ & Hpos & _ & Hmax).
  split; assumption.
Defined.

(** X2: a positive [Decimal] object within the bounds goes through
    [validate_quantity] and [validate_price] unchanged: the detour over
    [str] and back loses neither digits nor the exponent. *)
Theorem positive_decimal_is_returned_unchanged
    (d : Decimal) (mn mx : option Decimal) :
  positive_decimal d ->
  (forall m, effective_bound mn = Some m -> dec_ge d m) ->
  (forall m, effective_bound mx = Some m -> DecOps.le d m) ->
  validate_quantity (VDec d) (bound mn) (bound mx) = Ok d
  /\ validate_price (VDec d) (bound mn) (bound mx) = Ok d.
Proof.
  intros [Hrep Hpos] Hmn Hmx.
  rewrite validate_quantity_amount, validate_price_amount.
  split; apply validate_amount_ok; auto; now apply Decimal_of_VDec.
Qed.

Lemma positive_decimal_is_returned_unchanged_witness :
  let d := Finite false 123456789012 (-20) in
  positive_decimal d
  /\ (forall m, effective_bound None = Some m -> dec_ge d m)
  /\ (forall m, effective_bound (Some (Finite false 1 0)) = Some m -> DecOps.le d m)
  /\ validate_quantity (VDec d) (bound None) (bound (Some (Finite false 1 0)))
     = Ok d.
Proof.
  intros d.
  assert (Hmn : forall m, effective_bound None = Some m -> dec_ge d m)
    by (intros m; discriminate).
  assert (Hmx : forall m, effective_bound (Some (Finite false 1 0)) = Some m ->
                          DecOps.le d m)
    by (intros m [= <-]; left; reflexivity).
  assert (Hd : positive_decimal d) by (split; reflexivity).
  split; [exact Hd|]. split; [exact Hmn|]. split; [exact Hmx|].
  apply (positive_decimal_is_returned_unchanged
           d None (Some (Finite false 1 0)) Hd Hmn Hmx).
Defined.

(** X3: for an input that parses to the decimal [q] and bounds that are
    numbers, [validate_price] raises one of its range errors exactly when
    [q <= 0], or [q] is below the minimum, or above the maximum, where only a
    bound that is given and not zero is checked. *)
Theorem validate_price_out_of_range
    (price : pyval) (q : Decimal) (min_price max_price : option Decimal) :
  Py.Decimal_of price = Ok q ->
  bound_is_number min_price ->
  bound_is_number max_price ->
  OutOfRange "Price" (validate_price price (bound min_price) (bound max_price))
  <-> DecOps.le q Dec.zero
      \/ (exists m, effective_bound min_price = Some m /\ DecOps.lt q m)
      \/ (exists m, effective_bound max_price = Some m /\ DecOps.gt q m).
Proof.
  intros Hq Hmn Hmx. rewrite validate_price_amount.
  now apply validate_amount_out_of_range.
Qed.

Lemma validate_price_out_of_range_witness :
  Py.Decimal_of (VStr "49500") = Ok (Finite false 49500 0)
  /\ bound_is_number (Some (Finite false 5 4))
  /\ bound_is_number None
  /\ OutOfRange "Price"
       (validate_price (VStr "49500") (bound (Some (Finite false 5 4)))
          (bound None)).
Proof.
  split; [reflexivity|]. split; [reflexivity|]. split; [exact I|].
  apply (proj2 (validate_price_out_of_range
                  (VStr "49500") (Finite false 49500 0)
                  (Some (Finite false 5 4)) None eq_refl eq_refl I)).
  right. left. exists (Finite false 5 4). split; reflexivity.
Defined.

(** X4: an input that spells a NaN (["NaN"], ["nan"], ["sNaN123"],
    [Decimal('NaN')], ...) is parsed, and the comparison with zero then
    raises [decimal.InvalidOperation]: neither function answers with a
    [ValidationError], whatever the bounds. *)
Theorem nan_amount_escapes_as_InvalidOperation
    (amount mn mx : pyval) (s sig : bool) (diag : N) :
  Py.Decimal_of amount = Ok (NaN s sig diag) ->
  validate_quantity amount mn mx = Raise InvalidOperation
  /\ validate_price amount mn mx = Raise InvalidOperation.
Proof.
  intros Hq. rewrite validate_quantity_amount, validate_price_amount.
  split; eapply validate_amount_nan; exact Hq.
Qed.

Lemma nan_amount_escapes_as_InvalidOperation_witness :
  Py.Decimal_of (VStr "nan") = Ok (NaN false false 0)
  /\ validate_quantity (VStr "nan") VNone (VInt 10) = Raise InvalidOperation.
Proof.
  split; [reflexivity|].
  apply (proj1 (nan_amount_escapes_as_InvalidOperation
                  (VStr "nan") VNone (VInt 10) false false 0%N eq_refl)).
Defined.

(** X5: an input that spells the positive infinity (["Infinity"], ["inf"],
    [Decimal('Infinity')], ...) is accepted as a quantity and as a price
    when no maximum is given: the validated amount need not be finite. *)
Theorem infinite_amount_is_accepted (amount : pyval) (mn : option Decimal) :
  Py.Decimal_of amount = Ok (Infinity false) ->
  bound_is_number mn ->
  validate_quantity amount (bound mn) VNone = Ok (Infinity false)
  /\ validate_price amount (bound mn) VNone = Ok (Infinity false).
Proof.
  intros Hq Hmn. rewrite validate_quantity_amount, validate_price_amount.
  assert (Hge : forall m, effective_bound mn = Some m -> dec_ge (Infinity false) m).
  { intros m Hm. destruct mn as [b|]; [|discriminate]. cbn in Hm, Hmn.
    destruct (DecOps.truthy b); [|discriminate]. injection Hm as ->.
    destruct m as [? ? ?|[]|]; try discriminate; unfold dec_ge; cbn; auto. }
  split; apply (validate_amount_ok _ _ amount mn None); auto;
    try reflexivity; discriminate.
Qed.

Lemma infinite_amount_is_accepted_witness :
  Py.Decimal_of (VStr "inf") = Ok (Infinity false)
  /\ bound_is_number (Some (Finite false 1 0))
  /\ validate_quantity (VStr "inf") (bound (Some (Finite false 1 0))) VNone
     = Ok (Infinity false).
Proof.
  split; [reflexivity|]. split; [reflexivity|].
  apply (proj1 (infinite_amount_is_accepted
                  (VStr "inf") (Some (Finite false 1 0)) eq_refl eq_refl)).
Defined.

(** X6: [validate_order_params] hands the bounds of the map to
    [validate_quantity] as they are.  When the symbol is valid, the quantity
    positive and [min_quantity] (or, without it, [max_quantity]) a non-empty
    string, the comparison of the quantity with that string raises
    [TypeError]: no [ValidationError], no result. *)
Theorem string_bound_raises_TypeError
    (params : gmap string pyval) (x : pyval) (q : Decimal) (s : string) :
  (exists sym, params !! "symbol" = Some (VStr sym)
               /\ validate_symbol (VStr sym) = Ok sym) ->
  params !! "quantity" = Some x ->
  Py.Decimal_of x = Ok q ->
  DecOps.positive q ->
  is_Some (params !! "side") ->
  s <> "" ->
  params !! "min_quantity" = Some (VStr s)
  \/ (params !! "min_quantity" = None /\ params !! "max_quantity" = Some (VStr s)) ->
  validate_order_params params = Raise TypeError.
Proof.
  intros (sym & Hsym & Hvs) Hx Hq Hpos [sd Hsd] Hs Hbound.
  destruct (validate_amount_str_bound "Quantity" "quantity" x q s
              (Py.get params "max_quantity") Hq Hpos Hs) as [Hmin Hmax].
  unfold validate_order_params. cbn [check_required].
  rewrite Hsym, Hx, Hsd. cbn [mbind result_bind].
  rewrite validate_quantity_amount.
  unfold Py.get in *. rewrite Hsym, Hx. cbn [default from_option].
  change (id (VStr sym)) with (VStr sym). change (id x) with x.
  rewrite Hvs. cbn [mbind result_bind].
  destruct Hbound as [Hb | [Hb1 Hb2]].
  - rewrite Hb. cbn [default from_option].
    change (id (VStr s)) with (VStr s). now rewrite Hmin.
  - rewrite Hb1, Hb2. cbn [default from_option].
    change (id (VStr s)) with (VStr s). now rewrite Hmax.
Qed.

Lemma string_bound_raises_TypeError_witness :
  (exists sym, raw_params_with_string_bound !! "symbol" = Some (VStr sym)
               /\ validate_symbol (VStr sym) = Ok sym)
  /\ raw_params_with_string_bound !! "quantity" = Some (VStr "1.5")
  /\ raw_params_with_string_bound !! "min_quantity" = Some (VStr "0.1")
  /\ validate_order_params raw_params_with_string_bound = Raise TypeError.
Proof.
  assert (Hsym : exists sym,
            raw_params_with_string_bound !! "symbol" = Some (VStr sym)
            /\ validate_symbol (VStr sym) = Ok sym)
    by (exists "BTC-USDT"; split; reflexivity).
  split; [exact Hsym|]. split; [reflexivity|]. split; [reflexivity|].
  apply (string_bound_raises_TypeError raw_params_with_string_bound
           (VStr "1.5") (Finite false 15 (-1)) "0.1" Hsym eq_refl eq_refl eq_refl).
  - eexists. reflexivity.
  - discriminate.
  - left. reflexivity.
Defined.

(** ** Leverage *)

Lemma int_of_str_raises s e :
  Py.int_of_str s = Raise e -> exists arg, e = ValueError arg.
Proof.
  unfold Py.int_of_str.
  destruct (match snd (Str.span Py.int_space s) with
            | String "-" r => (true, r)
            | String "+" r => (false, r)
            | _ => (false, snd (Str.span Py.int_space s))
            end) as [neg body].
  destruct (Str.span Py.digit_or_underscore body) as [run rest].
  destruct (negb (Py.int_digits false run)); [intros [= <-]; eauto|].
  destruct (Py.int_max_str_digits <? _); [intros [= <-]; eauto|].
  destruct (snd (Str.span Py.int_space rest)); [discriminate|].
  intros [= <-]; eauto.
Qed.

(** X7: with an [int] as [max_leverage], [validate_leverage] returns [l]
    exactly when the input converts to the integer [l] and
    [1 <= l <= max_leverage].  The maximum is always checked: unlike the
    bounds of a quantity, a maximum of zero (or below) is not skipped and
    turns every leverage down. *)
Theorem validate_leverage_range (leverage : pyval) (max_leverage l : Z) :
  (validate_leverage leverage (VInt max_leverage) = Ok l
   <-> Py.int leverage = Ok l /\ 1 <= l <= max_leverage)
  /\ (max_leverage < 1 ->
      validate_leverage leverage (VInt max_leverage) <> Ok l).
Proof.
  assert (Hiff : validate_leverage leverage (VInt max_leverage) = Ok l
                 <-> Py.int leverage = Ok l /\ 1 <= l <= max_leverage).
  { unfold validate_leverage.
    destruct (Py.int leverage) as [z|e]; cbn [try_except mbind result_bind].
    - destruct (Z.ltb_spec z 1) as [H1|H1].
      + split; [discriminate | intros [[= ->] ?]; lia].
      + cbn [Py.int_gt_val mbind result_bind].
        destruct (Z.ltb_spec max_leverage z) as [H2|H2].
        * split; [destruct (Py.str _); discriminate | intros [[= ->] ?]; lia].
        * split; [intros [= ->]; auto | now intros [[= ->] _]].
    - split; [|now intros [? _]].
      destruct (is_TypeError_or_ValueError e); discriminate. }
  split; [exact Hiff|]. intros Hmax H. apply Hiff in H. lia.
Qed.

(** X8: an input that does not convert to an integer gets the format error
    of [validate_leverage]: a string that is no integer literal (["2.5"],
    ["abc"], [""]), [None], a NaN.  The one exception is an infinite
    [Decimal]: [int()] raises [OverflowError] for it, which the handler does
    not catch. *)
Theorem unconvertible_leverage (leverage max_leverage : pyval) :
  (forall z, Py.int leverage <> Ok z) ->
  validate_leverage leverage max_leverage
  = match leverage with
    | VDec (Infinity _) => Raise OverflowError
    | _ => Raise (ValidationError "Invalid leverage format")
    end.
Proof.
  intros Hno. unfold validate_leverage.
  destruct leverage as [|b|z|s|[sg c e|sg|sg sig diag]]; cbn [Py.int] in *;
    try reflexivity; try (now contradiction (Hno _ eq_refl)).
  destruct (Py.int_of_str s) as [z|e] eqn:Hs; [now contradiction (Hno z)|].
  apply int_of_str_raises in Hs as [arg ->]. reflexivity.
Qed.

Lemma unconvertible_leverage_witness :
  (forall z, Py.int (VStr "2.5") <> Ok z)
  /\ validate_leverage (VStr "2.5") (VInt 100)
     = Raise (ValidationError "Invalid leverage format").
Proof.
  assert (H : forall z, Py.int (VStr "2.5") <> Ok z) by (intros z; discriminate).
  split; [exact H|].
  apply (unconvertible_leverage (VStr "2.5") (VInt 100) H).
Defined.

(** ** Which strings the two patterns accept *)

Section Patterns.
Import Re.

Lemma lang_upto_chr p n s :
  lang (Upto (Chr p) n) s
  <-> Str.all p s = true /\ (String.length s <= n)%nat.
Proof.
  revert s. induction n as [|n IH]; intros s; cbn [Upto]; unfold Opt.
  - split.
    + intros ->%lang_eps_inv. split; [reflexivity | cbn; lia].
    + intros [_ Hlen]. destruct s; [constructor | cbn in Hlen; lia].
  - split.
    + intros [->%lang_eps_inv | H]%lang_alt_inv; [split; [reflexivity | cbn; lia]|].
      apply lang_cat_inv in H as (s1 & s2 & -> & H1 & H2).
      apply lang_chr_inv in H1 as (c & -> & Hc).
      apply IH in H2 as [Hall Hlen].
      rewrite str_app_cons, str_app_nil_l. cbn. rewrite Hc, Hall.
      split; [reflexivity | lia].
    + intros [Hall Hlen]. destruct s as [|c s]; [apply lang_alt_l; constructor|].
      cbn in Hall, Hlen. apply andb_true_iff in Hall as [Hc Hs].
      apply lang_alt_r. change (String c s) with (String c "" +:+ s).
      constructor; [now constructor|]. apply IH. split; [exact Hs | lia].
Qed.

Lemma lang_rep_chr p lo extra s :
  lang (Rep (Chr p) lo extra) s
  <-> Str.all p s = true
      /\ (lo <= String.length s)%nat /\ (String.length s <= lo + extra)%nat.
Proof.
  revert s. induction lo as [|lo IH]; intros s; cbn [Rep].
  - rewrite lang_upto_chr. split; [intros [? ?]; repeat split; auto; lia|].
    intros (? & _ & ?). split; auto.
  - split.
    + intros (s1 & s2 & -> & H1 & H2)%lang_cat_inv.
      apply lang_chr_inv in H1 as (c & -> & Hc).
      apply IH in H2 as (Hall & Hlo & Hhi).
      rewrite str_app_cons, str_app_nil_l. cbn. rewrite Hc, Hall.
      repeat split; lia.
    + intros (Hall & Hlo & Hhi). destruct s as [|c s]; [cbn in Hlo; lia|].
      cbn in Hall, Hlo, Hhi. apply andb_true_iff in Hall as [Hc Hs].
      change (String c s) with (String c "" +:+ s).
      constructor; [now constructor|]. apply IH. repeat split; auto; lia.
Qed.

Lemma client_order_id_pattern_lang s :
  lang client_order_id_pattern s <-> up_to_newline client_order_id_format s.
Proof.
  unfold client_order_id_pattern, up_to_newline, client_order_id_format. split.
  - intros (t & e & -> & Ht & He)%lang_cat_inv.
    apply lang_rep_chr in Ht. apply lang_dollar in He as [-> | ->].
    + left. rewrite str_app_nil_r. exact Ht.
    + right. exists t. split; [exact Ht | reflexivity].
  - intros [H | (t & H & ->)].
    + rewrite <- (str_app_nil_r s).
      constructor; [now apply lang_rep_chr | apply lang_dollar; auto].
    + constructor; [now apply lang_rep_chr | apply lang_dollar; auto].
Qed.

End Patterns.

(** X9: [validate_symbol] on every value.  A string is returned unchanged
    exactly when it has the symbol format, or has it up to one newline at
    its end; every other string gets the format error, every value that is
    no string the type error. *)
Theorem validate_symbol_accepts_exactly (symbol : pyval) :
  match symbol with
  | VStr s =>
      (validate_symbol symbol = Ok s <-> up_to_newline symbol_format s)
      /\ (~ up_to_newline symbol_format s ->
          validate_symbol symbol
          = Raise (ValidationError
                     "Invalid symbol format. Expected format: XXX-XXX (e.g., BTC-USDT)"))
  | _ => validate_symbol symbol = Raise (ValidationError "Symbol must be a string")
  end.
Proof.
  destruct symbol as [| | |s|]; try reflexivity.
  unfold up_to_newline, validate_symbol.
  rewrite <- symbol_pattern_lang, <- matches_lang.
  destruct (Re.matches symbol_pattern s); cbn [negb].
  - split; [split; auto | now intros []].
  - split; [split; discriminate | reflexivity].
Qed.

(** X10: [validate_client_order_id] on every value.  A string is returned
    unchanged exactly when it consists of 1 to 36 letters, digits,
    underscores and hyphens, or of such an id followed by one newline (so up
    to 37 characters); every other string gets the format error, every value
    that is no string the type error. *)
Theorem validate_client_order_id_accepts_exactly (client_order_id : pyval) :
  match client_order_id with
  | VStr s =>
      (validate_client_order_id client_order_id = Ok s
       <-> up_to_newline client_order_id_format s)
      /\ (~ up_to_newline client_order_id_format s ->
          validate_client_order_id client_order_id
          = Raise (ValidationError
                     ("Invalid client order ID format. Must be 1-36 characters long "
                      +:+ "and contain only letters, numbers, underscore, and hyphen.")))
  | _ => validate_client_order_id client_order_id
         = Raise (ValidationError "Client order ID must be a string")
  end.
Proof.
  destruct client_order_id as [| | |s|]; try reflexivity.
  unfold validate_client_order_id.
  rewrite <- client_order_id_pattern_lang, <- matches_lang.
  destruct (Re.matches client_order_id_pattern s); cbn [negb].
  - split; [split; auto | now intros []].
  - split; [split; discriminate | reflexivity].
Qed.

Example validate_client_order_id_37_characters :
  let id := Str.repeat "a" 36 +:+ Str.newline in
  String.length id = 37%nat /\ validate_client_order_id (VStr id) = Ok id.
Proof. split; reflexivity. Qed.

(** ** [validate_order_params]: what is checked first, what is returned *)

(** X11: the presence of the three required parameters is checked before
    anything is validated, in the order symbol, quantity, side: the first one
    that is missing is named in the error, whatever the other values are. *)
Theorem missing_required_parameter_is_reported_first
    (params : gmap string pyval) :
  (params !! "symbol" = None ->
   validate_order_params params
   = Raise (ValidationError "Missing required parameter: symbol"))
  /\ (is_Some (params !! "symbol") -> params !! "quantity" = None ->
      validate_order_params params
      = Raise (ValidationError "Missing required parameter: quantity"))
  /\ (is_Some (params !! "symbol") -> is_Some (params !! "quantity") ->
      params !! "side" = None ->
      validate_order_params params
      = Raise (ValidationError "Missing required parameter: side")).
Proof.
  unfold validate_order_params. cbn [check_required]. repeat split.
  - now intros ->.
  - now intros [? ->] ->.
  - now intros [? ->] [? ->] ->.
Qed.

Lemma missing_required_parameter_is_reported_first_witness :
  is_Some (raw_params_without_side !! "symbol")
  /\ is_Some (raw_params_without_side !! "quantity")
  /\ raw_params_without_side !! "side" = None
  /\ validate_order_params raw_params_without_side
     = Raise (ValidationError "Missing required parameter: side").
Proof.
  assert (H1 : is_Some (raw_params_without_side !! "symbol"))
    by (eexists; reflexivity).
  assert (H2 : is_Some (raw_params_without_side !! "quantity"))
    by (eexists; reflexivity).
  split; [exact H1|]. split; [exact H2|]. split; [reflexivity|].
  apply (proj2 (proj2 (missing_required_parameter_is_reported_first
                         raw_params_without_side)) H1 H2 eq_refl).
Defined.

Section ValidatedMap.

Lemma copy_optional_lookup_full optional params validated k :
  copy_optional optional params validated !! k
  = if decide (k ∈ optional)
    then match params !! k with Some v => Some v | None => validated !! k end
    else validated !! k.
Proof.
  revert validated. induction optional as [|a rest IH]; intros validated.
  - cbn [copy_optional]. case_decide as H; [now apply elem_of_nil in H | reflexivity].
  - cbn [copy_optional].
    destruct (params !! a) as [w|] eqn:Ha; rewrite IH.
    + destruct (decide (a = k)) as [->|Hne].
      * rewrite Ha, lookup_insert_eq.
        repeat case_decide; try reflexivity; set_solver.
      * rewrite lookup_insert_ne by exact Hne.
        repeat case_decide; try reflexivity; set_solver.
    + destruct (decide (a = k)) as [->|Hne].
      * rewrite Ha. repeat case_decide; try reflexivity; set_solver.
      * repeat case_decide; try reflexivity; set_solver.
Qed.

Lemma validate_symbol_ok_inv x sym :
  validate_symbol x = Ok sym -> x = VStr sym /\ validate_symbol (VStr sym) = Ok sym.
Proof.
  intros H. destruct x as [| | |s|]; try discriminate.
  assert (s = sym) as ->; [|auto].
  cbn in H. destruct (negb _); [discriminate | now injection H].
Qed.

Lemma validate_leverage_ok_ge1 leverage max_leverage l :
  validate_leverage leverage max_leverage = Ok l -> 1 <= l.
Proof.
  unfold validate_leverage.
  destruct (Py.int leverage) as [z|e]; cbn [try_except mbind result_bind].
  - destruct (Z.ltb_spec z 1); [discriminate|].
    destruct (Py.int_gt_val z max_leverage) as [[]|]; cbn [mbind result_bind];
      try discriminate; [destruct (Py.str max_leverage); discriminate|].
    now intros [= <-].
  - destruct (is_TypeError_or_ValueError e); discriminate.
Qed.

(** [validate_order_params] returns only through its last line. *)
Lemma validate_order_params_inv params v :
  validate_order_params params = Ok v ->
  exists sym q pr lv,
    is_Some (params !! "side")
    /\ validate_symbol (Py.get params "symbol") = Ok sym
    /\ validate_quantity (Py.get params "quantity")
         (Py.get params "min_quantity") (Py.get params "max_quantity") = Ok q
    /\ is_side (Py.get params "side") = true
    /\ match params !! "price" with
       | Some x => exists p, pr = Some p
                             /\ validate_price x (Py.get params "min_price")
                                  (Py.get params "max_price") = Ok p
       | None => pr = None
       end
    /\ match params !! "leverage" with
       | Some x => exists l, lv = Some l
                             /\ validate_leverage x
                                  (Py.get_default params "max_leverage" (VInt 100))
                                = Ok l
       | None => lv = None
       end
    /\ v = validated_map params sym q pr lv.
Proof.
  unfold validate_order_params, validated_map. cbn [check_required].
  destruct (params !! "symbol") as [x1|] eqn:H1; [|discriminate].
  destruct (params !! "quantity") as [x2|] eqn:H2; [|discriminate].
  destruct (params !! "side") as [x3|] eqn:H3; [|discriminate].
  cbn [mbind result_bind].
  destruct (validate_symbol _) as [sym|]; [|discriminate]. cbn [mbind result_bind].
  destruct (validate_quantity _ _ _) as [q|]; [|discriminate]. cbn [mbind result_bind].
  destruct (is_side _) eqn:Hside; [|discriminate]. cbn [negb].
  destruct (params !! "price") as [x4|] eqn:H4.
  - destruct (validate_price _ _ _) as [p|] eqn:Hp; [|discriminate].
    cbn [mbind result_bind].
    destruct (params !! "leverage") as [x5|] eqn:H5.
    + destruct (validate_leverage _ _) as [l|] eqn:Hl; [|discriminate].
      cbn [mbind result_bind]. intros [= <-].
      exists sym, q, (Some p), (Some l). repeat split; eauto.
    + cbn [mbind result_bind]. intros [= <-].
      exists sym, q, (Some p), None. repeat split; eauto.
  - cbn [mbind result_bind].
    destruct (params !! "leverage") as [x5|] eqn:H5.
    + destruct (validate_leverage _ _) as [l|] eqn:Hl; [|discriminate].
      cbn [mbind result_bind]. intros [= <-].
      exists sym, q, None, (Some l). repeat split; eauto.
    + cbn [mbind result_bind]. intros [= <-].
      exists sym, q, None, None. repeat split; eauto.
Qed.

Lemma validated_map_lookup params sym q pr lv k :
  validated_map params sym q pr lv !! k
  = if decide (k ∈ optional_params) then params !! k
    else if decide (k = "leverage") then VInt <$> lv
    else if decide (k = "price") then VDec <$> pr
    else if decide (k = "side") then Some (Py.get params "side")
    else if decide (k = "quantity") then Some (VDec q)
    else if decide (k = "symbol") then Some (VStr sym)
    else None.
Proof.
  unfold validated_map. rewrite copy_optional_lookup_full.
  destruct (decide (k ∈ optional_params)) as [Hk|Hk].
  - destruct (params !! k); [reflexivity|].
    assert (k <> "leverage" /\ k <> "price" /\ k <> "side"
            /\ k <> "quantity" /\ k <> "symbol") as (? & ? & ? & ? & ?).
    { unfold optional_params in Hk.
      repeat split; intros ->; set_solver. }
    destruct pr, lv; now simplify_map_eq.
  - repeat case_decide; subst; destruct pr, lv; now simplify_map_eq.
Qed.

End ValidatedMap.

(** X12: the map that [validate_order_params] returns is normalised.  It
    has the symbol as given, the quantity as a positive [Decimal], the side
    ["BUY"] or ["SELL"]; a price if and only if the input has one, as a
    positive [Decimal]; a leverage if and only if the input has one, as an
    integer of at least 1; the three optional parameters as given; and no
    other key: bounds and unknown keys of the input are dropped. *)
Theorem validated_map_is_normalised (params v : gmap string pyval) :
  validate_order_params params = Ok v ->
  (exists sym, params !! "symbol" = Some (VStr sym)
               /\ v !! "symbol" = Some (VStr sym))
  /\ (exists q, v !! "quantity" = Some (VDec q) /\ DecOps.positive q)
  /\ (v !! "side" = params !! "side"
      /\ (v !! "side" = Some (VStr "BUY") \/ v !! "side" = Some (VStr "SELL")))
  /\ match params !! "price" with
     | Some _ => exists p, v !! "price" = Some (VDec p) /\ DecOps.positive p
     | None => v !! "price" = None
     end
  /\ match params !! "leverage" with
     | Some _ => exists l, v !! "leverage" = Some (VInt l) /\ 1 <= l
     | None => v !! "leverage" = None
     end
  /\ (forall k, k ∈ optional_params -> v !! k = params !! k)
  /\ (forall k, k ∉ validated_keys -> v !! k = None).
Proof.
  intros (sym & q & pr & lv & [sd Hsd] & Hsym & Hq & Hside & Hpr & Hlv & ->)
           %validate_order_params_inv.
  apply validate_symbol_ok_inv in Hsym as [Hx _].
  rewrite validate_quantity_amount in Hq.
  apply validate_amount_ok_inv in Hq as (_ & Hpos & _ & _).
  assert (Hget : Py.get params "side" = sd)
    by (unfold Py.get; now rewrite Hsd).
  repeat split.
  - exists sym. split.
    + unfold Py.get in Hx. destruct (params !! "symbol"); [|discriminate].
      cbn in Hx. now subst.
    + now rewrite validated_map_lookup.
  - exists q. split; [now rewrite validated_map_lookup | exact Hpos].
  - rewrite validated_map_lookup. cbn. now rewrite Hget, Hsd.
  - rewrite validated_map_lookup. cbn. rewrite Hget in *.
    destruct sd as [| | |s|]; try discriminate. cbn in Hside.
    apply orb_true_iff in Hside as [->%String.eqb_eq | ->%String.eqb_eq]; auto.
  - destruct (params !! "price") as [x|].
    + destruct Hpr as (p & -> & Hp). exists p.
      rewrite validate_price_amount in Hp.
      apply validate_amount_ok_inv in Hp as (_ & Hp & _).
      split; [now rewrite validated_map_lookup | exact Hp].
    + subst pr. now rewrite validated_map_lookup.
  - destruct (params !! "leverage") as [x|].
    + destruct Hlv as (l & -> & Hl). exists l.
      split; [now rewrite validated_map_lookup|].
      eapply validate_leverage_ok_ge1; exact Hl.
    + subst lv. now rewrite validated_map_lookup.
  - intros k Hk. rewrite validated_map_lookup. now rewrite decide_True.
  - intros k Hk. rewrite validated_map_lookup.
    unfold validated_keys, optional_params in *.
    repeat case_decide; subst; try reflexivity; set_solver.
Qed.

Lemma validated_map_is_normalised_witness :
  exists v,
    validate_order_params raw_params_with_extras = Ok v
    /\ v !! "quantity" = Some (VDec (Finite false 15 (-1)))
    /\ v !! "price" = Some (VDec (Finite false 4950010 (-2)))
    /\ v !! "leverage" = Some (VInt 20)
    /\ v !! "max_quantity" = None
    /\ v !! "note" = None.
Proof.
  eexists. split; [reflexivity|].
  destruct (validated_map_is_normalised raw_params_with_extras _ eq_refl)
    as (_ & _ & _ & _ & _ & _ & Hnone).
  split; [reflexivity|]. split; [reflexivity|]. split; [reflexivity|].
  split; apply Hnone; unfold validated_keys; set_solver.
Defined.

(** X13: validation is idempotent on its own results, up to the default
    maximum of the leverage.  A map returned by [validate_order_params],
    whose leverage (if any) is at most 100, validates again and comes back
    unchanged: the [Decimal] values survive the second conversion, and the
    bounds of the first call, which are not part of the result, are not
    needed. *)
Theorem validate_order_params_idempotent (params v : gmap string pyval) :
  validate_order_params params = Ok v ->
  (forall l, v !! "leverage" = Some (VInt l) -> l <= 100) ->
  validate_order_params v = Ok v.
Proof.
  intros Hrun Hmax.
  pose proof Hrun
    as (sym & q & pr & lv & [sd Hsd] & Hsym & Hq & Hside & Hpr & Hlv & Hv)
         %validate_order_params_inv.
  apply validate_symbol_ok_inv in Hsym as [Hx Hsym].
  rewrite validate_quantity_amount in Hq.
  apply validate_amount_ok_inv in Hq as (Hrep & Hpos' & _ & _).
  apply Decimal_of_representable in Hrep.
  assert (Hpos : positive_decimal q) by (split; assumption).
  assert (Hget : Py.get params "side" = sd)
    by (unfold Py.get; now rewrite Hsd).
  assert (Hl : forall k, v !! k = validated_map params sym q pr lv !! k)
    by now rewrite Hv.
  assert (Hnone : forall k, k ∉ validated_keys -> Py.get v k = VNone).
  { intros k Hk. unfold Py.get. rewrite Hl, validated_map_lookup.
    unfold validated_keys, optional_params in *.
    repeat case_decide; subst; try reflexivity; set_solver. }
  assert (Hpr' : match pr with
                 | Some p => positive_decimal p
                 | None => True
                 end).
  { destruct (params !! "price") as [x|]; [|now subst].
    destruct Hpr as (p & -> & Hp). rewrite validate_price_amount in Hp.
    apply validate_amount_ok_inv in Hp as (Hp1 & Hp2 & _).
    apply Decimal_of_representable in Hp1. now split. }
  assert (Hlv' : match lv with
                 | Some l => 1 <= l <= 100
                 | None => True
                 end).
  { destruct (params !! "leverage") as [x|]; [|now subst].
    destruct Hlv as (l & -> & Hlev). split.
    - eapply validate_leverage_ok_ge1; exact Hlev.
    - apply Hmax. now rewrite Hl, validated_map_lookup. }
  assert (Hamount : forall what what_lc d,
            positive_decimal d ->
            validate_amount what what_lc (VDec d) VNone VNone = Ok d).
  { intros what what_lc d [Hd1 Hd2].
    apply (validate_amount_ok what what_lc (VDec d) None None);
      [now apply Decimal_of_VDec | exact Hd2 | discriminate..]. }
  assert (Hk1 : v !! "symbol" = Some (VStr sym))
    by now rewrite Hl, validated_map_lookup.
  assert (Hk2 : v !! "quantity" = Some (VDec q))
    by now rewrite Hl, validated_map_lookup.
  assert (Hk3 : v !! "side" = Some sd)
    by (rewrite Hl, validated_map_lookup; cbn; now rewrite Hget).
  assert (Hs4 : v !! "price" = VDec <$> pr)
    by now rewrite Hl, validated_map_lookup.
  assert (Hs5 : v !! "leverage" = VInt <$> lv)
    by now rewrite Hl, validated_map_lookup.
  assert (Hs1 : Py.get v "symbol" = VStr sym)
    by (unfold Py.get; now rewrite Hk1).
  assert (Hs2 : Py.get v "quantity" = VDec q)
    by (unfold Py.get; now rewrite Hk2).
  assert (Hs3 : Py.get v "side" = sd)
    by (unfold Py.get; now rewrite Hk3).
  unfold validate_order_params. cbn [check_required].
  rewrite Hk1, Hk2, Hk3. cbn [mbind result_bind].
  rewrite Hs1, Hsym. cbn [mbind result_bind].
  rewrite Hs2, (Hnone "min_quantity"), (Hnone "max_quantity"),
    (Hnone "min_price"), (Hnone "max_price")
    by (unfold validated_keys; set_solver).
  rewrite validate_quantity_amount, Hamount by exact Hpos.
  cbn [mbind result_bind]. rewrite Hs3. rewrite Hget in Hside. rewrite Hside.
  cbn [negb]. rewrite Hs4, Hs5.
  assert (Hmaxlev : Py.get_default v "max_leverage" (VInt 100) = VInt 100).
  { unfold Py.get_default. rewrite Hl, validated_map_lookup. reflexivity. }
  assert (Hlev : forall l, 1 <= l <= 100 ->
                   validate_leverage (VInt l) (VInt 100) = Ok l).
  { intros l Hrange. unfold validate_leverage.
    cbn [Py.int try_except mbind result_bind].
    destruct (Z.ltb_spec l 1); [lia|].
    cbn [Py.int_gt_val mbind result_bind].
    destruct (Z.ltb_spec 100 l); [lia | reflexivity]. }
  rewrite Hmaxlev.
  assert (Hsame : forall m : gmap string pyval,
            (forall k, m !! k = validated_map params sym q pr lv !! k) -> m = v).
  { intros m Hm. apply map_eq. intros k. now rewrite Hm, Hl. }
  destruct pr as [p|], lv as [l|];
    cbn [fmap option_fmap option_map mbind result_bind];
    rewrite ?validate_price_amount, ?Hamount by exact Hpr';
    cbn [mbind result_bind];
    rewrite ?Hlev by exact Hlv';
    cbn [mbind result_bind]; f_equal; apply Hsame; intros k;
    rewrite validated_map_lookup; fold optional_params;
    rewrite copy_optional_lookup_full;
    (destruct (decide (k ∈ optional_params)) as [Hk|Hk];
     [ rewrite Hl, validated_map_lookup, decide_True by exact Hk;
       destruct (params !! k); [reflexivity|];
       assert (k <> "leverage" /\ k <> "price" /\ k <> "side"
               /\ k <> "quantity" /\ k <> "symbol") as (? & ? & ? & ? & ?)
         by (unfold optional_params in Hk; repeat split; intros ->; set_solver);
       now simplify_map_eq
     | rewrite <- Hget; repeat case_decide; subst; now simplify_map_eq ]).
Qed.

Lemma validate_order_params_idempotent_witness :
  exists v,
    validate_order_params raw_params_with_extras = Ok v
    /\ (forall l, v !! "leverage" = Some (VInt l) -> l <= 100)
    /\ validate_order_params v = Ok v.
Proof.
  eexists. split; [reflexivity|].
  match goal with
  | |- (forall l, ?v !! _ = _ -> _) /\ _ =>
      assert (Hmax : forall l, v !! "leverage" = Some (VInt l) -> l <= 100)
  end.
  { intros l H. vm_compute in H. injection H as <-. lia. }
  split; [exact Hmax|].
  apply (validate_order_params_idempotent raw_params_with_extras _ eq_refl Hmax).
Defined.

(** ** The tracker: registering, updating, cancelling *)

Lemma registry_insert (self : OrderManager) (L : list Order) D reg reg' :
  D !! active_orders self = Some reg ->
  registry self {| orders := L; dicts := <[active_orders self := reg']> D |} = reg'.
Proof.
  intros H. unfold registry. cbn [dicts].
  now rewrite list_lookup_insert_eq by (eapply lookup_lt_Some; eauto).
Qed.

Lemma registry_same (self : OrderManager) (L : list Order) D reg :
  D !! active_orders self = Some reg ->
  registry self {| orders := L; dicts := D |} = reg.
Proof. intros H. unfold registry. cbn [dicts]. now rewrite H. Qed.

(** [update_order] on a registered id with a payload that converts. *)
Lemma update_order_ok_run self h reg cid (l : nat) o data st fq ap :
  dicts h !! active_orders self = Some reg ->
  reg !! cid = Some l ->
  orders h !! l = Some o ->
  OrderStatus_of (Py.get_default data "status" (VStr "PENDING")) = Ok st ->
  payload_decimal data "fillQuantity" = Ok fq ->
  payload_decimal data "averagePrice" = Ok ap ->
  update_order self cid data h
  = Some (Ok tt,
          {| orders := <[l := apply_payload data st fq ap o]> (orders h);
             dicts := if is_terminal st
                      then <[active_orders self := delete cid reg]> (dicts h)
                      else dicts h |}).
Proof.
  intros Hreg Hid Hl Hst Hfq Hap.
  pose proof (lookup_lt_Some _ _ _ Hl) as Hlt.
  unfold update_order.
  rewrite bind_run, (read_dict_run _ reg), Hid by exact Hreg.
  rewrite bind_run, (update_from_exchange_at l data h o Hl).
  rewrite update_from_exchange_run by exact Hlt. cbv zeta.
  rewrite Hst, Hfq, Hap.
  rewrite bind_run. unfold read_order at 1. cbn [orders dicts].
  rewrite list_lookup_insert_eq by exact Hlt.
  fold (apply_payload data st fq ap o).
  assert (Hstatus : status (apply_payload data st fq ap o) = st)
    by now destruct fq, ap.
  rewrite Hstatus. destruct (is_terminal st); [|reflexivity].
  unfold modify_dict. cbn [orders dicts]. now rewrite Hreg.
Qed.

Lemma apply_payload_fields data st fq ap o :
  let o' := apply_payload data st fq ap o in
  status o' = st
  /\ exchange_order_id o' = Py.get data "orderId"
  /\ filled_quantity o' = default (filled_quantity o) fq
  /\ average_fill_price o'
     = match ap with Some d => Some d | None => average_fill_price o end
  /\ last_update_timestamp o' = Py.get data "timestamp"
  /\ error_message o' = Py.get data "error"
  /\ params o' = params o.
Proof. destruct fq, ap; repeat split. Qed.

Lemma apply_payload_idem data st fq ap o :
  apply_payload data st fq ap (apply_payload data st fq ap o)
  = apply_payload data st fq ap o.
Proof. destruct o, fq, ap; reflexivity. Qed.

(** X14: [create_order] with a non-empty client order id registers the new
    order under that id, whatever was registered under it before: the order
    is a new object in status PENDING, [get_order] finds it, the entries of
    the other ids and every existing order object stay as they are. *)
Theorem create_order_registers_under_its_id
    (self : OrderManager) (h : Heap) (reg : gmap string nat)
    (p : OrderParams) (cid : string) :
  dicts h !! active_orders self = Some reg ->
  client_order_id p = Some cid ->
  cid <> "" ->
  exists l h',
    create_order self p h = Some (Ok l, h')
    /\ orders h !! l = None
    /\ get_order self cid h' = Some (Ok (Some l), h')
    /\ registered self h' cid = Some (Order_init p)
    /\ (forall cid', cid' <> cid -> registry self h' !! cid' = reg !! cid')
    /\ (forall l' o, orders h !! l' = Some o -> orders h' !! l' = Some o).
Proof.
  intros Hreg Hid Hne.
  do 2 eexists. split; [apply (create_order_run self h reg Hreg)|].
  rewrite Hid, (proj2 (String.eqb_neq cid "") Hne). cbn [negb].
  assert (Hr : registry self
                 {| orders := orders h ++ [Order_init p];
                    dicts := <[active_orders self :=
                                 <[cid := length (orders h)]> reg]> (dicts h) |}
               = <[cid := length (orders h)]> reg)
    by now apply (registry_insert self _ _ reg).
  split; [now apply lookup_ge_None_2|].
  split.
  { rewrite (get_order_run self _ (<[cid := length (orders h)]> reg));
      [now rewrite lookup_insert_eq|].
    cbn [dicts]. apply list_lookup_insert_eq. eapply lookup_lt_Some; eauto. }
  split.
  { unfold registered. rewrite Hr, lookup_insert_eq. cbn [orders mbind option_bind].
    now rewrite lookup_app_r, Nat.sub_diag. }
  split.
  - intros cid' Hc. rewrite Hr. now apply lookup_insert_ne.
  - intros l' o Ho. cbn [orders]. now apply lookup_app_l_Some.
Qed.

Lemma create_order_registers_under_its_id_witness :
  dicts heap_abc123 !! active_orders manager0 = Some registry_abc123
  /\ client_order_id (sample_params (Some "abc123")) = Some "abc123"
  /\ "abc123" <> ""
  /\ exists l h',
       create_order manager0 (sample_params (Some "abc123")) heap_abc123
       = Some (Ok l, h')
       /\ l = 1%nat
       /\ registered manager0 h' "abc123"
          = Some (Order_init (sample_params (Some "abc123"))).
Proof.
  assert (Hne : "abc123" <> "") by discriminate.
  split; [reflexivity|]. split; [reflexivity|]. split; [exact Hne|].
  destruct (create_order_registers_under_its_id
              manager0 heap_abc123 registry_abc123
              (sample_params (Some "abc123")) "abc123" eq_refl eq_refl Hne)
    as (l & h' & Hrun & _ & _ & Hreg & _).
  exists l, h'. split; [exact Hrun|]. split; [|exact Hreg].
  vm_compute in Hrun. now injection Hrun as <- _.
Defined.

(** X15: for an id that is not registered, [update_order] and
    [cancel_order] return without touching anything: the payload is not even
    looked at, so one that would raise for a registered order raises
    nothing here. *)
Theorem unregistered_id_is_ignored
    (self : OrderManager) (h : Heap) (reg : gmap string nat)
    (cid : string) (data : gmap string pyval) :
  dicts h !! active_orders self = Some reg ->
  reg !! cid = None ->
  update_order self cid data h = Some (Ok tt, h)
  /\ cancel_order self cid h = Some (Ok tt, h).
Proof.
  intros Hreg Hid. split.
  - now apply (update_order_missing self h reg).
  - now apply (cancel_order_missing self h reg).
Qed.

Lemma unregistered_id_is_ignored_witness :
  dicts heap_abc123 !! active_orders manager0 = Some registry_abc123
  /\ registry_abc123 !! "other" = None
  /\ update_order manager0 "other" bogus_status heap_abc123
     = Some (Ok tt, heap_abc123).
Proof.
  split; [reflexivity|]. split; [reflexivity|].
  apply (proj1 (unregistered_id_is_ignored
                  manager0 heap_abc123 registry_abc123 "other" bogus_status
                  eq_refl eq_refl)).
Defined.

(** X16: [update_order] on a registered order with a payload whose status
    is the value of a member and whose fill quantity and average price, if
    present, are decimals.  The call returns; the status, the exchange order
    id, the timestamp and the error message are overwritten by the payload
    (by [None] where it has no such key, so an update without [orderId]
    erases a known exchange order id), the filled quantity and the average
    fill price only if the payload has them; the parameters and every other
    order stay as they are; the id leaves the registry exactly when the new
    status is terminal. *)
Theorem update_order_applies_payload
    (self : OrderManager) (h : Heap) (reg : gmap string nat)
    (cid : string) (l : nat) (o : Order) (data : gmap string pyval)
    (st : OrderStatus) (fq ap : option Decimal) :
  dicts h !! active_orders self = Some reg ->
  reg !! cid = Some l ->
  orders h !! l = Some o ->
  OrderStatus_of (Py.get_default data "status" (VStr "PENDING")) = Ok st ->
  payload_decimal data "fillQuantity" = Ok fq ->
  payload_decimal data "averagePrice" = Ok ap ->
  exists h' o',
    update_order self cid data h = Some (Ok tt, h')
    /\ orders h' !! l = Some o'
    /\ status o' = st
    /\ exchange_order_id o' = default VNone (data !! "orderId")
    /\ filled_quantity o' = default (filled_quantity o) fq
    /\ average_fill_price o'
       = match ap with Some d => Some d | None => average_fill_price o end
    /\ last_update_timestamp o' = default VNone (data !! "timestamp")
    /\ error_message o' = default VNone (data !! "error")
    /\ params o' = params o
    /\ registry self h' = (if is_terminal st then delete cid reg else reg)
    /\ (forall l', l' <> l -> orders h' !! l' = orders h !! l').
Proof.
  intros Hreg Hid Hl Hst Hfq Hap.
  pose proof (lookup_lt_Some _ _ _ Hl) as Hlt.
  do 2 eexists.
  split; [apply (update_order_ok_run self h reg cid l o data st fq ap); auto|].
  cbn [orders].
  split; [now apply list_lookup_insert_eq|].
  destruct (apply_payload_fields data st fq ap o)
    as (H1 & H2 & H3 & H4 & H5 & H6 & H7).
  do 7 (split; [assumption|]).
  split.
  - destruct (is_terminal st);
      [now apply (registry_insert self _ _ reg) | now apply registry_same].
  - intros l' Hl'. now apply list_lookup_insert_ne.
Qed.

Lemma update_order_applies_payload_witness :
  dicts heap_open !! active_orders manager0 = Some registry_abc123
  /\ registry_abc123 !! "abc123" = Some 0%nat
  /\ OrderStatus_of (Py.get_default filled_payload "status" (VStr "PENDING"))
     = Ok FILLED
  /\ payload_decimal filled_payload "fillQuantity" = Ok (Some (Finite false 15 (-1)))
  /\ payload_decimal filled_payload "averagePrice" = Ok None
  /\ exists h' o',
       update_order manager0 "abc123" filled_payload heap_open = Some (Ok tt, h')
       /\ orders h' !! 0%nat = Some o'
       /\ status o' = FILLED
       /\ exchange_order_id o' = VNone
       /\ filled_quantity o' = Finite false 15 (-1)
       /\ registry manager0 h' = delete "abc123" registry_abc123.
Proof.
  split; [reflexivity|]. split; [reflexivity|]. split; [reflexivity|].
  split; [reflexivity|]. split; [reflexivity|].
  destruct (update_order_applies_payload
              manager0 heap_open registry_abc123 "abc123" 0%nat
              (apply_payload open_payload OPEN (Some (Finite false 5 (-1))) None
                 (Order_init (sample_params (Some "abc123"))))
              filled_payload FILLED (Some (Finite false 15 (-1))) None
              eq_refl eq_refl eq_refl eq_refl eq_refl eq_refl)
    as (h' & o' & Hrun & Ho & H1 & H2 & H3 & _ & _ & _ & _ & Hr & _).
  exists h', o'. auto 10.
Defined.

(** X17: a payload with a non-terminal status can be applied any number of
    times: the second [update_order] with the same payload returns as well
    and leaves the heap that the first one left. *)
Theorem update_order_twice
    (self : OrderManager) (h : Heap) (reg : gmap string nat)
    (cid : string) (l : nat) (o : Order) (data : gmap string pyval)
    (st : OrderStatus) (fq ap : option Decimal) :
  dicts h !! active_orders self = Some reg ->
  reg !! cid = Some l ->
  orders h !! l = Some o ->
  OrderStatus_of (Py.get_default data "status" (VStr "PENDING")) = Ok st ->
  payload_decimal data "fillQuantity" = Ok fq ->
  payload_decimal data "averagePrice" = Ok ap ->
  is_terminal st = false ->
  exists h',
    update_order self cid data h = Some (Ok tt, h')
    /\ update_order self cid data h' = Some (Ok tt, h')
    /\ (status <$> registered self h' cid) = Some st.
Proof.
  intros Hreg Hid Hl Hst Hfq Hap Hnt.
  pose proof (lookup_lt_Some _ _ _ Hl) as Hlt.
  pose proof (update_order_ok_run self h reg cid l o data st fq ap
                Hreg Hid Hl Hst Hfq Hap) as Hrun.
  rewrite Hnt in Hrun. eexists. split; [exact Hrun|]. split.
  - erewrite (update_order_ok_run self _ reg cid l _ data st fq ap);
      [| exact Hreg | exact Hid | now apply list_lookup_insert_eq
       | exact Hst | exact Hfq | exact Hap].
    rewrite Hnt. cbn [orders dicts].
    now rewrite list_insert_insert_eq, apply_payload_idem.
  - unfold registered. rewrite (registry_same self _ _ reg Hreg), Hid.
    cbn [orders mbind option_bind]. rewrite list_lookup_insert_eq by exact Hlt.
    cbn. f_equal. now destruct fq, ap.
Qed.

Lemma update_order_twice_witness :
  dicts heap_abc123 !! active_orders manager0 = Some registry_abc123
  /\ is_terminal OPEN = false
  /\ exists h',
       update_order manager0 "abc123" open_payload heap_abc123 = Some (Ok tt, h')
       /\ update_order manager0 "abc123" open_payload h' = Some (Ok tt, h')
       /\ (status <$> registered manager0 h' "abc123") = Some OPEN.
Proof.
  split; [reflexivity|]. split; [reflexivity|].
  apply (update_order_twice
           manager0 heap_abc123 registry_abc123 "abc123" 0%nat
           (Order_init (sample_params (Some "abc123"))) open_payload OPEN
           (Some (Finite false 5 (-1))) None
           eq_refl eq_refl eq_refl eq_refl eq_refl eq_refl eq_refl).
Defined.

(** X18: a terminal status closes the book on an order.  After an
    [update_order] that sets a terminal status, [get_order] no longer finds
    the id, the order object keeps the terminal status, and every later
    [update_order] (whatever its payload) and [cancel_order] for the id
    changes nothing: the object is never updated again. *)
Theorem terminal_update_prunes_for_good
    (self : OrderManager) (h : Heap) (reg : gmap string nat)
    (cid : string) (l : nat) (o : Order) (data : gmap string pyval)
    (st : OrderStatus) (fq ap : option Decimal) :
  dicts h !! active_orders self = Some reg ->
  reg !! cid = Some l ->
  orders h !! l = Some o ->
  OrderStatus_of (Py.get_default data "status" (VStr "PENDING")) = Ok st ->
  payload_decimal data "fillQuantity" = Ok fq ->
  payload_decimal data "averagePrice" = Ok ap ->
  is_terminal st = true ->
  exists h',
    update_order self cid data h = Some (Ok tt, h')
    /\ get_order self cid h' = Some (Ok None, h')
    /\ (status <$> orders h' !! l) = Some st
    /\ (forall data', update_order self cid data' h' = Some (Ok tt, h'))
    /\ cancel_order self cid h' = Some (Ok tt, h').
Proof.
  intros Hreg Hid Hl Hst Hfq Hap Ht.
  pose proof (lookup_lt_Some _ _ _ Hl) as Hlt.
  pose proof (lookup_lt_Some _ _ _ Hreg) as Hlt'.
  pose proof (update_order_ok_run self h reg cid l o data st fq ap
                Hreg Hid Hl Hst Hfq Hap) as Hrun.
  rewrite Ht in Hrun. eexists. split; [exact Hrun|].
  assert (Hreg' : dicts {| orders := <[l:=apply_payload data st fq ap o]> (orders h);
                           dicts := <[active_orders self := delete cid reg]> (dicts h) |}
                  !! active_orders self = Some (delete cid reg))
    by (cbn [dicts]; now apply list_lookup_insert_eq).
  split.
  { rewrite (get_order_run self _ _ Hreg'). now rewrite lookup_delete_eq. }
  split.
  { cbn [orders]. rewrite list_lookup_insert_eq by exact Hlt. cbn. f_equal.
    now destruct fq, ap. }
  split.
  - intros data'. apply (update_order_missing self _ _ Hreg').
    apply lookup_delete_eq.
  - apply (cancel_order_missing self _ _ Hreg'). apply lookup_delete_eq.
Qed.

Lemma terminal_update_prunes_for_good_witness :
  dicts heap_abc123 !! active_orders manager0 = Some registry_abc123
  /\ is_terminal FILLED = true
  /\ exists h',
       update_order manager0 "abc123" filled_payload heap_abc123 = Some (Ok tt, h')
       /\ get_order manager0 "abc123" h' = Some (Ok None, h')
       /\ update_order manager0 "abc123" open_payload h' = Some (Ok tt, h').
Proof.
  split; [reflexivity|]. split; [reflexivity|].
  destruct (terminal_update_prunes_for_good
              manager0 heap_abc123 registry_abc123 "abc123" 0%nat
              (Order_init (sample_params (Some "abc123"))) filled_payload FILLED
              (Some (Finite false 15 (-1))) None
              eq_refl eq_refl eq_refl eq_refl eq_refl eq_refl eq_refl)
    as (h' & Hrun & Hget & _ & Hupd & _).
  exists h'. auto.
Defined.

(** X19: [cancel_order] on a registered id returns, sets the status of the
    order to CANCELLED and nothing else on it, removes the id and no other
    from the registry, and leaves the other orders alone; a second
    [cancel_order] for the id changes nothing. *)
Theorem cancel_order_marks_and_removes
    (self : OrderManager) (h : Heap) (reg : gmap string nat)
    (cid : string) (l : nat) (o : Order) :
  dicts h !! active_orders self = Some reg ->
  reg !! cid = Some l ->
  orders h !! l = Some o ->
  exists h' o',
    cancel_order self cid h = Some (Ok tt, h')
    /\ orders h' !! l = Some o'
    /\ status o' = CANCELLED
    /\ (params o' = params o
        /\ exchange_order_id o' = exchange_order_id o
        /\ filled_quantity o' = filled_quantity o
        /\ average_fill_price o' = average_fill_price o
        /\ last_update_timestamp o' = last_update_timestamp o
        /\ error_message o' = error_message o)
    /\ registry self h' = delete cid reg
    /\ (forall l', l' <> l -> orders h' !! l' = orders h !! l')
    /\ cancel_order self cid h' = Some (Ok tt, h').
Proof.
  intros Hreg Hid Hl.
  pose proof (lookup_lt_Some _ _ _ Hl) as Hlt.
  exists {| orders := <[l := set_status CANCELLED o]> (orders h);
            dicts := <[active_orders self := delete cid reg]> (dicts h) |},
         (set_status CANCELLED o).
  assert (Hreg' : <[active_orders self := delete cid reg]> (dicts h)
                  !! active_orders self = Some (delete cid reg))
    by (apply list_lookup_insert_eq; eapply lookup_lt_Some; eauto).
  split; [now apply (cancel_order_run self h reg)|].
  cbn [orders].
  split; [now apply list_lookup_insert_eq|].
  split; [reflexivity|].
  split; [repeat split|].
  split; [now apply (registry_insert self _ _ reg)|].
  split; [intros l' Hl'; now apply list_lookup_insert_ne|].
  apply (cancel_order_missing self _ (delete cid reg)); [exact Hreg'|].
  apply lookup_delete_eq.
Qed.

Lemma cancel_order_marks_and_removes_witness :
  dicts heap_open !! active_orders manager0 = Some registry_abc123
  /\ registry_abc123 !! "abc123" = Some 0%nat
  /\ exists h' o',
       cancel_order manager0 "abc123" heap_open = Some (Ok tt, h')
       /\ orders h' !! 0%nat = Some o'
       /\ status o' = CANCELLED
       /\ filled_quantity o' = Finite false 5 (-1)
       /\ registry manager0 h' = delete "abc123" registry_abc123.
Proof.
  split; [reflexivity|]. split; [reflexivity|].
  destruct (cancel_order_marks_and_removes
              manager0 heap_open registry_abc123 "abc123" 0%nat
              (apply_payload open_payload OPEN (Some (Finite false 5 (-1))) None
                 (Order_init (sample_params (Some "abc123"))))
              eq_refl eq_refl eq_refl)
    as (h' & o' & Hrun & Ho & Hs & (_ & _ & Hf & _) & Hr & _).
  exists h', o'. auto 10.
Defined.

(** X20: [update_order] and [cancel_order] never register anything: whether
    they return or raise, every id that is registered afterwards was
    registered before, for the same order object, and no order object is
    created. *)
Theorem update_and_cancel_never_register
    (self : OrderManager) (h : Heap) (cid : string) (data : gmap string pyval) :
  tracker_wf self h ->
  let h1 := heap_after (update_order self cid data) h in
  let h2 := heap_after (cancel_order self cid) h in
  (forall cid' l, registry self h1 !! cid' = Some l ->
                  registry self h !! cid' = Some l)
  /\ (forall cid' l, registry self h2 !! cid' = Some l ->
                     registry self h !! cid' = Some l)
  /\ length (orders h1) = length (orders h)
  /\ length (orders h2) = length (orders h).
Proof.
  intros (reg & Hreg & Hlt & _). cbv zeta.
  assert (Hr : registry self h = reg) by (unfold registry; now rewrite Hreg).
  assert (Hdel : forall (L : list Order) cid' l,
            registry self {| orders := L;
                             dicts := <[active_orders self := delete cid reg]>
                                        (dicts h) |} !! cid' = Some l ->
            reg !! cid' = Some l).
  { intros L cid' l. rewrite (registry_insert self _ _ reg _ Hreg).
    now intros [_ H]%lookup_delete_Some. }
  assert (Hsame : forall (L : list Order) cid' l,
            registry self {| orders := L; dicts := dicts h |} !! cid' = Some l ->
            reg !! cid' = Some l).
  { intros L cid' l. now rewrite (registry_same self _ _ reg Hreg). }
  rewrite Hr. unfold heap_after.
  destruct (reg !! cid) as [l|] eqn:Hid.
  2:{ rewrite (update_order_missing self h reg Hreg cid data Hid),
        (cancel_order_missing self h reg Hreg cid Hid), Hr.
      repeat split; auto. }
  destruct (lookup_lt_is_Some_2 (orders h) l (Hlt _ _ Hid)) as [o Hl].
  rewrite (cancel_order_run self h reg Hreg cid l o Hid Hl).
  destruct (update_order_run self h reg Hreg cid data l o Hid Hl)
    as ([[]|e] & o' & _ & _ & Hrun).
  - destruct Hrun as [_ ->]. cbn [orders]. rewrite !length_insert.
    destruct (is_terminal (status o'));
      repeat split; first [apply Hdel | apply Hsame].
  - rewrite Hrun. cbn [orders]. rewrite !length_insert.
    repeat split; first [apply Hdel | apply Hsame].
Qed.

Lemma update_and_cancel_never_register_witness :
  tracker_wf manager0 heap_abc123
  /\ (forall cid' l,
        registry manager0
          (heap_after (update_order manager0 "abc123" filled_null_quantity)
             heap_abc123) !! cid' = Some l ->
        registry manager0 heap_abc123 !! cid' = Some l).
Proof.
  assert (Hwf : tracker_wf manager0 heap_abc123)
    by (apply reachable_wf, reachable_call, reachable_init).
  split; [exact Hwf|].
  apply (proj1 (update_and_cancel_never_register
                  manager0 heap_abc123 "abc123" filled_null_quantity Hwf)).
Defined.

(** X21: as long as no call raises, the registry holds active orders only:
    in every state reached by [create_order], [update_order] and
    [cancel_order] calls that all return, every registered order has a
    non-terminal status, and no order object is registered under two ids. *)
Theorem registry_is_active_only_without_exceptions (h : Heap) :
  reachable_without_exception h ->
  (forall cid o, registered manager0 h cid = Some o ->
                 is_terminal (status o) = false)
  /\ (forall cid1 cid2 l,
        registry manager0 h !! cid1 = Some l ->
        registry manager0 h !! cid2 = Some l -> cid1 = cid2).
Proof.
  intros (reg & Hreg & Hact & Hinj)%reachable_without_exception_active_only.
  assert (Hr : registry manager0 h = reg) by (unfold registry; now rewrite Hreg).
  split.
  - intros cid o. unfold registered. rewrite Hr.
    destruct (reg !! cid) as [l|] eqn:Hid; [|discriminate].
    cbn [mbind option_bind]. intros Ho.
    destruct (Hact _ _ Hid) as (o' & Ho' & Hs). congruence.
  - rewrite Hr. exact Hinj.
Qed.

Lemma registry_is_active_only_without_exceptions_witness :
  reachable_without_exception heap_open
  /\ (forall cid o, registered manager0 heap_open cid = Some o ->
                    is_terminal (status o) = false).
Proof.
  assert (Hreach : reachable_without_exception heap_open).
  { apply rwe_call; [apply rwe_call; [apply rwe_init|]|].
    - do 2 eexists. reflexivity.
    - eexists. reflexivity. }
  split; [exact Hreach|].
  apply (proj1 (registry_is_active_only_without_exceptions heap_open Hreach)).
Defined.

(** ** Registered orders and their ids *)

Section OwnId.
Variable self : OrderManager.

Lemma filed_replace h (l : nat) o o' :
  filed_under_own_id self h ->
  orders h !! l = Some o -> params o' = params o ->
  filed_under_own_id self {| orders := <[l:=o']> (orders h); dicts := dicts h |}.
Proof.
  intros (reg & Hreg & Hown) Hl Hp. exists reg. split; [exact Hreg|].
  intros k l' Hk. cbn [orders]. destruct (Hown _ _ Hk) as (o0 & Ho0 & Hid).
  destruct (decide (l' = l)) as [->|Hne].
  - exists o'. split; [apply list_lookup_insert_eq; eapply lookup_lt_Some; eauto|].
    rewrite Hp. congruence.
  - exists o0. now rewrite list_lookup_insert_ne.
Qed.

Lemma filed_delete h reg cid :
  filed_under_own_id self h ->
  dicts h !! active_orders self = Some reg ->
  filed_under_own_id self
    {| orders := orders h;
       dicts := <[active_orders self := delete cid reg]> (dicts h) |}.
Proof.
  intros (reg' & Hreg & Hown) Hreg'. assert (reg' = reg) as -> by congruence.
  exists (delete cid reg). cbn [orders dicts]. split.
  - apply list_lookup_insert_eq. eapply lookup_lt_Some; eauto.
  - intros k l [_ Hk]%lookup_delete_Some. eauto.
Qed.

Lemma filed_create h p :
  filed_under_own_id self h ->
  filed_under_own_id self (heap_after (create_order self p) h).
Proof.
  intros (reg & Hreg & Hown).
  assert (Hold : forall k l, reg !! k = Some l ->
            exists o, (orders h ++ [Order_init p]) !! l = Some o
                      /\ client_order_id (params o) = Some k).
  { intros k l (o & Ho & Hid)%Hown. exists o. split; [|exact Hid].
    now apply lookup_app_l_Some. }
  unfold heap_after. rewrite (create_order_run self h reg Hreg).
  destruct (client_order_id p) as [cid|] eqn:Hcid; [|exists reg; auto].
  destruct (negb (String.eqb cid "")); [|exists reg; auto].
  exists (<[cid := length (orders h)]> reg). cbn [orders dicts]. split.
  - apply list_lookup_insert_eq. eapply lookup_lt_Some; eauto.
  - intros k l [[<- <-]|[_ Hk]]%lookup_insert_Some; [|eauto].
    exists (Order_init p). split; [|exact Hcid].
    now rewrite lookup_app_r, Nat.sub_diag.
Qed.

Lemma filed_update h cid data :
  filed_under_own_id self h ->
  filed_under_own_id self (heap_after (update_order self cid data) h).
Proof.
  intros Hf. pose proof Hf as (reg & Hreg & Hown). unfold heap_after.
  destruct (reg !! cid) as [l|] eqn:Hid.
  2:{ now rewrite (update_order_missing self h reg Hreg cid data Hid). }
  destruct (Hown _ _ Hid) as (o & Hl & _).
  destruct (update_order_run self h reg Hreg cid data l o Hid Hl)
    as ([[]|e] & o' & _ & Hp & Hrun).
  - destruct Hrun as [_ ->].
    pose proof (filed_replace h l o o' Hf Hl Hp) as Hf'.
    destruct (is_terminal (status o')); [|exact Hf'].
    apply (filed_delete _ reg cid Hf' Hreg).
  - rewrite Hrun. exact (filed_replace h l o o' Hf Hl Hp).
Qed.

Lemma filed_cancel h cid :
  filed_under_own_id self h ->
  filed_under_own_id self (heap_after (cancel_order self cid) h).
Proof.
  intros Hf. pose proof Hf as (reg & Hreg & Hown). unfold heap_after.
  destruct (reg !! cid) as [l|] eqn:Hid.
  2:{ now rewrite (cancel_order_missing self h reg Hreg cid Hid). }
  destruct (Hown _ _ Hid) as (o & Hl & _).
  rewrite (cancel_order_run self h reg Hreg cid l o Hid Hl).
  apply (filed_delete {| orders := _; dicts := dicts h |} reg cid);
    [|exact Hreg].
  now apply (filed_replace h l o).
Qed.

End OwnId.

Lemma reachable_filed h : reachable h -> filed_under_own_id manager0 h.
Proof.
  induction 1 as [|h c _ IH].
  - exists ∅. split; [reflexivity|]. intros k l Hk. simplify_map_eq.
  - destruct c; cbn [run_call];
      auto using filed_create, filed_update, filed_cancel.
Qed.

(** X22: in every state that calls of [create_order], [update_order] and
    [cancel_order] lead to, exceptions included, a registered order is filed
    under its own client order id, which is not empty; hence no order object
    is registered under two ids. *)
Theorem registered_orders_are_filed_under_their_id (h : Heap) :
  reachable h ->
  (forall cid o, registered manager0 h cid = Some o ->
                 client_order_id (params o) = Some cid /\ cid <> "")
  /\ (forall cid1 cid2 l,
        registry manager0 h !! cid1 = Some l ->
        registry manager0 h !! cid2 = Some l -> cid1 = cid2).
Proof.
  intros Hreach.
  destruct (reachable_filed h Hreach) as (reg & Hreg & Hown).
  destruct (reachable_wf h Hreach) as (reg' & Hreg' & _ & Hempty).
  assert (reg' = reg) as -> by congruence.
  assert (Hr : registry manager0 h = reg) by (unfold registry; now rewrite Hreg).
  split.
  - intros cid o. unfold registered. rewrite Hr.
    destruct (reg !! cid) as [l|] eqn:Hid; [|discriminate].
    cbn [mbind option_bind]. intros Ho.
    destruct (Hown _ _ Hid) as (o' & Ho' & Hcid).
    split; [congruence | intros ->; congruence].
  - rewrite Hr. intros cid1 cid2 l H1 H2.
    destruct (Hown _ _ H1) as (o1 & Ho1 & Hc1).
    destruct (Hown _ _ H2) as (o2 & Ho2 & Hc2). congruence.
Qed.

Lemma registered_orders_are_filed_under_their_id_witness :
  let h := run_calls manager0 sample_session heap0 in
  reachable h
  /\ registry manager0 h = {["def456" := 1%nat]}
  /\ (forall cid o, registered manager0 h cid = Some o ->
                    client_order_id (params o) = Some cid /\ cid <> "").
Proof.
  intros h.
  assert (Hreach : reachable h) by (repeat apply reachable_call; apply reachable_init).
  split; [exact Hreach|]. split; [reflexivity|].
  apply (proj1 (registered_orders_are_filed_under_their_id h Hreach)).
Defined.

(** ** The request body *)

(** X23: the keys of a request body.  Every body that [to_dict] returns
    has the seven base keys, ["clientOrderId"] exactly when the client order
    id is set and not empty, and of the three price keys exactly the one of
    the order type: a MARKET body has none, and a price field that the order
    type does not call for is never serialised, set or not. *)
Theorem to_dict_keys (self : Order) (body : gmap string pyval) :
  to_dict self = Ok body ->
  dom body
  = base_keys
    ∪ (if truthy_str (client_order_id (params self))
       then {["clientOrderId"]} else ∅)
    ∪ (match price_key (order_type (params self)) with
       | Some key => {[key]}
       | None => ∅
       end).
Proof.
  unfold to_dict, truthy_str, base_keys.
  set (ids := match client_order_id (params self) with
              | Some s => negb (String.eqb s "")
              | None => false
              end).
  set (base := match client_order_id (params self) with
               | Some id => if negb (String.eqb id "") then _ else _
               | None => _
               end).
  assert (Hbase : dom base
                  = list_to_set ["symbol"; "side"; "orderType"; "quantity";
                                 "leverage"; "timeInForce"; "reduceOnly"]
                    ∪ (if ids then {["clientOrderId"]} else ∅)).
  { subst base ids. destruct (client_order_id (params self)) as [id|];
      [destruct (negb (String.eqb id ""))|];
      rewrite ?dom_insert_L, dom_empty_L; cbn [list_to_set foldr]; set_solver. }
  destruct (order_type (params self)); cbn [price_key].
  - intros [= <-]. rewrite Hbase. set_solver.
  - destruct (required_price _ _); cbn [mbind result_bind]; intros [= <-].
    rewrite dom_insert_L, Hbase. set_solver.
  - destruct (required_price _ _); cbn [mbind result_bind]; intros [= <-].
    rewrite dom_insert_L, Hbase. set_solver.
  - destruct (required_price _ _); cbn [mbind result_bind]; intros [= <-].
    rewrite dom_insert_L, Hbase. set_solver.
Qed.

Lemma to_dict_keys_witness :
  exists body,
    to_dict (Order_init take_profit_params) = Ok body
    /\ dom body = base_keys ∪ {["clientOrderId"]} ∪ {["takeProfitPrice"]}
    /\ body !! "takeProfitPrice" = Some (VStr "4200.5")
    /\ body !! "price" = None
    /\ body !! "stopPrice" = None.
Proof.
  eexists. split; [reflexivity|].
  split; [|split; [|split]; reflexivity].
  apply (to_dict_keys (Order_init take_profit_params) _ eq_refl).
Defined.

(** X24: [to_dict] returns a body exactly when the price field that the
    order type calls for is set and not zero; a MARKET order is always
    serialised.  Nothing else decides: not the other price fields, not the
    quantity, not the state of the order. *)
Theorem to_dict_returns_exactly_when_required_price_is_set (self : Order) :
  (exists body, to_dict self = Ok body)
  <-> match required_field (params self) with
      | Some x => truthy_decimal x = true
      | None => True
      end.
Proof.
  unfold to_dict, required_field, required_price.
  destruct (order_type (params self)).
  - split; eauto.
  - destruct (price (params self)) as [d|]; cbn [truthy_decimal];
      [destruct (DecOps.truthy d)|]; cbn [negb mbind result_bind];
      split; eauto; try discriminate; now intros [? [=]].
  - destruct (stop_price (params self)) as [d|]; cbn [truthy_decimal];
      [destruct (DecOps.truthy d)|]; cbn [negb mbind result_bind];
      split; eauto; try discriminate; now intros [? [=]].
  - destruct (take_profit_price (params self)) as [d|]; cbn [truthy_decimal];
      [destruct (DecOps.truthy d)|]; cbn [negb mbind result_bind];
      split; eauto; try discriminate; now intros [? [=]].
Qed.

(** X25: [update_order] on a registered order has an outcome for every
    payload, it returns or raises, and in both cases the order keeps its
    parameters: the request body of the order is the same before and
    after. *)
Theorem update_order_keeps_the_request_body
    (self : OrderManager) (h : Heap) (reg : gmap string nat)
    (cid : string) (l : nat) (o : Order) (data : gmap string pyval) :
  dicts h !! active_orders self = Some reg ->
  reg !! cid = Some l ->
  orders h !! l = Some o ->
  exists r h' o',
    update_order self cid data h = Some (r, h')
    /\ orders h' !! l = Some o'
    /\ params o' = params o
    /\ to_dict o' = to_dict o.
Proof.
  intros Hreg Hid Hl.
  pose proof (lookup_lt_Some _ _ _ Hl) as Hlt.
  destruct (update_order_run self h reg Hreg cid data l o Hid Hl)
    as (r & o' & _ & Hp & Hrun).
  assert (Hbody : to_dict o' = to_dict o) by (unfold to_dict; now rewrite Hp).
  destruct r as [[]|e].
  - destruct Hrun as [_ Hrun]. do 3 eexists. split; [exact Hrun|].
    cbn [orders]. split; [now apply list_lookup_insert_eq | auto].
  - do 3 eexists. split; [exact Hrun|].
    cbn [orders]. split; [now apply list_lookup_insert_eq | auto].
Qed.

Lemma update_order_keeps_the_request_body_witness :
  dicts heap_abc123 !! active_orders manager0 = Some registry_abc123
  /\ registry_abc123 !! "abc123" = Some 0%nat
  /\ exists r h' o',
       update_order manager0 "abc123" filled_null_quantity heap_abc123
       = Some (r, h')
       /\ orders h' !! 0%nat = Some o'
       /\ to_dict o' = to_dict (Order_init (sample_params (Some "abc123"))).
Proof.
  split; [reflexivity|]. split; [reflexivity|].
  destruct (update_order_keeps_the_request_body
              manager0 heap_abc123 registry_abc123 "abc123" 0%nat
              (Order_init (sample_params (Some "abc123"))) filled_null_quantity
              eq_refl eq_refl eq_refl)
    as (r & h' & o' & Hrun & Ho & _ & Hbody).
  exists r, h', o'. auto.
Defined.

(** ** Snapshots and later calls *)

Lemma run_call_other_dicts self h c (d : nat) :
  tracker_wf self h -> d <> active_orders self ->
  dicts (run_call self c h) !! d = dicts h !! d.
Proof.
  intros (reg & Hreg & Hlt & _) Hne.
  assert (Hins : forall reg', <[active_orders self := reg']> (dicts h) !! d
                              = dicts h !! d)
    by (intros reg'; apply list_lookup_insert_ne; congruence).
  destruct c as [p|cid data|cid]; cbn [run_call]; unfold heap_after.
  - rewrite (create_order_run self h reg Hreg). cbn [dicts].
    destruct (client_order_id p) as [id|]; [|reflexivity].
    destruct (negb (String.eqb id "")); [apply Hins | reflexivity].
  - destruct (reg !! cid) as [l|] eqn:Hid.
    2:{ now rewrite (update_order_missing self h reg Hreg cid data Hid). }
    destruct (lookup_lt_is_Some_2 (orders h) l (Hlt _ _ Hid)) as [o Hl].
    destruct (update_order_run self h reg Hreg cid data l o Hid Hl)
      as ([[]|e] & o' & _ & _ & Hrun).
    + destruct Hrun as [_ ->]. cbn [dicts].
      destruct (is_terminal (status o')); [apply Hins | reflexivity].
    + now rewrite Hrun.
  - destruct (reg !! cid) as [l|] eqn:Hid.
    2:{ now rewrite (cancel_order_missing self h reg Hreg cid Hid). }
    destruct (lookup_lt_is_Some_2 (orders h) l (Hlt _ _ Hid)) as [o Hl].
    rewrite (cancel_order_run self h reg Hreg cid l o Hid Hl). apply Hins.
Qed.

Lemma run_calls_other_dicts self cs (d : nat) :
  forall h, tracker_wf self h -> d <> active_orders self ->
            dicts (run_calls self cs h) !! d = dicts h !! d.
Proof.
  induction cs as [|c cs IH]; intros h Hwf Hne; [reflexivity|].
  cbn [run_calls foldl]. fold (run_calls self cs (run_call self c h)).
  rewrite IH by auto using tracker_wf_call. now apply run_call_other_dicts.
Qed.

(** X26: a snapshot is a picture of the registry at the time of the call.
    Whatever [create_order], [update_order] and [cancel_order] calls follow,
    returning or raising, the map that [get_active_orders] returned keeps
    the entries it was returned with. *)
Theorem snapshot_survives_later_calls
    (self : OrderManager) (h : Heap) (cs : list call) :
  tracker_wf self h ->
  exists snapshot h1,
    get_active_orders self h = Some (Ok snapshot, h1)
    /\ dicts h1 !! snapshot = Some (registry self h)
    /\ dicts (run_calls self cs h1) !! snapshot = Some (registry self h).
Proof.
  intros Hwf. pose proof Hwf as (reg & Hreg & Hlt & He).
  pose proof (lookup_lt_Some _ _ _ Hreg) as Hlen.
  assert (Hr : registry self h = reg) by (unfold registry; now rewrite Hreg).
  do 2 eexists. split; [apply (get_active_orders_run self h reg Hreg)|].
  assert (Hsnap : (dicts h ++ [reg]) !! length (dicts h) = Some reg)
    by now rewrite lookup_app_r, Nat.sub_diag.
  rewrite Hr. split; [exact Hsnap|].
  rewrite run_calls_other_dicts; [exact Hsnap | | lia].
  exists reg. cbn [orders dicts]. repeat split; auto.
  now rewrite lookup_app_l.
Qed.

Lemma snapshot_survives_later_calls_witness :
  tracker_wf manager0 heap_abc123
  /\ exists snapshot h1,
       get_active_orders manager0 heap_abc123 = Some (Ok snapshot, h1)
       /\ dicts (run_calls manager0
                   [CancelOrder "abc123";
                    CreateOrder (sample_params (Some "def456"))] h1)
          !! snapshot = Some registry_abc123.
Proof.
  assert (Hwf : tracker_wf manager0 heap_abc123)
    by (apply reachable_wf, reachable_call, reachable_init).
  split; [exact Hwf|].
  destruct (snapshot_survives_later_calls
              manager0 heap_abc123
              [CancelOrder "abc123"; CreateOrder (sample_params (Some "def456"))]
              Hwf)
    as (snapshot & h1 & Hget & _ & Hlater).
  exists snapshot, h1. split; [exact Hget | exact Hlater].
Defined.

(** ** Updates that fail in a conversion *)

(** X27: [update_order] on a registered order with a payload whose status
    is the value of a member, but whose fill quantity or average price is
    present and no decimal, raises [decimal.InvalidOperation] half-way.  The
    exchange order id and the status are already those of the payload (and
    the filled quantity, when it is the average price that fails); the
    timestamp and the error message are still the old ones; the registry is
    unchanged, so the order stays registered even with a terminal status. *)
Theorem update_order_unparseable_decimal_not_atomic
    (self : OrderManager) (h : Heap) (reg : gmap string nat)
    (cid : string) (l : nat) (o : Order) (data : gmap string pyval)
    (st : OrderStatus) :
  dicts h !! active_orders self = Some reg ->
  reg !! cid = Some l ->
  orders h !! l = Some o ->
  OrderStatus_of (Py.get_default data "status" (VStr "PENDING")) = Ok st ->
  (payload_decimal data "fillQuantity" = Raise InvalidOperation
   \/ (exists fq, payload_decimal data "fillQuantity" = Ok fq)
      /\ payload_decimal data "averagePrice" = Raise InvalidOperation) ->
  exists h' o',
    update_order self cid data h = Some (Raise InvalidOperation, h')
    /\ registry self h' = reg
    /\ registered self h' cid = Some o'
    /\ status o' = st
    /\ exchange_order_id o' = default VNone (data !! "orderId")
    /\ (forall fq, payload_decimal data "fillQuantity" = Ok fq ->
                   filled_quantity o' = default (filled_quantity o) fq)
    /\ (payload_decimal data "fillQuantity" = Raise InvalidOperation ->
        filled_quantity o' = filled_quantity o)
    /\ average_fill_price o' = average_fill_price o
    /\ last_update_timestamp o' = last_update_timestamp o
    /\ error_message o' = error_message o
    /\ params o' = params o.
Proof.
  intros Hreg Hid Hl Hst Hfail.
  pose proof (lookup_lt_Some _ _ _ Hl) as Hlt.
  assert (Hrun : forall o',
            update_from_exchange l data
              {| orders := <[l:=o]> (orders h); dicts := dicts h |}
            = Some (Raise InvalidOperation,
                    {| orders := <[l:=o']> (orders h); dicts := dicts h |}) ->
            update_order self cid data h
            = Some (Raise InvalidOperation,
                    {| orders := <[l:=o']> (orders h); dicts := dicts h |})).
  { intros o' H. unfold update_order.
    rewrite bind_run, (read_dict_run _ reg), Hid by exact Hreg.
    now rewrite bind_run, (update_from_exchange_at l data h o Hl), H. }
  assert (Hview : forall o',
            registry self {| orders := <[l:=o']> (orders h); dicts := dicts h |} = reg
            /\ registered self
                 {| orders := <[l:=o']> (orders h); dicts := dicts h |} cid
               = Some o').
  { intros o'. unfold registered. rewrite (registry_same self _ _ reg Hreg), Hid.
    cbn [orders mbind option_bind]. now rewrite list_lookup_insert_eq. }
  destruct Hfail as [Hfq | [[fq Hfq] Hap]].
  - exists {| orders := <[l := set_status st
                                 (set_exchange_order_id (Py.get data "orderId") o)]>
                          (orders h);
              dicts := dicts h |},
           (set_status st (set_exchange_order_id (Py.get data "orderId") o)).
    split.
    { apply Hrun. rewrite update_from_exchange_run by exact Hlt. cbv zeta.
      now rewrite Hst, Hfq. }
    destruct (Hview (set_status st
                       (set_exchange_order_id (Py.get data "orderId") o)))
      as [Hr Hg].
    split; [exact Hr|]. split; [exact Hg|].
    repeat split. intros fq Hok. congruence.
  - exists {| orders := <[l := from_option
                                 (fun d => set_filled_quantity d
                                    (set_status st
                                       (set_exchange_order_id
                                          (Py.get data "orderId") o)))
                                 (set_status st
                                    (set_exchange_order_id
                                       (Py.get data "orderId") o)) fq]>
                          (orders h);
              dicts := dicts h |},
           (from_option
              (fun d => set_filled_quantity d
                          (set_status st
                             (set_exchange_order_id (Py.get data "orderId") o)))
              (set_status st (set_exchange_order_id (Py.get data "orderId") o))
              fq).
    split.
    { apply Hrun. rewrite update_from_exchange_run by exact Hlt. cbv zeta.
      now rewrite Hst, Hfq, Hap. }
    destruct (Hview (from_option
              (fun d => set_filled_quantity d
                          (set_status st
                             (set_exchange_order_id (Py.get data "orderId") o)))
              (set_status st (set_exchange_order_id (Py.get data "orderId") o))
              fq)) as [Hr Hg].
    split; [exact Hr|]. split; [exact Hg|].
    destruct fq as [d|]; cbn [from_option]; repeat split;
      try (intros fq' Hok; rewrite Hfq in Hok; now injection Hok as <-);
      intros Hbad; congruence.
Qed.

Lemma update_order_unparseable_decimal_not_atomic_witness :
  dicts heap_open !! active_orders manager0 = Some registry_abc123
  /\ registry_abc123 !! "abc123" = Some 0%nat
  /\ OrderStatus_of (Py.get_default cancelled_bad_average "status" (VStr "PENDING"))
     = Ok CANCELLED
  /\ payload_decimal cancelled_bad_average "fillQuantity"
     = Ok (Some (Finite false 25 (-2)))
  /\ payload_decimal cancelled_bad_average "averagePrice" = Raise InvalidOperation
  /\ exists h' o',
       update_order manager0 "abc123" cancelled_bad_average heap_open
       = Some (Raise InvalidOperation, h')
       /\ registered manager0 h' "abc123" = Some o'
       /\ status o' = CANCELLED
       /\ exchange_order_id o' = VNone
       /\ last_update_timestamp o' = VInt 1700000000000.
Proof.
  split; [reflexivity|]. split; [reflexivity|]. split; [reflexivity|].
  split; [reflexivity|]. split; [reflexivity|].
  destruct (update_order_unparseable_decimal_not_atomic
              manager0 heap_open registry_abc123 "abc123" 0%nat
              (apply_payload open_payload OPEN (Some (Finite false 5 (-1))) None
                 (Order_init (sample_params (Some "abc123"))))
              cancelled_bad_average CANCELLED
              eq_refl eq_refl eq_refl eq_refl
              (or_intror (conj (ex_intro _ (Some (Finite false 25 (-2))) eq_refl)
                               eq_refl)))
    as (h' & o' & Hrun & _ & Hg & Hs & Hx & _ & _ & _ & Ht & _).
  exists h', o'. auto 10.
Defined.

(** ** Further sample inputs *)

Lemma validate_leverage_range_witness :
  Py.int (VStr " 20 ") = Ok 20
  /\ validate_leverage (VStr " 20 ") (VInt 100) = Ok 20
  /\ validate_leverage (VStr " 20 ") (VInt 0) <> Ok 20.
Proof.
  split; [reflexivity|]. split.
  - apply (proj1 (validate_leverage_range (VStr " 20 ") 100 20)).
    split; [reflexivity | lia].
  - apply (proj2 (validate_leverage_range (VStr " 20 ") 0 20)). lia.
Defined.

Lemma validate_symbol_accepts_exactly_witness :
  validate_symbol (VStr "BTC-USDT") = Ok "BTC-USDT"
  /\ up_to_newline symbol_format "BTC-USDT".
Proof.
  split; [reflexivity|].
  apply (proj1 (validate_symbol_accepts_exactly (VStr "BTC-USDT"))).
  reflexivity.
Defined.

Lemma validate_client_order_id_accepts_exactly_witness :
  validate_client_order_id (VStr "order_1-A") = Ok "order_1-A"
  /\ up_to_newline client_order_id_format "order_1-A".
Proof.
  split; [reflexivity|].
  apply (proj1 (validate_client_order_id_accepts_exactly (VStr "order_1-A"))).
  reflexivity.
Defined.

Lemma to_dict_returns_exactly_when_required_price_is_set_witness :
  required_field (params (Order_init (limit_params (Some Dec.zero))))
  = Some (Some Dec.zero)
  /\ ~ (exists body, to_dict (Order_init (limit_params (Some Dec.zero))) = Ok body).
Proof.
  split; [reflexivity|]. intros H.
  apply (proj1 (to_dict_returns_exactly_when_required_price_is_set
                  (Order_init (limit_params (Some Dec.zero))))) in H.
  discriminate H.
Defined.
